(** * Habit tracker: schedule resolution, interval rescheduling and streaks

    A shallow embedding of the habit repository of the application
    (the module imported as [@/database/habit-repository]) and of
    [formatDateString] from [database/database.ts].

    - A JavaScript [Date] is modelled by the calendar day it denotes in local
      time ([Day z], [z] counting days from 1970-01-01) or [InvalidDate] (a
      date whose time value is NaN).  The time of day is dropped: the
      repository reads a [Date] only through [getFullYear], [getMonth],
      [getDate] and [getDay], and writes it only through [setDate].
      ECMAScript's limit of 100,000,000 days on either side of 1970-01-01 is
      not modelled: [setDate] counts on, where JavaScript gives an invalid
      date.  The theorems that compare or read back date strings stay within
      the years 1000..9999, and those on the date [completeHabit] writes
      within the days a [Date] can hold ([Checks.date_range]).
    - A JavaScript number that holds an integer or NaN is an [option Z]; the
      quotients the repository rounds are quotients of day counts, far below
      the 2^53 up to which doubles are exact.
    - The four SQLite tables are lists of rows; a query is a filter, a join is
      a [flat_map]; SQL's three-valued logic is kept ([option bool]).
    - The columns [id] and [created_at] of [habit_days] and
      [habit_completions] are filled in by SQLite and never read back (but for
      [c.id IS NOT NULL], true of every row), so the rows do not carry them. *)

From Stdlib Require Import ZArith List String Ascii Bool Lia.
From Stdlib Require Import DecimalString Sorted.
Import ListNotations.

Open Scope Z_scope.

(** ** The proleptic Gregorian calendar of ECMAScript *)

Module Calendar.

(** Year of the era, month (1..12) and day of the month of the day [doe] of
    a 400-year era; an era starts on a 1st of March, and January and February
    belong to the following civil year. *)
Definition civil_of_doe (doe : Z) : Z * Z * Z :=
  let yoe := (doe - doe / 1460 + doe / 36524 - doe / 146096) / 365 in
  let doy := doe - (365 * yoe + yoe / 4 - yoe / 100) in
  let mp := (5 * doy + 2) / 153 in
  let d := doy - (153 * mp + 2) / 5 + 1 in
  let m := if mp <? 10 then mp + 3 else mp - 9 in
  (if m <=? 2 then yoe + 1 else yoe, m, d).

(** Year, month (1..12) and day of the month of day number [z]. *)
Definition civil_from_days (z : Z) : Z * Z * Z :=
  let z0 := z + 719468 in
  let era := z0 / 146097 in
  let '(y, m, d) := civil_of_doe (z0 mod 146097) in
  (y + 400 * era, m, d).

(** Day number of the calendar date [y]-[m]-[d], [m] in 1..12. *)
Definition days_from_civil (y m d : Z) : Z :=
  let y' := if m <=? 2 then y - 1 else y in
  let era := y' / 400 in
  let yoe := y' mod 400 in
  let mp := (m + 9) mod 12 in
  let doy := (153 * mp + 2) / 5 + d - 1 in
  let doe := yoe * 365 + yoe / 4 - yoe / 100 + doy in
  era * 146097 + doe - 719468.

(** ECMAScript's YearFromTime, MonthFromTime (0..11), DateFromTime and
    WeekDay (0 = Sunday), on day numbers. *)
Definition YearFromDay (z : Z) : Z := fst (fst (civil_from_days z)).
Definition MonthFromDay (z : Z) : Z := snd (fst (civil_from_days z)) - 1.
Definition DateFromDay (z : Z) : Z := snd (civil_from_days z).
Definition WeekDay (z : Z) : Z := (z + 4) mod 7.

(** ECMAScript's MakeDay: months outside 0..11 carry into the year, and the
    day of the month is added as a plain number of days. *)
Definition MakeDay (year month date : Z) : Z :=
  days_from_civil (year + month / 12) (month mod 12 + 1) 1 + date - 1.

End Calendar.

(** ** JavaScript numbers, strings and dates *)

Module Js.
Import Calendar.

Local Open Scope string_scope.

(** [String(n)] and template interpolation of a number. *)
Definition String_of_number (n : option Z) : string :=
  match n with
  | None => "NaN"
  | Some z =>
      if (z <? 0)%Z then "-" ++ NilZero.string_of_uint (N.to_uint (Z.to_N (- z)))
      else NilZero.string_of_uint (N.to_uint (Z.to_N z))
  end.

Fixpoint repeat_char (c : ascii) (n : nat) : string :=
  match n with
  | O => EmptyString
  | S k => String c (repeat_char c k)
  end.

(** [s.padStart(len, c)] for a one-character filler. *)
Definition padStart (len : nat) (c : ascii) (s : string) : string :=
  repeat_char c (len - String.length s)%nat ++ s.

(** [s.split('-')]. *)
Fixpoint split_dash (s : string) : list string :=
  match s with
  | EmptyString => [EmptyString]
  | String c rest =>
      if Ascii.eqb c "-" then EmptyString :: split_dash rest
      else match split_dash rest with
           | [] => [String c EmptyString]
           | p :: ps => String c p :: ps
           end
  end.

(** [Number(s)] on a piece of a date string.  Exact on strings of decimal
    digits (the empty string is 0), which is what [formatDateString] writes;
    every other string is NaN here, although JavaScript also reads signs,
    blanks, fractions and exponents. *)
Definition Number_of_string (s : string) : option Z :=
  option_map (fun u => Z.of_N (N.of_uint u)) (NilEmpty.uint_of_string s).

Inductive Date : Type :=
  | InvalidDate
  | Day (z : Z).

Definition getFullYear (t : Date) : option Z :=
  match t with InvalidDate => None | Day z => Some (YearFromDay z) end.
Definition getMonth (t : Date) : option Z :=
  match t with InvalidDate => None | Day z => Some (MonthFromDay z) end.
Definition getDate (t : Date) : option Z :=
  match t with InvalidDate => None | Day z => Some (DateFromDay z) end.
Definition getDay (t : Date) : option Z :=
  match t with InvalidDate => None | Day z => Some (WeekDay z) end.

(** Arithmetic on numbers that may be NaN. *)
Definition num_add (a b : option Z) : option Z :=
  match a, b with Some x, Some y => Some (x + y) | _, _ => None end.
Definition num_sub (a b : option Z) : option Z :=
  match a, b with Some x, Some y => Some (x - y) | _, _ => None end.
Definition num_mul (a b : option Z) : option Z :=
  match a, b with Some x, Some y => Some (x * y) | _, _ => None end.

(** [Math.floor(a / b)] and [Math.ceil(a / b)].  A zero divisor gives an
    infinity or NaN; the repository multiplies the result by that same zero,
    which is NaN in both cases, so both are NaN here. *)
Definition floor_div (a b : option Z) : option Z :=
  match a, b with
  | Some x, Some y => if (y =? 0)%Z then None else Some (x / y)%Z
  | _, _ => None
  end.
Definition ceil_div (a b : option Z) : option Z :=
  match a, b with
  | Some x, Some y => if (y =? 0)%Z then None else Some (- ((- x) / y))%Z
  | _, _ => None
  end.

(** Years 0..99 are read as 1900..1999 by [Date.UTC] and by the [Date]
    constructor with components. *)
Definition full_year (y : Z) : Z :=
  if ((0 <=? y) && (y <=? 99))%Z then (1900 + y)%Z else y.

(** [Date.UTC(year, month, day)], in milliseconds. *)
Definition Date_UTC (year month day : option Z) : option Z :=
  match year, month, day with
  | Some y, Some m, Some d => Some (MakeDay (full_year y) m d * 86400000)%Z
  | _, _, _ => None
  end.

(** [new Date(year, month, day)]. *)
Definition new_Date (year month day : option Z) : Date :=
  match year, month, day with
  | Some y, Some m, Some d => Day (MakeDay (full_year y) m d)
  | _, _, _ => InvalidDate
  end.

(** [t.setDate(n)], for a result within the range of [Date]; the range is
    not checked here. *)
Definition setDate (t : Date) (n : option Z) : Date :=
  match t, n with
  | Day z, Some k => Day (MakeDay (YearFromDay z) (MonthFromDay z) k)
  | _, _ => InvalidDate
  end.

End Js.

(** ** The store: the four tables of [initializeSchema] *)

Module Schema.

Local Open Scope string_scope.

Inductive HabitScheduleType : Type := daily | custom | interval.

Definition schedule_type_eqb (a b : HabitScheduleType) : bool :=
  match a, b with
  | daily, daily | custom, custom | interval, interval => true
  | _, _ => false
  end.

(** A row of [habits] (alias [h] in the queries). *)
Record HabitRow : Type := mkHabitRow {
  h_id : string;
  h_name : string;
  h_schedule_type : HabitScheduleType;
  h_interval_days : option Z;
  h_one_time_date : option string;
  h_created_at : string;
  h_updated_at : string
}.

(** A row of [habit_days] (alias [hd]). *)
Record HabitDayRow : Type := mkHabitDayRow {
  hd_habit_id : string;
  hd_day_of_week : Z
}.

(** A row of [habit_completions] (alias [c]). *)
Record HabitCompletionRow : Type := mkHabitCompletionRow {
  c_habit_id : string;
  c_completed_date : string
}.

(** A row of [interval_habit_state] (alias [ihs]). *)
Record IntervalHabitStateRow : Type := mkIntervalHabitStateRow {
  ihs_habit_id : string;
  ihs_last_completed : option string;
  ihs_last_due : option string;
  ihs_next_due : string;
  ihs_reschedule_if_missed : Z
}.

Record Store : Type := mkStore {
  habits : list HabitRow;
  habit_days : list HabitDayRow;
  habit_completions : list HabitCompletionRow;
  interval_habit_state : list IntervalHabitStateRow
}.

(** The constraint a statement failed on, when it fails. *)
Inductive SqliteError : Type :=
  | PrimaryKeyConstraint
  | UniqueConstraint
  | CheckConstraint
  | ForeignKeyConstraint.

(** How an [async] function of the repository settles. *)
Inductive Outcome (A : Type) : Type :=
  | Resolved (a : A)
  | Rejected (e : SqliteError).
Arguments Resolved {A} a.
Arguments Rejected {A} e.

(** *** SQL's three-valued logic: [None] is NULL *)

Definition sql_bool : Type := option bool.

Definition sql_and (a b : sql_bool) : sql_bool :=
  match a, b with
  | Some false, _ | _, Some false => Some false
  | Some true, Some true => Some true
  | _, _ => None
  end.

Definition sql_or (a b : sql_bool) : sql_bool :=
  match a, b with
  | Some true, _ | _, Some true => Some true
  | Some false, Some false => Some false
  | _, _ => None
  end.

Declare Scope sql_scope.
Delimit Scope sql_scope with sql.
Notation "a 'AND' b" := (sql_and a b) (at level 40, left associativity) : sql_scope.
Notation "a 'OR' b" := (sql_or a b) (at level 50, left associativity) : sql_scope.

(** A WHERE or ON clause keeps the rows on which it is true. *)
Definition sql_true (a : sql_bool) : bool :=
  match a with Some true => true | _ => false end.

Definition sql_is_null {A : Type} (a : option A) : sql_bool :=
  match a with None => Some true | Some _ => Some false end.

Definition sql_not_null {A : Type} (a : option A) : sql_bool :=
  match a with None => Some false | Some _ => Some true end.

(** Comparisons of TEXT values, in the BINARY collation, and of INTEGERs. *)
Definition sql_text (f : string -> string -> bool) (a b : option string) : sql_bool :=
  match a, b with
  | Some x, Some y => Some (f x y)
  | _, _ => None
  end.

Definition text_eq : option string -> option string -> sql_bool := sql_text String.eqb.
Definition text_ne : option string -> option string -> sql_bool :=
  sql_text (fun x y => negb (String.eqb x y)).
Definition text_lt : option string -> option string -> sql_bool := sql_text String.ltb.
Definition text_le : option string -> option string -> sql_bool := sql_text String.leb.
Definition text_gt : option string -> option string -> sql_bool :=
  sql_text (fun x y => String.ltb y x).

Definition int_eq (a b : option Z) : sql_bool :=
  match a, b with
  | Some x, Some y => Some (x =? y)%Z
  | _, _ => None
  end.

(** [ORDER BY]: a stable insertion sort; [le x y] says that [x] may come
    before [y]. *)
Section OrderBy.
Context {A : Type} (le : A -> A -> bool).

Fixpoint insert_by (x : A) (l : list A) : list A :=
  match l with
  | [] => [x]
  | y :: l' => if le x y then x :: y :: l' else y :: insert_by x l'
  end.

Definition order_by (l : list A) : list A :=
  fold_right insert_by [] l.
End OrderBy.

Definition asc {A : Type} (key : A -> string) (x y : A) : bool :=
  String.leb (key x) (key y).
Definition desc {A : Type} (key : A -> string) (x y : A) : bool :=
  String.leb (key y) (key x).

End Schema.

(** ** The repository *)

Module Repo.
Import Calendar Js Schema.

Local Open Scope string_scope.

(** [formatDateString] of [database/database.ts]. *)
Definition formatDateString (date : Date) : string :=
  let year := getFullYear date in
  let month := padStart 2 "0" (String_of_number (num_add (getMonth date) (Some 1%Z))) in
  let day := padStart 2 "0" (String_of_number (getDate date)) in
  String_of_number year ++ "-" ++ month ++ "-" ++ day.

(** The objects handed to the caller. *)
Record Habit : Type := mkHabit {
  id : string;
  name : string;
  scheduleType : HabitScheduleType;
  intervalDays : option Z;
  oneTimeDate : option string;
  createdAt : string;
  updatedAt : string
}.

Record HabitWithCompletion : Type := mkHabitWithCompletion {
  habit : Habit;
  completed : bool
}.

Definition mapRowToHabit (row : HabitRow) : Habit :=
  {| id := h_id row;
     name := h_name row;
     scheduleType := h_schedule_type row;
     intervalDays := h_interval_days row;
     oneTimeDate := h_one_time_date row;
     createdAt := h_created_at row;
     updatedAt := h_updated_at row |}.

(** *** autoAdvanceOverdueIntervalHabits *)

(** A row of the SELECT of [autoAdvanceOverdueIntervalHabits]. *)
Record OverdueRow : Type := mkOverdueRow {
  habit_id : string;
  next_due : string;
  interval_days : option Z
}.

(** SELECT ihs.habit_id, ihs.next_due, h.interval_days
    FROM interval_habit_state ihs JOIN habits h ON h.id = ihs.habit_id
    WHERE ihs.reschedule_if_missed = 0 AND ihs.next_due < ? *)
Definition select_overdue (db : Store) (dateString : string) : list OverdueRow :=
  flat_map (fun ihs =>
    flat_map (fun h =>
      if (h_id h =? ihs_habit_id ihs)
         && (ihs_reschedule_if_missed ihs =? 0)%Z
         && (ihs_next_due ihs <? dateString)
      then [mkOverdueRow (ihs_habit_id ihs) (ihs_next_due ihs) (h_interval_days h)]
      else [])
      (habits db))
    (interval_habit_state db).

(** UPDATE interval_habit_state SET next_due = ?, last_due = ? WHERE habit_id = ? *)
Definition update_due (db : Store) (nextDue lastDue habitId : string) : Store :=
  {| habits := habits db;
     habit_days := habit_days db;
     habit_completions := habit_completions db;
     interval_habit_state :=
       map (fun ihs =>
              if ihs_habit_id ihs =? habitId
              then {| ihs_habit_id := ihs_habit_id ihs;
                      ihs_last_completed := ihs_last_completed ihs;
                      ihs_last_due := Some lastDue;
                      ihs_next_due := nextDue;
                      ihs_reschedule_if_missed := ihs_reschedule_if_missed ihs |}
              else ihs)
           (interval_habit_state db) |}.

(** A NULL [interval_days] is the number 0 in arithmetic. *)
Definition number_of_null (n : option Z) : option Z :=
  match n with Some k => Some k | None => Some 0%Z end.

(** [const [year, month, day] = s.split('-').map(Number)]: a missing piece is
    [undefined], NaN in arithmetic. *)
Definition piece (k : nat) (s : string) : option Z :=
  match nth_error (split_dash s) k with
  | Some p => Number_of_string p
  | None => None
  end.

(** The date the loop body moves [next_due] to, with the numbers it logs. *)
Definition daysPassed_of (referenceDate : Date) (nextDue : string) : option Z :=
  let year := piece 0 nextDue in
  let month := piece 1 nextDue in
  let day := piece 2 nextDue in
  let dueDateUtc := Date_UTC year (num_sub month (Some 1%Z)) day in
  let todayUtc :=
    Date_UTC (getFullYear referenceDate) (getMonth referenceDate) (getDate referenceDate) in
  floor_div (num_sub todayUtc dueDateUtc) (Some (1000 * 60 * 60 * 24)%Z).

Definition intervalsToAdd_of (referenceDate : Date) (habit : OverdueRow) : option Z :=
  ceil_div (daysPassed_of referenceDate (next_due habit))
           (number_of_null (interval_days habit)).

Definition newDueDate_of (referenceDate : Date) (habit : OverdueRow) : Date :=
  let year := piece 0 (next_due habit) in
  let month := piece 1 (next_due habit) in
  let day := piece 2 (next_due habit) in
  let intervalsToAdd := intervalsToAdd_of referenceDate habit in
  let newDueDate := new_Date year (num_sub month (Some 1%Z)) day in
  setDate newDueDate
    (num_add (getDate newDueDate)
             (num_mul intervalsToAdd (number_of_null (interval_days habit)))).

Definition lastDueDate_of (referenceDate : Date) (habit : OverdueRow) : Date :=
  let newDueDate := newDueDate_of referenceDate habit in
  setDate newDueDate
    (num_sub (getDate newDueDate) (number_of_null (interval_days habit))).

(** The body of the [for] loop. *)
Definition advance_one (referenceDate : Date) (db : Store) (habit : OverdueRow) : Store :=
  update_due db
    (formatDateString (newDueDate_of referenceDate habit))
    (formatDateString (lastDueDate_of referenceDate habit))
    (habit_id habit).

Definition autoAdvanceOverdueIntervalHabits (db : Store) (referenceDate : Date) : Store :=
  let dateString := formatDateString referenceDate in
  let overdueHabits := select_overdue db dateString in
  fold_left (advance_one referenceDate) overdueHabits db.

(** *** getHabitsForDate *)

(** EXISTS (SELECT 1 FROM habit_days hd
            WHERE hd.habit_id = h.id AND hd.day_of_week = ?) *)
Definition exists_habit_day (db : Store) (h : HabitRow) (dayOfWeek : option Z) : sql_bool :=
  Some (existsb (fun hd =>
          sql_true (Some (hd_habit_id hd =? h_id h)
                    AND int_eq (Some (hd_day_of_week hd)) dayOfWeek)%sql)
        (habit_days db)).

(** The condition on a row of [interval_habit_state] inside the EXISTS of the
    interval branch (after [ihs.habit_id = h.id]). *)
Definition interval_state_due (ihs : IntervalHabitStateRow) (dateString : string) : sql_bool :=
  let ds := Some dateString in
  let next_due := Some (ihs_next_due ihs) in
  let reschedule_if_missed := Some (ihs_reschedule_if_missed ihs) in
  (text_eq next_due ds
   OR (int_eq reschedule_if_missed (Some 1%Z) AND text_lt next_due ds)
   OR (int_eq reschedule_if_missed (Some 1%Z)
       AND sql_not_null (ihs_last_due ihs)
       AND sql_not_null (ihs_last_completed ihs)
       AND text_le (ihs_last_due ihs) ds
       AND text_gt (ihs_last_completed ihs) ds)
   OR (int_eq reschedule_if_missed (Some 0%Z)
       AND text_eq (ihs_last_due ihs) ds
       AND (sql_is_null (ihs_last_completed ihs)
            OR text_ne (ihs_last_completed ihs) (ihs_last_due ihs))))%sql.

Definition exists_interval_state (db : Store) (h : HabitRow) (dateString : string) : sql_bool :=
  Some (existsb (fun ihs =>
          sql_true (Some (ihs_habit_id ihs =? h_id h)
                    AND interval_state_due ihs dateString)%sql)
        (interval_habit_state db)).

(** The WHERE clause, on a row [h] joined with [c] ([None] where the LEFT JOIN
    found no completion). *)
Definition due_where (db : Store) (dateString : string) (dayOfWeek : option Z)
    (h : HabitRow) (c : option HabitCompletionRow) : sql_bool :=
  let schedule_type := h_schedule_type h in
  (Some (schedule_type_eqb schedule_type daily)
   OR (Some (schedule_type_eqb schedule_type custom)
       AND sql_is_null (h_one_time_date h)
       AND exists_habit_day db h dayOfWeek)
   OR (Some (schedule_type_eqb schedule_type custom)
       AND text_eq (h_one_time_date h) (Some dateString))
   OR (Some (schedule_type_eqb schedule_type interval)
       AND (sql_not_null c
            OR exists_interval_state db h dateString)))%sql.

(** FROM habits h LEFT JOIN habit_completions c
      ON h.id = c.habit_id AND c.completed_date = ? *)
Definition left_join_completions (db : Store) (dateString : string)
    : list (HabitRow * option HabitCompletionRow) :=
  flat_map (fun h =>
    match filter (fun c => (h_id h =? c_habit_id c) && (c_completed_date c =? dateString))
                 (habit_completions db) with
    | [] => [(h, None)]
    | cs => map (fun c => (h, Some c)) cs
    end)
    (habits db).

Definition select_due (db : Store) (dateString : string) (dayOfWeek : option Z)
    : list (HabitRow * option HabitCompletionRow) :=
  order_by (asc (fun row => h_created_at (fst row)))
    (filter (fun row => sql_true (due_where db dateString dayOfWeek (fst row) (snd row)))
            (left_join_completions db dateString)).

(** CASE WHEN c.id IS NOT NULL THEN 1 ELSE 0 END, read back as
    [row.completed === 1]. *)
Definition completed_of (c : option HabitCompletionRow) : bool :=
  match c with Some _ => true | None => false end.

Definition getHabitsForDate (db : Store) (date : Date) : Store * list HabitWithCompletion :=
  let dayOfWeek := getDay date in
  let dateString := formatDateString date in
  let db := autoAdvanceOverdueIntervalHabits db date in
  let rows := select_due db dateString dayOfWeek in
  (db, map (fun row => {| habit := mapRowToHabit (fst row);
                          completed := completed_of (snd row) |}) rows).

(** *** completeHabit and uncompleteHabit *)

(** INSERT OR IGNORE INTO habit_completions (habit_id, completed_date)
    VALUES (?, ?): a row that would break UNIQUE(habit_id, completed_date) is
    skipped; a row whose habit does not exist fails on the foreign key, which
    OR IGNORE does not cover. *)
Definition insert_or_ignore_completion (db : Store) (habitId dateString : string)
    : Outcome Store :=
  if existsb (fun c => (c_habit_id c =? habitId) && (c_completed_date c =? dateString))
             (habit_completions db)
  then Resolved db
  else if existsb (fun h => h_id h =? habitId) (habits db)
  then Resolved {| habits := habits db;
                   habit_days := habit_days db;
                   habit_completions :=
                     habit_completions db ++ [mkHabitCompletionRow habitId dateString];
                   interval_habit_state := interval_habit_state db |}
  else Rejected ForeignKeyConstraint.

(** UPDATE interval_habit_state
    SET last_completed = ?, last_due = ?, next_due = ? WHERE habit_id = ? *)
Definition update_completed (db : Store) (lastCompleted lastDue nextDue habitId : string)
    : Store :=
  {| habits := habits db;
     habit_days := habit_days db;
     habit_completions := habit_completions db;
     interval_habit_state :=
       map (fun ihs =>
              if ihs_habit_id ihs =? habitId
              then {| ihs_habit_id := ihs_habit_id ihs;
                      ihs_last_completed := Some lastCompleted;
                      ihs_last_due := Some lastDue;
                      ihs_next_due := nextDue;
                      ihs_reschedule_if_missed := ihs_reschedule_if_missed ihs |}
              else ihs)
           (interval_habit_state db) |}.

(** [habit.interval_days] as a condition: neither NULL nor 0. *)
Definition truthy_number (n : option Z) : bool :=
  match n with Some k => negb (k =? 0)%Z | None => false end.

Definition completeHabit (db : Store) (habitId : string) (date : Date) : Store * Outcome unit :=
  let dateString := formatDateString date in
  match insert_or_ignore_completion db habitId dateString with
  | Rejected e => (db, Rejected e)
  | Resolved db =>
      let habit := find (fun h => h_id h =? habitId) (habits db) in
      match habit with
      | Some habit =>
          if schedule_type_eqb (h_schedule_type habit) interval
             && truthy_number (h_interval_days habit)
          then
            let nextDue := setDate date (num_add (getDate date) (h_interval_days habit)) in
            let intervalState :=
              find (fun ihs => ihs_habit_id ihs =? habitId) (interval_habit_state db) in
            let lastDue :=
              match intervalState with
              | Some ihs => ihs_next_due ihs
              | None => dateString
              end in
            (update_completed db dateString lastDue (formatDateString nextDue) habitId,
             Resolved tt)
          else (db, Resolved tt)
      | None => (db, Resolved tt)
      end
  end.

(** DELETE FROM habit_completions WHERE habit_id = ? AND completed_date = ? *)
Definition uncompleteHabit (db : Store) (habitId : string) (date : Date) : Store :=
  let dateString := formatDateString date in
  {| habits := habits db;
     habit_days := habit_days db;
     habit_completions :=
       filter (fun c => negb ((c_habit_id c =? habitId) && (c_completed_date c =? dateString)))
              (habit_completions db);
     interval_habit_state := interval_habit_state db |}.

(** *** getStreak *)

(** SELECT completed_date FROM habit_completions
    WHERE habit_id = ? AND completed_date <= ? ORDER BY completed_date DESC *)
Definition select_completions_until (db : Store) (habitId today : string) : list string :=
  order_by (desc (fun d => d))
    (map c_completed_date
       (filter (fun c => (c_habit_id c =? habitId) && (c_completed_date c <=? today))
               (habit_completions db))).

Definition yesterday_of (t : Date) : Date :=
  setDate t (num_sub (getDate t) (Some 1%Z)).

(** The [for] loop of [getStreak]; leaving the recursion is its [break]. *)
Fixpoint streak_loop (completions : list string) (streak : nat) (expectedDate : Date) : nat :=
  match completions with
  | [] => streak
  | completed_date :: rest =>
      let expectedDateStr := formatDateString expectedDate in
      if completed_date =? expectedDateStr then
        streak_loop rest (S streak) (yesterday_of expectedDate)
      else if (streak =? 0)%nat then
        let expectedDate := yesterday_of expectedDate in
        if completed_date =? formatDateString expectedDate then
          streak_loop rest (S streak) (yesterday_of expectedDate)
        else streak
      else streak
  end.

(** [now] is the value of [new Date()]. *)
Definition getStreak (db : Store) (now : Date) (habitId : string) : nat :=
  let today := formatDateString now in
  let completions := select_completions_until db habitId today in
  match completions with
  | [] => 0%nat
  | _ => streak_loop completions 0 now
  end.

(** *** getDailyCompletionStreak *)

Definition isCompleteDay (db : Store) (date : Date) : Store * bool :=
  let '(db, habits) := getHabitsForDate db date in
  let completedCount := List.length (filter completed habits) in
  (db, (0 <? List.length habits)%nat && (completedCount =? List.length habits)%nat).

(** The [while] loop; [None] when [fuel] iterations do not end it. *)
Fixpoint streak_while (fuel : nat) (db : Store) (cursor : Date) (streak : nat)
    (complete : bool) : Store * option nat :=
  if complete then
    match fuel with
    | O => (db, None)
    | S fuel =>
        let streak := S streak in
        let cursor := yesterday_of cursor in
        let '(db, complete) := isCompleteDay db cursor in
        streak_while fuel db cursor streak complete
    end
  else (db, Some streak).

Definition getDailyCompletionStreak (fuel : nat) (db : Store) (startDate : Date)
    : Store * option nat :=
  let cursor := startDate in
  let '(db, isTodayComplete) := isCompleteDay db cursor in
  let cursor := if negb isTodayComplete then yesterday_of cursor else cursor in
  let streak := 0%nat in
  let '(db, complete) :=
    if negb isTodayComplete then isCompleteDay db cursor else (db, isTodayComplete) in
  streak_while fuel db cursor streak complete.

(** *** createHabit *)

Inductive NewHabit : Type :=
  | NewDailyHabit (name : string) (oneTimeDate : option string)
  | NewCustomHabit (name : string) (oneTimeDate : option string) (days : list Z)
  | NewIntervalHabit (name : string) (oneTimeDate : option string) (intervalDays : Z)
      (startDate : option string) (rescheduleIfMissed : option bool).

Definition nh_name (n : NewHabit) : string :=
  match n with
  | NewDailyHabit nm _ | NewCustomHabit nm _ _ | NewIntervalHabit nm _ _ _ _ => nm
  end.
Definition nh_scheduleType (n : NewHabit) : HabitScheduleType :=
  match n with
  | NewDailyHabit _ _ => daily
  | NewCustomHabit _ _ _ => custom
  | NewIntervalHabit _ _ _ _ _ => interval
  end.
Definition nh_oneTimeDate (n : NewHabit) : option string :=
  match n with
  | NewDailyHabit _ o | NewCustomHabit _ o _ | NewIntervalHabit _ o _ _ _ => o
  end.

(** A string as a condition: [undefined] and the empty string are false. *)
Definition truthy_string (s : option string) : bool :=
  match s with
  | Some s => negb (s =? "")
  | None => false
  end.

(** INSERT INTO habits (...) VALUES (...): [id] is the primary key. *)
Definition insert_habit (db : Store) (row : HabitRow) : Outcome Store :=
  if existsb (fun h => h_id h =? h_id row) (habits db)
  then Rejected PrimaryKeyConstraint
  else Resolved {| habits := habits db ++ [row];
                   habit_days := habit_days db;
                   habit_completions := habit_completions db;
                   interval_habit_state := interval_habit_state db |}.

(** INSERT INTO habit_days (habit_id, day_of_week) VALUES (?, ?), with
    CHECK (day_of_week >= 0 AND day_of_week <= 6), UNIQUE(habit_id, day_of_week)
    and the foreign key on [habits]. *)
Definition insert_habit_day (db : Store) (habitId : string) (day : Z) : Outcome Store :=
  if negb ((0 <=? day)%Z && (day <=? 6)%Z) then Rejected CheckConstraint
  else if existsb (fun hd => (hd_habit_id hd =? habitId) && (hd_day_of_week hd =? day)%Z)
                  (habit_days db)
  then Rejected UniqueConstraint
  else if negb (existsb (fun h => h_id h =? habitId) (habits db))
  then Rejected ForeignKeyConstraint
  else Resolved {| habits := habits db;
                   habit_days := habit_days db ++ [mkHabitDayRow habitId day];
                   habit_completions := habit_completions db;
                   interval_habit_state := interval_habit_state db |}.

(** The [for] loop over [newHabit.days]: the first failing INSERT ends it and
    keeps the rows written before. *)
Fixpoint insert_habit_days (db : Store) (habitId : string) (days : list Z)
    : Store * Outcome unit :=
  match days with
  | [] => (db, Resolved tt)
  | day :: rest =>
      match insert_habit_day db habitId day with
      | Rejected e => (db, Rejected e)
      | Resolved db => insert_habit_days db habitId rest
      end
  end.

(** INSERT INTO interval_habit_state (habit_id, next_due, reschedule_if_missed)
    VALUES (?, ?, ?): [habit_id] is the primary key. *)
Definition insert_interval_state (db : Store) (habitId nextDue : string)
    (rescheduleIfMissed : Z) : Outcome Store :=
  if existsb (fun ihs => ihs_habit_id ihs =? habitId) (interval_habit_state db)
  then Rejected PrimaryKeyConstraint
  else if negb (existsb (fun h => h_id h =? habitId) (habits db))
  then Rejected ForeignKeyConstraint
  else Resolved {| habits := habits db;
                   habit_days := habit_days db;
                   habit_completions := habit_completions db;
                   interval_habit_state :=
                     interval_habit_state db
                       ++ [mkIntervalHabitStateRow habitId None None nextDue rescheduleIfMissed] |}.

(** [newId] is the value of [generateId()], [now] of
    [new Date().toISOString()] and [today] of [new Date()].  The statements
    run outside any transaction: a failing one leaves the earlier writes. *)
Definition createHabit (db : Store) (newId now : string) (today : Date) (newHabit : NewHabit)
    : Store * Outcome Habit :=
  let id := newId in
  let oneTimeDate :=
    match nh_scheduleType newHabit with
    | custom => nh_oneTimeDate newHabit
    | _ => None
    end in
  let row :=
    {| h_id := id;
       h_name := nh_name newHabit;
       h_schedule_type := nh_scheduleType newHabit;
       h_interval_days :=
         match newHabit with
         | NewIntervalHabit _ _ n _ _ => Some n
         | _ => None
         end;
       h_one_time_date := oneTimeDate;
       h_created_at := now;
       h_updated_at := now |} in
  match insert_habit db row with
  | Rejected e => (db, Rejected e)
  | Resolved db =>
      let '(db, days_done) :=
        match newHabit with
        | NewCustomHabit _ o days =>
            if negb (truthy_string o) && (0 <? List.length days)%nat
            then insert_habit_days db id days
            else (db, Resolved tt)
        | _ => (db, Resolved tt)
        end in
      match days_done with
      | Rejected e => (db, Rejected e)
      | Resolved _ =>
          let '(db, state_done) :=
            match newHabit with
            | NewIntervalHabit _ _ _ startDate rescheduleIfMissed =>
                let startDate :=
                  if truthy_string startDate
                  then match startDate with Some s => s | None => "" end
                  else formatDateString today in
                let rescheduleIfMissed :=
                  match rescheduleIfMissed with Some true => 1%Z | _ => 0%Z end in
                match insert_interval_state db id startDate rescheduleIfMissed with
                | Rejected e => (db, Rejected e)
                | Resolved db => (db, Resolved tt)
                end
            | _ => (db, Resolved tt)
            end in
          match state_done with
          | Rejected e => (db, Rejected e)
          | Resolved _ =>
              (db, Resolved {| id := id;
                               name := nh_name newHabit;
                               scheduleType := nh_scheduleType newHabit;
                               intervalDays := h_interval_days row;
                               oneTimeDate := oneTimeDate;
                               createdAt := now;
                               updatedAt := now |})
          end
      end
  end.

End Repo.

(** ** The other functions of [database/habit-repository.ts] *)

Module Queries.
Import Calendar Js Schema Repo.

Local Open Scope string_scope.

(** *** getDailyHabits *)

(** SELECT * FROM habits WHERE schedule_type = 'daily' ORDER BY created_at ASC *)
Definition getDailyHabits (db : Store) : list Habit :=
  let rows :=
    order_by (asc h_created_at)
      (filter (fun h => schedule_type_eqb (h_schedule_type h) daily) (habits db)) in
  map mapRowToHabit rows.

(** *** getCustomHabits *)

Record HabitWithDays : Type := mkHabitWithDays {
  weekday_habit : Habit;
  days : list Z
}.

(** SELECT day_of_week FROM habit_days WHERE habit_id = ? ORDER BY day_of_week *)
Definition select_days (db : Store) (habitId : string) : list Z :=
  order_by Z.leb
    (map hd_day_of_week
       (filter (fun hd => hd_habit_id hd =? habitId) (habit_days db))).

(** SELECT * FROM habits
    WHERE schedule_type = 'custom' AND one_time_date IS NULL
    ORDER BY created_at ASC, then one query of [habit_days] for each row. *)
Definition getCustomHabits (db : Store) : list HabitWithDays :=
  let rows :=
    order_by (asc h_created_at)
      (filter (fun h =>
                 sql_true (Some (schedule_type_eqb (h_schedule_type h) custom)
                           AND sql_is_null (h_one_time_date h))%sql)
              (habits db)) in
  map (fun row => {| weekday_habit := mapRowToHabit row;
                     days := select_days db (h_id row) |}) rows.

(** *** getIntervalHabits *)

(** [intervalDays] is that of [interval_habit]: the row's [interval_days]. *)
Record IntervalHabit : Type := mkIntervalHabit {
  interval_habit : Habit;
  rescheduleIfMissed : bool;
  lastCompleted : option string;
  nextDue : string
}.

(** SELECT h.*, ihs.last_completed, ihs.next_due, ihs.reschedule_if_missed
    FROM habits h JOIN interval_habit_state ihs ON h.id = ihs.habit_id
    WHERE h.schedule_type = 'interval' ORDER BY h.created_at ASC *)
Definition select_interval_habits (db : Store) : list (HabitRow * IntervalHabitStateRow) :=
  order_by (asc (fun row => h_created_at (fst row)))
    (flat_map (fun h =>
       flat_map (fun ihs =>
         if (h_id h =? ihs_habit_id ihs)
            && schedule_type_eqb (h_schedule_type h) interval
         then [(h, ihs)] else [])
         (interval_habit_state db))
       (habits db)).

(** [referenceDate] is optional; [now] is the value of [new Date()]. *)
Definition getIntervalHabits (db : Store) (referenceDate : option Date) (now : Date)
    : Store * list IntervalHabit :=
  let db :=
    autoAdvanceOverdueIntervalHabits db
      (match referenceDate with Some d => d | None => now end) in
  let rows := select_interval_habits db in
  (db, map (fun row =>
              {| interval_habit := mapRowToHabit (fst row);
                 rescheduleIfMissed := (ihs_reschedule_if_missed (snd row) =? 1)%Z;
                 lastCompleted := ihs_last_completed (snd row);
                 nextDue := ihs_next_due (snd row) |}) rows).

(** *** getHabitsForDayOfWeek *)

(** The WHERE clause of [getHabitsForDayOfWeek]. *)
Definition day_of_week_where (db : Store) (dayOfWeek : option Z) (h : HabitRow) : sql_bool :=
  let schedule_type := h_schedule_type h in
  (Some (schedule_type_eqb schedule_type daily)
   OR (Some (schedule_type_eqb schedule_type custom)
       AND sql_is_null (h_one_time_date h)
       AND exists_habit_day db h dayOfWeek))%sql.

Definition getHabitsForDayOfWeek (db : Store) (dayOfWeek : option Z) (date : Date)
    : list HabitWithCompletion :=
  let dateString := formatDateString date in
  let rows :=
    order_by (asc (fun row => h_created_at (fst row)))
      (filter (fun row => sql_true (day_of_week_where db dayOfWeek (fst row)))
              (left_join_completions db dateString)) in
  map (fun row => {| habit := mapRowToHabit (fst row);
                     completed := completed_of (snd row) |}) rows.

(** *** deleteHabit and clearAllData *)

(** DELETE FROM habits WHERE id = ?, with [PRAGMA foreign_keys = ON] and
    ON DELETE CASCADE on the three tables that refer to [habits]: the rows of
    a deleted habit go with it; where no habit is deleted nothing else is. *)
Definition deleteHabit (db : Store) (habitId : string) : Store :=
  if existsb (fun h => h_id h =? habitId) (habits db)
  then {| habits := filter (fun h => negb (h_id h =? habitId)) (habits db);
          habit_days :=
            filter (fun hd => negb (hd_habit_id hd =? habitId)) (habit_days db);
          habit_completions :=
            filter (fun c => negb (c_habit_id c =? habitId)) (habit_completions db);
          interval_habit_state :=
            filter (fun ihs => negb (ihs_habit_id ihs =? habitId))
                   (interval_habit_state db) |}
  else db.

(** DELETE FROM habit_completions; DELETE FROM habit_days;
    DELETE FROM interval_habit_state; DELETE FROM habits; *)
Definition clearAllData (db : Store) : Store :=
  let db := {| habits := habits db; habit_days := habit_days db;
               habit_completions := [];
               interval_habit_state := interval_habit_state db |} in
  let db := {| habits := habits db; habit_days := [];
               habit_completions := habit_completions db;
               interval_habit_state := interval_habit_state db |} in
  let db := {| habits := habits db; habit_days := habit_days db;
               habit_completions := habit_completions db;
               interval_habit_state := [] |} in
  {| habits := []; habit_days := habit_days db;
     habit_completions := habit_completions db;
     interval_habit_state := interval_habit_state db |}.

(** *** getWeekProgress *)

(** The seven strings the [for] loop pushes. *)
Definition weekDates_of (weekStartDate : Date) : list string :=
  map (fun i =>
         let date := weekStartDate in
         let date := setDate date (num_add (getDate date) (Some (Z.of_nat i))) in
         formatDateString date)
      (seq 0 7).

(** SELECT completed_date FROM habit_completions
    WHERE habit_id = ? AND completed_date IN (?,?,?,?,?,?,?); the answer is
    looked up in the set of the dates found. *)
Definition getWeekProgress (db : Store) (habitId : string) (weekStartDate : Date)
    : list bool :=
  let weekDates := weekDates_of weekStartDate in
  let completions :=
    map c_completed_date
      (filter (fun c => (c_habit_id c =? habitId)
                        && existsb (fun d => c_completed_date c =? d) weekDates)
              (habit_completions db)) in
  let completedDates := completions in
  map (fun date => existsb (fun d => d =? date) completedDates) weekDates.

(** *** getTotalCompletions *)

(** SELECT COUNT( * ) as count FROM habit_completions *)
Definition getTotalCompletions (db : Store) : nat :=
  List.length (habit_completions db).

End Queries.

(** ** The hook of the Today view, [useHabitsForDate] *)

Module Hooks.
Import Calendar Js Schema Repo.

Local Open Scope string_scope.

(** [refresh]: the list the hook holds is read again. *)
Definition refresh (db : Store) (date : Date) : Store * list HabitWithCompletion :=
  getHabitsForDate db date.

(** [toggleHabit], on the list [habits] the hook holds: a habit that is not
    in the list is left alone; a rejected write ends the callback before the
    refresh, the list staying as it was. *)
Definition toggleHabit (db : Store) (habits : list HabitWithCompletion) (date : Date)
    (habitId : string) : Store * Outcome (list HabitWithCompletion) :=
  match find (fun h => id (habit h) =? habitId) habits with
  | None => (db, Resolved habits)
  | Some habit =>
      if completed habit then
        let db := uncompleteHabit db habitId date in
        let '(db, data) := refresh db date in
        (db, Resolved data)
      else
        match completeHabit db habitId date with
        | (db, Rejected e) => (db, Rejected e)
        | (db, Resolved _) =>
            let '(db, data) := refresh db date in
            (db, Resolved data)
        end
  end.

End Hooks.

(** ** The screens: what they compute before they call the repository *)

Module Screens.
Import Calendar Js Schema Repo Queries.

Local Open Scope string_scope.

(** A number as a condition: NaN and 0 are false. *)
Definition falsy_number (n : option Z) : bool := negb (truthy_number n).

(** The date the modals [add-today-habit] and [add-interval-habit] read from
    their [date] parameter; [now] is the value of [new Date()]. *)
Definition date_of_param (dateParam : option string) (now : Date) : Date :=
  if negb (truthy_string dateParam) then now
  else
    let s := match dateParam with Some s => s | None => "" end in
    let year := piece 0 s in
    let month := piece 1 s in
    let day := piece 2 s in
    if falsy_number year || falsy_number month || falsy_number day then now
    else new_Date year (num_sub month (Some 1%Z)) day.

(** [handleSave] of [AddTodayHabitModal]; [trimmed] is the value of
    [name.trim()], the other arguments those of [createHabit]. *)
Definition AddTodayHabitModal_handleSave (db : Store) (newId now : string) (today : Date)
    (trimmed : string) (targetDate : Date) : Store * Outcome unit :=
  if negb (truthy_string (Some trimmed)) then (db, Resolved tt)
  else
    match createHabit db newId now today
            (NewCustomHabit trimmed (Some (formatDateString targetDate)) []) with
    | (db, Rejected e) => (db, Rejected e)
    | (db, Resolved _) => (db, Resolved tt)
    end.

(** [handleSave] of [AddCustomHabitModal], [selectedDays] being the state
    [DayPicker] writes. *)
Definition AddCustomHabitModal_handleSave (db : Store) (newId now : string) (today : Date)
    (trimmed : string) (selectedDays : list Z) : Store * Outcome unit :=
  if negb (truthy_string (Some trimmed)) || (List.length selectedDays =? 0)%nat
  then (db, Resolved tt)
  else
    match createHabit db newId now today (NewCustomHabit trimmed None selectedDays) with
    | (db, Rejected e) => (db, Rejected e)
    | (db, Resolved _) => (db, Resolved tt)
    end.

(** The start date [handleSave] of [AddIntervalHabitModal] computes. *)
Definition startDate_of (referenceDate : Date) (startToday : bool) (intervalDays : Z)
    : string :=
  if startToday then formatDateString referenceDate
  else
    let futureDate := referenceDate in
    let futureDate :=
      setDate futureDate (num_add (getDate futureDate) (Some intervalDays)) in
    formatDateString futureDate.

Definition AddIntervalHabitModal_handleSave (db : Store) (newId now : string) (today : Date)
    (trimmed : string) (referenceDate : Date) (intervalDays : Z)
    (startToday rescheduleIfMissed : bool) : Store * Outcome unit :=
  if negb (truthy_string (Some trimmed)) then (db, Resolved tt)
  else
    let startDate := startDate_of referenceDate startToday intervalDays in
    match createHabit db newId now today
            (NewIntervalHabit trimmed None intervalDays (Some startDate)
                              (Some rescheduleIfMissed)) with
    | (db, Rejected e) => (db, Rejected e)
    | (db, Resolved _) => (db, Resolved tt)
    end.

(** [Math.round(a / b)] for a positive [b]: the nearest integer, a half
    going up. *)
Definition round_div (a b : option Z) : option Z :=
  match a, b with
  | Some x, Some y => if (y <=? 0)%Z then None else Some ((2 * x + y) / (2 * y))%Z
  | _, _ => None
  end.

(** [Math.max(a, b)]: NaN where one of them is. *)
Definition num_max (a b : option Z) : option Z :=
  match a, b with Some x, Some y => Some (Z.max x y) | _, _ => None end.

Definition MS_PER_DAY : Z := 24 * 60 * 60 * 1000.

(** [getDaysUntilDate] of the home screen, [today] being its state;
    [None] is [undefined]. *)
Definition getDaysUntilDate (today : Date) (dateString : option string)
    : option (option Z) :=
  if negb (truthy_string dateString) then None
  else
    let s := match dateString with Some s => s | None => "" end in
    let year := piece 0 s in
    let month := piece 1 s in
    let day := piece 2 s in
    let dueUtc := Date_UTC year (num_sub month (Some 1%Z)) day in
    let todayUtc := Date_UTC (getFullYear today) (getMonth today) (getDate today) in
    let diffDays := round_div (num_sub dueUtc todayUtc) (Some MS_PER_DAY) in
    Some (num_max (Some 0%Z) diffDays).

(** [selectedDays.sort()]: without a comparator the numbers are compared as
    the strings they print as. *)
Definition sort_default (l : list Z) : list Z :=
  order_by (asc (fun d => String_of_number (Some d))) l.

(** [toggleDay] of [DayPicker], as the new value of [selectedDays]. *)
Definition toggleDay (selectedDays : list Z) (dayIndex : Z) : list Z :=
  if existsb (fun d => (d =? dayIndex)%Z) selectedDays
  then filter (fun d => negb (d =? dayIndex)%Z) selectedDays
  else sort_default (selectedDays ++ [dayIndex]).

(** The indices of the buttons of [DayPicker]. *)
Definition DAYS : list Z := [0; 1; 2; 3; 4; 5; 6]%Z.

(** *** The edit screen, [app/modal/edit-habit.tsx] *)

Record HabitDetails : Type := mkHabitDetails {
  details_id : string;
  details_name : string;
  details_scheduleType : HabitScheduleType;
  details_intervalDays : option Z;
  details_days : option (list Z)
}.

(** [loadHabit]: SELECT * FROM habits WHERE id = ?, and for a custom habit
    SELECT day_of_week FROM habit_days WHERE habit_id = ?, which has no ORDER
    BY: SQLite answers it from the index of UNIQUE(habit_id, day_of_week), in
    the order of [day_of_week].  The result is the state [habit] of the
    screen ([None] where no row is found); its days are also the first value
    of the state [selectedDays]. *)
Definition loadHabit (db : Store) (habitId : string) : option HabitDetails :=
  match find (fun h => h_id h =? habitId) (habits db) with
  | Some habitRow =>
      Some {| details_id := h_id habitRow;
              details_name := h_name habitRow;
              details_scheduleType := h_schedule_type habitRow;
              details_intervalDays := h_interval_days habitRow;
              details_days :=
                if schedule_type_eqb (h_schedule_type habitRow) custom
                then Some (order_by Z.leb
                             (map hd_day_of_week
                                (filter (fun hd => hd_habit_id hd =? habitId)
                                        (habit_days db))))
                else None |}
  | None => None
  end.

(** UPDATE habits SET name = ?, updated_at = ? WHERE id = ? *)
Definition update_name (db : Store) (name updatedAt habitId : string) : Store :=
  {| habits :=
       map (fun h =>
              if h_id h =? habitId
              then {| h_id := h_id h;
                      h_name := name;
                      h_schedule_type := h_schedule_type h;
                      h_interval_days := h_interval_days h;
                      h_one_time_date := h_one_time_date h;
                      h_created_at := h_created_at h;
                      h_updated_at := updatedAt |}
              else h)
           (habits db);
     habit_days := habit_days db;
     habit_completions := habit_completions db;
     interval_habit_state := interval_habit_state db |}.

(** DELETE FROM habit_days WHERE habit_id = ? *)
Definition delete_days (db : Store) (habitId : string) : Store :=
  {| habits := habits db;
     habit_days := filter (fun hd => negb (hd_habit_id hd =? habitId)) (habit_days db);
     habit_completions := habit_completions db;
     interval_habit_state := interval_habit_state db |}.

(** UPDATE habits SET interval_days = ? WHERE id = ? *)
Definition update_interval_days (db : Store) (intervalDays : Z) (habitId : string)
    : Store :=
  {| habits :=
       map (fun h =>
              if h_id h =? habitId
              then {| h_id := h_id h;
                      h_name := h_name h;
                      h_schedule_type := h_schedule_type h;
                      h_interval_days := Some intervalDays;
                      h_one_time_date := h_one_time_date h;
                      h_created_at := h_created_at h;
                      h_updated_at := h_updated_at h |}
              else h)
           (habits db);
     habit_days := habit_days db;
     habit_completions := habit_completions db;
     interval_habit_state := interval_habit_state db |}.

(** [handleSave] of [EditHabitModal]; [trimmed] is the value of
    [name.trim()], [now] of [new Date().toISOString()], and [habit],
    [selectedDays] and [intervalDays] are the states of the screen.  The
    statements run one by one: a rejected INSERT keeps the writes before
    it. *)
Definition EditHabitModal_handleSave (db : Store) (habitId trimmed now : string)
    (habit : option HabitDetails) (selectedDays : list Z) (intervalDays : Z)
    : Store * Outcome unit :=
  if negb (truthy_string (Some habitId)) || negb (truthy_string (Some trimmed))
  then (db, Resolved tt)
  else
    let db := update_name db trimmed now habitId in
    match option_map details_scheduleType habit with
    | Some custom =>
        let db := delete_days db habitId in
        insert_habit_days db habitId selectedDays
    | Some interval => (update_interval_days db intervalDays habitId, Resolved tt)
    | _ => (db, Resolved tt)
    end.

End Screens.

(** ** The stores of the scenarios *)

Module Scenarios.
Import Calendar Js Schema Repo.

Local Open Scope string_scope.

Definition empty_store : Store := mkStore [] [] [] [].

(** Scenario B: an interval habit of 3 days, not rescheduled when missed,
    due on 2024-01-01. *)
Definition habit_B : HabitRow :=
  mkHabitRow "b" "water the plants" interval (Some 3%Z) None
             "2024-01-01T08:00:00.000Z" "2024-01-01T08:00:00.000Z".
Definition state_B : IntervalHabitStateRow :=
  mkIntervalHabitStateRow "b" None None "2024-01-01" 0.
Definition store_B : Store := mkStore [habit_B] [] [] [state_B].

Definition day_2024_01_10 : Z := days_from_civil 2024 1 10.
Definition day_2024_01_15 : Z := days_from_civil 2024 1 15.

(** Scenario C starts from scenario B after the query of 2024-01-10. *)
Definition state_B_advanced : IntervalHabitStateRow :=
  mkIntervalHabitStateRow "b" None (Some "2024-01-07") "2024-01-10" 0.
Definition store_B_advanced : Store := mkStore [habit_B] [] [] [state_B_advanced].

(** The habit of scenario B without its row of [interval_habit_state]. *)
Definition store_B_stateless : Store := mkStore [habit_B] [] [] [].

(** Scenario D: the same habit, rescheduled when missed. *)
Definition state_D : IntervalHabitStateRow :=
  mkIntervalHabitStateRow "b" None None "2024-01-01" 1.
Definition store_D : Store := mkStore [habit_B] [] [] [state_D].

(** A one-time habit for Wednesday 2024-01-10 that also has, against the
    data model, a weekday row for Thursday. *)
Definition habit_once : HabitRow :=
  mkHabitRow "o" "call the bank" custom None (Some "2024-01-10")
             "2024-01-09T08:00:00.000Z" "2024-01-09T08:00:00.000Z".
Definition store_once : Store :=
  mkStore [habit_once] [mkHabitDayRow "o" 4] [] [].
Definition day_2024_01_11 : Z := days_from_civil 2024 1 11.

(** Scenario F: the only habit is a one-time habit for 2024-03-05, completed
    on that day; nothing is due on 2024-03-06. *)
Definition habit_F : HabitRow :=
  mkHabitRow "f" "renew the passport" custom None (Some "2024-03-05")
             "2024-03-04T08:00:00.000Z" "2024-03-04T08:00:00.000Z".
Definition store_F : Store :=
  mkStore [habit_F] [] [mkHabitCompletionRow "f" "2024-03-05"] [].
Definition day_2024_03_06 : Z := days_from_civil 2024 3 6.

(** Scenario E: completions on 2024-03-05 and 2024-03-04, none on
    2024-03-06. *)
Definition habit_E : HabitRow :=
  mkHabitRow "e" "read" daily None None
             "2024-03-01T08:00:00.000Z" "2024-03-01T08:00:00.000Z".
Definition store_E : Store :=
  mkStore [habit_E] []
          [mkHabitCompletionRow "e" "2024-03-04"; mkHabitCompletionRow "e" "2024-03-05"] [].


(** A custom habit whose [oneTimeDate] is the empty string, with a weekday. *)
Definition new_habit_blank : NewHabit := NewCustomHabit "stretch" (Some "") [1%Z].

End Scenarios.

(** ** A store with one habit of each kind *)

Module MoreScenarios.
Import Calendar Js Schema Repo Scenarios.

Local Open Scope string_scope.

(** A daily habit, a habit for Mondays and Wednesdays, a one-time habit for
    Wednesday 2024-01-10 and an interval habit of 3 days due on that day; the
    daily habit is completed on 2024-01-10. *)
Definition habit_daily : HabitRow :=
  mkHabitRow "d" "read" daily None None
             "2024-01-01T08:00:00.000Z" "2024-01-01T08:00:00.000Z".
Definition habit_weekdays : HabitRow :=
  mkHabitRow "w" "run" custom None None
             "2024-01-02T08:00:00.000Z" "2024-01-02T08:00:00.000Z".
Definition habit_today_only : HabitRow :=
  mkHabitRow "o" "call the bank" custom None (Some "2024-01-10")
             "2024-01-03T08:00:00.000Z" "2024-01-03T08:00:00.000Z".
Definition habit_every_3 : HabitRow :=
  mkHabitRow "i" "water the plants" interval (Some 3%Z) None
             "2024-01-04T08:00:00.000Z" "2024-01-04T08:00:00.000Z".
Definition state_every_3 : IntervalHabitStateRow :=
  mkIntervalHabitStateRow "i" None None "2024-01-10" 0.
Definition store_week : Store :=
  mkStore [habit_daily; habit_weekdays; habit_today_only; habit_every_3]
          [mkHabitDayRow "w" 3; mkHabitDayRow "w" 1]
          [mkHabitCompletionRow "d" "2024-01-10"]
          [state_every_3].

(** The list of the Today view for 2024-01-10. *)
Definition list_week : list HabitWithCompletion :=
  [ {| habit := mapRowToHabit habit_daily; completed := true |};
    {| habit := mapRowToHabit habit_weekdays; completed := false |};
    {| habit := mapRowToHabit habit_today_only; completed := false |};
    {| habit := mapRowToHabit habit_every_3; completed := false |} ].

End MoreScenarios.

(** ** Decidable checks used by the proofs *)

Module Checks.
Import Calendar Js.

(** [f] holds on [z], [z + 1], ..., [z + n - 1]. *)
Fixpoint forall_from (f : Z -> bool) (z : Z) (n : nat) : bool :=
  match n with
  | O => true
  | S k => f z && forall_from f (z + 1) k
  end.

(** A date as the number its digits YYYYMMDD spell. *)
Definition civil_key (t : Z * Z * Z) : Z :=
  let '(y, m, d) := t in y * 10000 + m * 100 + d.

(** The day of the era on which the year [y] of the era starts (a 1st of
    March). *)
Definition era_start (y : Z) : Z := 365 * y + y / 4 - y / 100 + y / 400.

(** The parts of a day number [z]: its year [Y] counted from March, the day
    [doy] of that year (0 = the 1st of March) and the month [mp] (0 = March),
    with the date [civil_from_days] builds from them. *)
Record parts (z Y doy mp : Z) : Prop := mk_parts {
  parts_day : exists era yoe,
    Y = yoe + 400 * era /\ 0 <= yoe <= 399
    /\ z + 719468 = era * 146097 + era_start yoe + doy
    /\ era_start yoe + doy < era_start (yoe + 1);
  parts_doy : 0 <= doy <= 365;
  parts_mp : mp = (5 * doy + 2) / 153 /\ 0 <= mp <= 11;
  parts_civil :
    civil_from_days z
    = (Y + (if mp <? 10 then 0 else 1), (if mp <? 10 then mp + 3 else mp - 9),
       doy - (153 * mp + 2) / 5 + 1)
}.

(** The decimal digit [k] as a character, and numbers on two and four
    digits. *)
Definition digit (k : Z) : ascii := ascii_of_N (48 + Z.to_N k).
Definition digits2 (n : Z) : string :=
  String (digit (n / 10)) (String (digit (n mod 10)) EmptyString).
Definition digits4 (n : Z) : string :=
  (digits2 (n / 100) ++ digits2 (n mod 100))%string.

(** The string YYYY-MM-DD of a date of four-digit year. *)
Definition canon (t : Z * Z * Z) : string :=
  let '(y, m, d) := t in
  (digits4 y ++ "-" ++ digits2 m ++ "-" ++ digits2 d)%string.

Fixpoint dash_free (s : string) : bool :=
  match s with
  | EmptyString => true
  | String c rest => negb (Ascii.eqb c "-") && dash_free rest
  end.

(** A year of four digits is printed as its four digits and read back. *)
Definition year_ok (y : Z) : bool :=
  let s := String_of_number (Some y) in
  String.eqb s (digits4 y) && dash_free s
  && match Number_of_string s with Some v => v =? y | None => false end.

(** A month or a day of the month is padded to its two digits and read
    back. *)
Definition two_ok (n : Z) : bool :=
  let s := padStart 2 "0" (String_of_number (Some n)) in
  String.eqb s (digits2 n) && dash_free s
  && match Number_of_string s with Some v => v =? n | None => false end.

Definition digit_pair_ok (a : Z) : bool :=
  forall_from (fun b =>
    match Ascii.compare (digit a) (digit b), a ?= b with
    | Eq, Eq | Lt, Lt | Gt, Gt => true
    | _, _ => false
    end) 0 10.

(** The days from 1000-01-01 to 9999-12-31: the dates whose strings have the
    fixed width that makes the order of the strings the order of the days. *)
Definition MinDay : Z := days_from_civil 1000 1 1.
Definition MaxDay : Z := days_from_civil 9999 12 31.
Definition in_range (z : Z) : Prop := MinDay <= z <= MaxDay.

(** The days every [Date] can hold, whatever the time zone and the time of
    day: ECMAScript keeps the time value of a [Date] within 100,000,000 days
    of 1970-01-01T00:00:00Z, and local midnight is less than a day away from
    midnight UTC.  Outside, [setDate] gives an invalid date, which [Js.setDate]
    does not model. *)
Definition MaxDateDay : Z := 99999998.
Definition date_range (z : Z) : Prop := - MaxDateDay <= z <= MaxDateDay.

(** The day [advance_one] moves a due day [z0] to, for the reference day
    [z] and the interval [n]: [z0] plus ceil((z - z0) / n) intervals. *)
Definition advanced_day (z0 n z : Z) : Z := z0 + - (- (z - z0) / n) * n.

End Checks.

(** ** Schema invariants and the advancer, row by row *)

Module Wf.
Import Calendar Js Schema Repo Checks.

Local Open Scope string_scope.

(** PRIMARY KEY of [habits] and of [interval_habit_state], and
    UNIQUE(habit_id, completed_date) of [habit_completions]. *)
Definition habits_pk (db : Store) : Prop := NoDup (map h_id (habits db)).
Definition interval_state_pk (db : Store) : Prop :=
  NoDup (map ihs_habit_id (interval_habit_state db)).
Definition completions_unique (db : Store) : Prop := NoDup (habit_completions db).

(** A string YYYY-MM-DD: what [formatDateString] writes for a day of
    four-digit year. *)
Definition date_string (s : string) : Prop :=
  exists z, in_range z /\ s = formatDateString (Day z).

(** The row the SELECT of the advancer yields for a state row, if any. *)
Definition overdue_of (db : Store) (dateString : string) (ihs : IntervalHabitStateRow)
    : option OverdueRow :=
  match find (fun h => h_id h =? ihs_habit_id ihs) (habits db) with
  | Some h =>
      if (ihs_reschedule_if_missed ihs =? 0)%Z && (ihs_next_due ihs <? dateString)
      then Some (mkOverdueRow (ihs_habit_id ihs) (ihs_next_due ihs) (h_interval_days h))
      else None
  | None => None
  end.

Definition rows_of (o : IntervalHabitStateRow -> option OverdueRow)
    (ihs : IntervalHabitStateRow) : list OverdueRow :=
  match o ihs with Some r => [r] | None => [] end.

(** What the UPDATE of the loop body writes into a row it matches. *)
Definition advanced_row (referenceDate : Date) (habit : OverdueRow)
    (ihs : IntervalHabitStateRow) : IntervalHabitStateRow :=
  {| ihs_habit_id := ihs_habit_id ihs;
     ihs_last_completed := ihs_last_completed ihs;
     ihs_last_due := Some (formatDateString (lastDueDate_of referenceDate habit));
     ihs_next_due := formatDateString (newDueDate_of referenceDate habit);
     ihs_reschedule_if_missed := ihs_reschedule_if_missed ihs |}.

(** The advancer on one state row. *)
Definition advance_row (db : Store) (referenceDate : Date) (ihs : IntervalHabitStateRow)
    : IntervalHabitStateRow :=
  match overdue_of db (formatDateString referenceDate) ihs with
  | Some habit => advanced_row referenceDate habit ihs
  | None => ihs
  end.

(** The stores the advancer is specified on: the keys of the schema hold,
    every state row belongs to a habit with a positive interval, and every
    [next_due] is a date string. *)
Record wf_intervals (db : Store) : Prop := mk_wf_intervals {
  wf_habits_pk : habits_pk db;
  wf_state_pk : interval_state_pk db;
  wf_interval : forall ihs h,
    In ihs (interval_habit_state db) -> In h (habits db) ->
    h_id h = ihs_habit_id ihs ->
    exists n, h_interval_days h = Some n /\ 0 < n;
  wf_next_due : forall ihs,
    In ihs (interval_habit_state db) -> date_string (ihs_next_due ihs)
}.

(** The reference day and every first occurrence after it have four-digit
    years. *)
Definition reference_ok (db : Store) (z : Z) : Prop :=
  in_range z /\
  forall h n, In h (habits db) -> h_interval_days h = Some n -> in_range (z + n).

(** A state row, its [last_due] left out. *)
Definition forget_last_due (ihs : IntervalHabitStateRow) : IntervalHabitStateRow :=
  {| ihs_habit_id := ihs_habit_id ihs;
     ihs_last_completed := ihs_last_completed ihs;
     ihs_last_due := None;
     ihs_next_due := ihs_next_due ihs;
     ihs_reschedule_if_missed := ihs_reschedule_if_missed ihs |}.

(** The habit has a completion on the date. *)
Definition completed_on (db : Store) (habitId dateString : string) : bool :=
  existsb (fun c => (c_habit_id c =? habitId) && (c_completed_date c =? dateString))
          (habit_completions db).

(** Every completion carries a date string. *)
Definition completion_dates (db : Store) : Prop :=
  forall c, In c (habit_completions db) -> date_string (c_completed_date c).

(** The number of days [e], [e - 1], [e - 2], ... that stand, in this order,
    at the head of a list of days. *)
Fixpoint consecutive_back (days : list Z) (e : Z) : nat :=
  match days with
  | [] => 0%nat
  | z :: rest => if (z =? e)%Z then S (consecutive_back rest (e - 1)) else 0%nat
  end.

(** Later days first. *)
Definition later_first (a b : Z) : bool := (b <=? a)%Z.

(** [getDailyCompletionStreak] writes to the store on each day it looks
    at: the store after it has looked at the [n] days [cursor],
    [cursor - 1], ..., and whether it then finds the next day, [cursor - n],
    complete. *)
Fixpoint store_after_days (n : nat) (db : Store) (cursor : Z) : Store :=
  match n with
  | O => db
  | S n' => fst (isCompleteDay (store_after_days n' db cursor) (Day (cursor - Z.of_nat n')))
  end.

Definition complete_back (db : Store) (cursor : Z) (n : nat) : bool :=
  snd (isCompleteDay (store_after_days n db cursor) (Day (cursor - Z.of_nat n))).

(** The mutual exclusion of the data model: a custom habit with a
    [one_time_date] has no row in [habit_days]. *)
Definition one_time_xor_days (db : Store) : Prop :=
  forall h hd,
    In h (habits db) -> h_schedule_type h = custom -> h_one_time_date h <> None ->
    In hd (habit_days db) -> hd_habit_id hd <> h_id h.

End Wf.

(** ** The constraints of [initializeSchema] *)

Module Constraints.
Import Calendar Js Schema Repo Wf.

Local Open Scope string_scope.

(** The store has a habit of this id. *)
Definition known (db : Store) (habitId : string) : Prop :=
  exists h, In h (habits db) /\ h_id h = habitId.

(** No row of any table carries the id. *)
Definition unused (db : Store) (habitId : string) : Prop :=
  ~ known db habitId
  /\ (forall hd, In hd (habit_days db) -> hd_habit_id hd <> habitId)
  /\ (forall c, In c (habit_completions db) -> c_habit_id c <> habitId)
  /\ (forall ihs, In ihs (interval_habit_state db) -> ihs_habit_id ihs <> habitId).

(** The primary keys, the UNIQUE and CHECK constraints and the foreign keys
    of the four tables. *)
Record schema_ok (db : Store) : Prop := mk_schema_ok {
  ok_habits_pk : habits_pk db;
  ok_state_pk : interval_state_pk db;
  ok_completions_unique : completions_unique db;
  ok_days_unique : NoDup (habit_days db);
  ok_days_check : forall hd, In hd (habit_days db) -> 0 <= hd_day_of_week hd <= 6;
  ok_days_fk : forall hd, In hd (habit_days db) -> known db (hd_habit_id hd);
  ok_completions_fk : forall c, In c (habit_completions db) -> known db (c_habit_id c);
  ok_state_fk :
    forall ihs, In ihs (interval_habit_state db) -> known db (ihs_habit_id ihs)
}.

(** The weekdays [createHabit] can store: distinct and within 0..6; they are
    not looked at when the habit has a one-time date. *)
Definition days_ok (newHabit : NewHabit) : Prop :=
  match newHabit with
  | NewCustomHabit _ o days =>
      truthy_string o = true \/ (NoDup days /\ forall d, In d days -> 0 <= d <= 6)
  | _ => True
  end.

(** The store with rows added at the end of its tables. *)
Definition with_rows (db : Store) (hs : list HabitRow) (ds : list HabitDayRow)
    (ss : list IntervalHabitStateRow) : Store :=
  {| habits := habits db ++ hs;
     habit_days := habit_days db ++ ds;
     habit_completions := habit_completions db;
     interval_habit_state := interval_habit_state db ++ ss |}.

(** A row of [habits] with a new name and a new [updated_at]: what the
    UPDATE of the edit screen leaves of it. *)
Definition renamed (h : HabitRow) (nm now : string) : HabitRow :=
  {| h_id := h_id h; h_name := nm; h_schedule_type := h_schedule_type h;
     h_interval_days := h_interval_days h; h_one_time_date := h_one_time_date h;
     h_created_at := h_created_at h; h_updated_at := now |}.

End Constraints.

(** ** Facts about the calendar *)

Module CalendarFacts.
Import Calendar Js Checks.

Lemma forall_from_spec (f : Z -> bool) (n : nat) :
  forall z, forall_from f z n = true ->
  forall x, z <= x < z + Z.of_nat n -> f x = true.
Proof.
  induction n as [|n IH]; intros z H x Hx; [lia|].
  simpl in H. apply andb_true_iff in H as [H0 H1].
  destruct (Z.eq_dec x z) as [->|Hne]; [exact H0|].
  apply (IH (z + 1) H1). lia.
Qed.

Lemma yoe_bounds doe yoe :
  0 <= doe < 146097 ->
  yoe = (doe - doe / 1460 + doe / 36524 - doe / 146096) / 365 ->
  0 <= yoe <= 399 /\ era_start yoe <= doe < era_start (yoe + 1).
Proof. intros H ->. unfold era_start. Z.div_mod_to_equations; lia. Qed.

Lemma era_start_mono a b : 0 <= a -> a < b -> era_start (a + 1) <= era_start b.
Proof. intros Ha H. unfold era_start. Z.div_mod_to_equations; lia. Qed.

Lemma month_bounds doy mp d :
  0 <= doy <= 365 -> mp = (5 * doy + 2) / 153 -> d = doy - (153 * mp + 2) / 5 + 1 ->
  0 <= mp <= 11 /\ 1 <= d <= 31.
Proof. intros H -> ->. Z.div_mod_to_equations; lia. Qed.

Lemma month_mono doy1 doy2 :
  0 <= doy1 -> doy1 < doy2 ->
  let mp1 := (5 * doy1 + 2) / 153 in
  let mp2 := (5 * doy2 + 2) / 153 in
  mp1 < mp2 \/ (mp1 = mp2 /\ doy1 - (153 * mp1 + 2) / 5 < doy2 - (153 * mp2 + 2) / 5).
Proof. intros H0 H mp1 mp2. subst mp1 mp2. Z.div_mod_to_equations; lia. Qed.

Lemma civil_from_days_parts (z : Z) : exists Y doy mp, parts z Y doy mp.
Proof.
  set (z0 := z + 719468).
  set (era := z0 / 146097). set (doe := z0 mod 146097).
  set (yoe := (doe - doe / 1460 + doe / 36524 - doe / 146096) / 365).
  assert (Hdoe : 0 <= doe < 146097) by (apply Z.mod_pos_bound; lia).
  destruct (yoe_bounds doe yoe Hdoe eq_refl) as [Hy Hs].
  assert (E400 : yoe / 400 = 0) by (apply Z.div_small; lia).
  set (doy := doe - (365 * yoe + yoe / 4 - yoe / 100)).
  assert (Es : era_start yoe = 365 * yoe + yoe / 4 - yoe / 100)
    by (unfold era_start; lia).
  assert (Hdoy : 0 <= doy <= 365).
  { subst doy. rewrite <- Es. split; [lia|].
    assert (era_start (yoe + 1) <= era_start yoe + 366)
      by (unfold era_start; Z.div_mod_to_equations; lia). lia. }
  set (mp := (5 * doy + 2) / 153).
  destruct (month_bounds doy mp _ Hdoy eq_refl eq_refl) as [Hmp Hd].
  exists (yoe + 400 * era), doy, mp. constructor.
  - exists era, yoe. split; [reflexivity|]. split; [exact Hy|]. split.
    + pose proof (Z.div_mod z0 146097 ltac:(lia)) as Hdm. fold era doe in Hdm.
      subst doy. rewrite Es. unfold z0 in Hdm. lia.
    + subst doy. rewrite Es. lia.
  - exact Hdoy.
  - split; [reflexivity|exact Hmp].
  - unfold civil_from_days, civil_of_doe. fold z0 era doe yoe doy mp.
    destruct (Z.ltb_spec mp 10).
    + destruct (Z.leb_spec (mp + 3) 2); [lia|]. f_equal. f_equal. lia.
    + destruct (Z.leb_spec (mp - 9) 2); [|lia]. f_equal. f_equal. lia.
Qed.

Lemma civil_from_days_spec (z : Z) :
  let '(y, m, d) := civil_from_days z in
  1 <= m <= 12 /\ 1 <= d <= 31 /\ days_from_civil y m d = z.
Proof.
  destruct (civil_from_days_parts z) as (Y & doy & mp & [Hday Hdoy [Emp Hmp] Ec]).
  rewrite Ec. destruct Hday as (era & yoe & -> & Hy & Hz & Hlt).
  destruct (month_bounds doy mp _ Hdoy Emp eq_refl) as [_ Hd].
  split; [destruct (Z.ltb_spec mp 10); lia|]. split; [exact Hd|].
  unfold days_from_civil.
  assert (E : (if (if mp <? 10 then mp + 3 else mp - 9) <=? 2
               then yoe + 400 * era + (if mp <? 10 then 0 else 1) - 1
               else yoe + 400 * era + (if mp <? 10 then 0 else 1)) = era * 400 + yoe).
  { destruct (Z.ltb_spec mp 10).
    - destruct (Z.leb_spec (mp + 3) 2); lia.
    - destruct (Z.leb_spec (mp - 9) 2); lia. }
  rewrite E.
  assert (Hq : (era * 400 + yoe) / 400 = era /\ (era * 400 + yoe) mod 400 = yoe)
    by (Z.div_mod_to_equations; lia).
  destruct Hq as [-> ->].
  assert (Em : ((if mp <? 10 then mp + 3 else mp - 9) + 9) mod 12 = mp).
  { destruct (Z.ltb_spec mp 10); Z.div_mod_to_equations; lia. }
  rewrite Em. unfold era_start in Hz.
  assert (E400 : yoe / 400 = 0) by (apply Z.div_small; lia).
  lia.
Qed.

Lemma civil_key_mono (z1 z2 : Z) :
  z1 < z2 -> civil_key (civil_from_days z1) < civil_key (civil_from_days z2).
Proof.
  intros Hlt.
  destruct (civil_from_days_parts z1) as (Y1 & doy1 & mp1 & [Hday1 Hdoy1 [Emp1 Hmp1] Ec1]).
  destruct (civil_from_days_parts z2) as (Y2 & doy2 & mp2 & [Hday2 Hdoy2 [Emp2 Hmp2] Ec2]).
  rewrite Ec1, Ec2. unfold civil_key.
  destruct (month_bounds doy1 mp1 _ Hdoy1 Emp1 eq_refl) as [_ Hd1].
  destruct (month_bounds doy2 mp2 _ Hdoy2 Emp2 eq_refl) as [_ Hd2].
  assert (Hord : Y1 < Y2 \/ (Y1 = Y2 /\ doy1 < doy2)).
  { destruct Hday1 as (era1 & yoe1 & -> & Hy1 & Hz1 & Hl1).
    destruct Hday2 as (era2 & yoe2 & -> & Hy2 & Hz2 & Hl2).
    assert (H0 : 0 <= era_start yoe1 /\ 0 <= era_start yoe2
                 /\ era_start (yoe1 + 1) <= 146097 /\ era_start (yoe2 + 1) <= 146097)
      by (unfold era_start; Z.div_mod_to_equations; lia).
    destruct (Z.lt_trichotomy era1 era2) as [He|[He|He]]; [lia| |lia].
    subst era2.
    destruct (Z.lt_trichotomy yoe1 yoe2) as [Hy|[Hy|Hy]]; [lia|subst; lia|].
    pose proof (era_start_mono yoe2 yoe1 ltac:(lia) Hy). lia. }
  destruct Hord as [HY|[-> Hdoy]].
  - destruct (Z.ltb_spec mp1 10), (Z.ltb_spec mp2 10); lia.
  - destruct (month_mono doy1 doy2 ltac:(lia) Hdoy) as [Hm|[Hm Hd]];
      rewrite <- Emp1, <- Emp2 in *.
    + destruct (Z.ltb_spec mp1 10), (Z.ltb_spec mp2 10); lia.
    + rewrite Hm in *. destruct (Z.ltb_spec mp2 10); lia.
Qed.

Lemma month_date_bounds (z : Z) :
  0 <= MonthFromDay z <= 11 /\ 1 <= DateFromDay z <= 31.
Proof.
  unfold MonthFromDay, DateFromDay.
  pose proof (civil_from_days_spec z) as H.
  destruct (civil_from_days z) as [[y m] d]. simpl. lia.
Qed.

Lemma days_from_civil_day (y m d : Z) :
  days_from_civil y m d = days_from_civil y m 1 + d - 1.
Proof. unfold days_from_civil. lia. Qed.

(** [setDate] counts days from the first of the date's month. *)
Lemma MakeDay_of_day (z k : Z) :
  MakeDay (YearFromDay z) (MonthFromDay z) k = z - DateFromDay z + k.
Proof.
  unfold MakeDay, YearFromDay, MonthFromDay, DateFromDay.
  pose proof (civil_from_days_spec z) as H.
  destruct (civil_from_days z) as [[y m] d]. simpl.
  destruct H as (Hm & Hd & Hz).
  rewrite (Z.div_small (m - 1) 12), (Z.mod_small (m - 1) 12) by lia.
  replace (y + 0) with y by lia. replace (m - 1 + 1) with m by lia.
  rewrite (days_from_civil_day y m d) in Hz. lia.
Qed.

Lemma civil_key_compare (z1 z2 : Z) :
  (civil_key (civil_from_days z1) ?= civil_key (civil_from_days z2)) = (z1 ?= z2).
Proof.
  destruct (Z.compare_spec z1 z2) as [->|H|H].
  - apply Z.compare_refl.
  - apply Z.compare_lt_iff. now apply civil_key_mono.
  - apply Z.compare_gt_iff. now apply civil_key_mono.
Qed.

Lemma MinDay_civil : civil_from_days MinDay = (1000, 1, 1).
Proof. reflexivity. Qed.

Lemma MaxDay_civil : civil_from_days MaxDay = (9999, 12, 31).
Proof. reflexivity. Qed.

Lemma civil_key_le (z1 z2 : Z) :
  z1 <= z2 -> civil_key (civil_from_days z1) <= civil_key (civil_from_days z2).
Proof.
  intros H. destruct (Z.eq_dec z1 z2) as [->|Hne]; [lia|].
  pose proof (civil_key_mono z1 z2). lia.
Qed.

Lemma in_range_year (z : Z) : in_range z -> 1000 <= YearFromDay z <= 9999.
Proof.
  intros [Hlo Hhi].
  pose proof (civil_key_le _ _ Hlo) as Ha.
  pose proof (civil_key_le _ _ Hhi) as Hb.
  rewrite MinDay_civil in Ha. rewrite MaxDay_civil in Hb.
  pose proof (civil_from_days_spec z) as Hs.
  unfold YearFromDay. destruct (civil_from_days z) as [[y m] d]. simpl.
  unfold civil_key in *. lia.
Qed.

Lemma full_year_id (y : Z) : 100 <= y -> full_year y = y.
Proof.
  intros H. unfold full_year.
  destruct (Z.leb_spec y 99); [lia|]. now rewrite andb_false_r.
Qed.

End CalendarFacts.

(** ** Facts about date strings *)

Module DateStrings.
Import Calendar Js Schema Repo Checks CalendarFacts.

Lemma years_checked : forall_from year_ok 1000 (Z.to_nat 9000) = true.
Proof. vm_cast_no_check (eq_refl true). Qed.

Lemma twos_checked : forall_from two_ok 0 100 = true.
Proof. vm_cast_no_check (eq_refl true). Qed.

Lemma digit_pairs_checked : forall_from digit_pair_ok 0 10 = true.
Proof. vm_cast_no_check (eq_refl true). Qed.

Lemma digit_compare (a b : Z) :
  0 <= a <= 9 -> 0 <= b <= 9 -> Ascii.compare (digit a) (digit b) = (a ?= b).
Proof.
  intros Ha Hb.
  pose proof (forall_from_spec _ _ _ digit_pairs_checked a ltac:(lia)) as H.
  unfold digit_pair_ok in H.
  pose proof (forall_from_spec _ _ _ H b ltac:(lia)) as H'. simpl in H'.
  destruct (Ascii.compare (digit a) (digit b)), (a ?= b); congruence.
Qed.

Lemma compare_digit (a b : Z) (s t : string) :
  0 <= a <= 9 -> 0 <= b <= 9 ->
  String.compare (String (digit a) s) (String (digit b) t)
  = match a ?= b with Eq => String.compare s t | c => c end.
Proof. intros Ha Hb. simpl. now rewrite digit_compare. Qed.

Lemma compare_dash (s t : string) :
  String.compare (String "-" s) (String "-" t) = String.compare s t.
Proof. reflexivity. Qed.

(** On dates of four-digit year, the order of the strings is the order of
    the dates. *)
Lemma canon_compare (y1 m1 d1 y2 m2 d2 : Z) :
  1000 <= y1 <= 9999 -> 0 <= m1 <= 99 -> 0 <= d1 <= 99 ->
  1000 <= y2 <= 9999 -> 0 <= m2 <= 99 -> 0 <= d2 <= 99 ->
  String.compare (canon (y1, m1, d1)) (canon (y2, m2, d2))
  = (civil_key (y1, m1, d1) ?= civil_key (y2, m2, d2)).
Proof.
  intros Hy1 Hm1 Hd1 Hy2 Hm2 Hd2.
  unfold canon, digits4, digits2, civil_key. cbn [String.append].
  repeat first
    [ rewrite compare_dash
    | rewrite compare_digit by (Z.div_mod_to_equations; lia) ].
  simpl String.compare.
  symmetry.
  repeat match goal with
  | |- context [match ?a ?= ?b with _ => _ end] =>
      destruct (Z.compare_spec a b)
  end;
  first [ apply Z.compare_eq_iff | apply Z.compare_lt_iff | apply Z.compare_gt_iff ];
  Z.div_mod_to_equations; lia.
Qed.

Lemma year_string (y : Z) :
  1000 <= y <= 9999 ->
  String_of_number (Some y) = digits4 y
  /\ dash_free (digits4 y) = true
  /\ Number_of_string (digits4 y) = Some y.
Proof.
  intros Hy.
  pose proof (forall_from_spec _ _ _ years_checked y ltac:(lia)) as H.
  unfold year_ok in H.
  apply andb_true_iff in H as [H H3]. apply andb_true_iff in H as [H1 H2].
  apply String.eqb_eq in H1. rewrite H1 in *.
  repeat split; trivial.
  destruct (Number_of_string (digits4 y)); [|discriminate].
  apply Z.eqb_eq in H3. now subst.
Qed.

Lemma two_string (n : Z) :
  0 <= n <= 99 ->
  padStart 2 "0" (String_of_number (Some n)) = digits2 n
  /\ dash_free (digits2 n) = true
  /\ Number_of_string (digits2 n) = Some n.
Proof.
  intros Hn.
  pose proof (forall_from_spec _ _ _ twos_checked n ltac:(lia)) as H.
  unfold two_ok in H.
  apply andb_true_iff in H as [H H3]. apply andb_true_iff in H as [H1 H2].
  apply String.eqb_eq in H1. rewrite H1 in *.
  repeat split; trivial.
  destruct (Number_of_string (digits2 n)); [|discriminate].
  apply Z.eqb_eq in H3. now subst.
Qed.

(** The date of a day, with the month counted from 1. *)
Lemma civil_of_getters (z : Z) :
  civil_from_days z = (YearFromDay z, MonthFromDay z + 1, DateFromDay z).
Proof.
  unfold YearFromDay, MonthFromDay, DateFromDay.
  destruct (civil_from_days z) as [[y m] d]. simpl. f_equal. f_equal. lia.
Qed.

Lemma formatDateString_canon (z : Z) :
  in_range z -> formatDateString (Day z) = canon (civil_from_days z).
Proof.
  intros Hz. rewrite civil_of_getters.
  pose proof (in_range_year z Hz) as Hy.
  pose proof (month_date_bounds z) as [Hm Hd].
  unfold formatDateString, canon. simpl getFullYear. simpl getMonth. simpl getDate.
  simpl num_add.
  destruct (year_string _ Hy) as (-> & _ & _).
  destruct (two_string (MonthFromDay z + 1) ltac:(lia)) as (-> & _ & _).
  destruct (two_string (DateFromDay z) ltac:(lia)) as (-> & _ & _).
  reflexivity.
Qed.

(** The order of the strings of two dates of four-digit year is the order
    of the days. *)
Lemma formatDateString_compare (z1 z2 : Z) :
  in_range z1 -> in_range z2 ->
  String.compare (formatDateString (Day z1)) (formatDateString (Day z2)) = (z1 ?= z2).
Proof.
  intros H1 H2.
  rewrite !formatDateString_canon by assumption.
  rewrite <- civil_key_compare.
  rewrite !civil_of_getters.
  pose proof (in_range_year z1 H1). pose proof (in_range_year z2 H2).
  pose proof (month_date_bounds z1). pose proof (month_date_bounds z2).
  apply canon_compare; lia.
Qed.

Lemma formatDateString_ltb (z1 z2 : Z) :
  in_range z1 -> in_range z2 ->
  String.ltb (formatDateString (Day z1)) (formatDateString (Day z2)) = (z1 <? z2).
Proof.
  intros H1 H2. unfold String.ltb, Z.ltb.
  now rewrite formatDateString_compare.
Qed.

Lemma formatDateString_leb (z1 z2 : Z) :
  in_range z1 -> in_range z2 ->
  String.leb (formatDateString (Day z1)) (formatDateString (Day z2)) = (z1 <=? z2).
Proof.
  intros H1 H2. unfold String.leb, Z.leb.
  now rewrite formatDateString_compare.
Qed.

Lemma string_compare_refl (s : string) : String.compare s s = Eq.
Proof.
  induction s as [|c s IH]; simpl; trivial.
  unfold Ascii.compare. now rewrite N.compare_refl.
Qed.

Lemma formatDateString_inj (z1 z2 : Z) :
  in_range z1 -> in_range z2 ->
  formatDateString (Day z1) = formatDateString (Day z2) -> z1 = z2.
Proof.
  intros H1 H2 E.
  apply Z.compare_eq. rewrite <- formatDateString_compare by assumption.
  rewrite E. apply string_compare_refl.
Qed.

Lemma formatDateString_eqb (z1 z2 : Z) :
  in_range z1 -> in_range z2 ->
  String.eqb (formatDateString (Day z1)) (formatDateString (Day z2)) = (z1 =? z2).
Proof.
  intros H1 H2.
  destruct (Z.eqb_spec z1 z2) as [->|Hne].
  - apply String.eqb_refl.
  - apply String.eqb_neq. intros E. apply Hne. now apply formatDateString_inj.
Qed.

(** Reading a date string back. *)
Lemma split_dash_free (s : string) : dash_free s = true -> split_dash s = [s].
Proof.
  induction s as [|c s IH]; simpl; trivial.
  intros H. apply andb_true_iff in H as [Hc Hs].
  apply negb_true_iff in Hc. rewrite Hc, (IH Hs). reflexivity.
Qed.

Lemma split_dash_app (s rest : string) :
  dash_free s = true ->
  split_dash (s ++ String "-" rest) = s :: split_dash rest.
Proof.
  induction s as [|c s IH]; simpl; trivial.
  intros H. apply andb_true_iff in H as [Hc Hs].
  apply negb_true_iff in Hc. rewrite Hc, (IH Hs). reflexivity.
Qed.

Lemma pieces_of_canon (y m d : Z) :
  1000 <= y <= 9999 -> 0 <= m <= 99 -> 0 <= d <= 99 ->
  piece 0 (canon (y, m, d)) = Some y
  /\ piece 1 (canon (y, m, d)) = Some m
  /\ piece 2 (canon (y, m, d)) = Some d.
Proof.
  intros Hy Hm Hd.
  destruct (year_string y Hy) as (_ & Fy & Ny).
  destruct (two_string m Hm) as (_ & Fm & Nm).
  destruct (two_string d Hd) as (_ & Fd & Nd).
  unfold piece, canon.
  change (digits4 y ++ "-" ++ digits2 m ++ "-" ++ digits2 d)%string
    with (digits4 y ++ String "-" (digits2 m ++ String "-" (digits2 d)))%string.
  rewrite (split_dash_app _ _ Fy), (split_dash_app _ _ Fm), (split_dash_free _ Fd).
  simpl. auto.
Qed.

Lemma pieces_of_formatDateString (z : Z) :
  in_range z ->
  piece 0 (formatDateString (Day z)) = Some (YearFromDay z)
  /\ piece 1 (formatDateString (Day z)) = Some (MonthFromDay z + 1)
  /\ piece 2 (formatDateString (Day z)) = Some (DateFromDay z).
Proof.
  intros Hz. rewrite (formatDateString_canon z Hz), civil_of_getters.
  pose proof (in_range_year z Hz). pose proof (month_date_bounds z).
  apply pieces_of_canon; lia.
Qed.

End DateStrings.

(** ** Date arithmetic of the repository *)

Module DateArith.
Import Calendar Js Schema Repo Checks CalendarFacts DateStrings.

Lemma setDate_add (z k : Z) :
  setDate (Day z) (num_add (getDate (Day z)) (Some k)) = Day (z + k).
Proof. simpl. rewrite MakeDay_of_day. f_equal. lia. Qed.

Lemma setDate_sub (z k : Z) :
  setDate (Day z) (num_sub (getDate (Day z)) (Some k)) = Day (z - k).
Proof. simpl. rewrite MakeDay_of_day. f_equal. lia. Qed.

Lemma yesterday_of_day (z : Z) : yesterday_of (Day z) = Day (z - 1).
Proof. apply setDate_sub. Qed.

(** [Date.UTC] and [new Date] on the components of a day give the day back,
    outside the years 0..99. *)
Lemma MakeDay_full_year (z : Z) :
  100 <= YearFromDay z ->
  MakeDay (full_year (YearFromDay z)) (MonthFromDay z) (DateFromDay z) = z.
Proof.
  intros H. rewrite full_year_id by assumption. rewrite MakeDay_of_day. lia.
Qed.

Lemma daysPassed_of_days (z z0 : Z) :
  in_range z -> in_range z0 ->
  daysPassed_of (Day z) (formatDateString (Day z0)) = Some (z - z0).
Proof.
  intros Hz Hz0.
  pose proof (in_range_year z Hz). pose proof (in_range_year z0 Hz0).
  destruct (pieces_of_formatDateString z0 Hz0) as (P0 & P1 & P2).
  unfold daysPassed_of. rewrite P0, P1, P2.
  cbn [num_sub Date_UTC getFullYear getMonth getDate].
  replace (MonthFromDay z0 + 1 - 1) with (MonthFromDay z0) by lia.
  rewrite !MakeDay_full_year by lia.
  change (1000 * 60 * 60 * 24) with 86400000.
  cbn [floor_div]. change (86400000 =? 0) with false. cbv iota.
  f_equal. replace (z * 86400000 - z0 * 86400000) with ((z - z0) * 86400000) by lia.
  apply Z.div_mul. lia.
Qed.

Lemma newDueDate_of_days (z z0 n : Z) (hid : string) :
  in_range z -> in_range z0 -> n <> 0 ->
  newDueDate_of (Day z) (mkOverdueRow hid (formatDateString (Day z0)) (Some n))
  = Day (advanced_day z0 n z).
Proof.
  intros Hz Hz0 Hn.
  pose proof (in_range_year z0 Hz0).
  unfold newDueDate_of, intervalsToAdd_of. cbn [next_due interval_days number_of_null].
  rewrite daysPassed_of_days by assumption.
  destruct (pieces_of_formatDateString z0 Hz0) as (P0 & P1 & P2).
  rewrite P0, P1, P2.
  cbn [num_sub new_Date ceil_div].
  destruct (Z.eqb_spec n 0) as [E|_]; [contradiction|].
  replace (MonthFromDay z0 + 1 - 1) with (MonthFromDay z0) by lia.
  rewrite MakeDay_full_year by lia.
  cbn [num_mul]. rewrite setDate_add. reflexivity.
Qed.

Lemma lastDueDate_of_days (z z0 n : Z) (hid : string) :
  in_range z -> in_range z0 -> n <> 0 ->
  lastDueDate_of (Day z) (mkOverdueRow hid (formatDateString (Day z0)) (Some n))
  = Day (advanced_day z0 n z - n).
Proof.
  intros Hz Hz0 Hn. unfold lastDueDate_of.
  rewrite newDueDate_of_days by assumption.
  cbn [interval_days number_of_null]. apply setDate_sub.
Qed.

(** The advanced day is the first occurrence on or after the reference
    day. *)
Lemma advanced_day_bounds (z0 n z : Z) :
  0 < n -> z <= advanced_day z0 n z < z + n.
Proof.
  intros Hn. unfold advanced_day.
  pose proof (Z.div_mod (- (z - z0)) n ltac:(lia)).
  pose proof (Z.mod_pos_bound (- (z - z0)) n Hn).
  nia.
Qed.

(** A day that is not before the reference day is left where it is. *)
Lemma advanced_day_fixed (z0 n z : Z) :
  0 < n -> z <= z0 < z + n -> advanced_day z0 n z = z0.
Proof.
  intros Hn H. unfold advanced_day.
  assert (E : - (z - z0) / n = 0) by (apply Z.div_small; lia).
  rewrite E. lia.
Qed.

End DateArith.

(** ** Facts about queries and updates *)

Module StoreFacts.
Import Calendar Js Schema Repo Checks Wf CalendarFacts DateStrings DateArith.

Local Open Scope string_scope.

(** *** ORDER BY keeps the rows *)

Lemma In_insert_by {A : Type} (le : A -> A -> bool) (x a : A) (l : list A) :
  In a (insert_by le x l) <-> a = x \/ In a l.
Proof.
  induction l as [|y l IH]; simpl.
  - intuition congruence.
  - destruct (le x y); simpl; [intuition congruence|].
    rewrite IH. intuition congruence.
Qed.

Lemma In_order_by {A : Type} (le : A -> A -> bool) (a : A) (l : list A) :
  In a (order_by le l) <-> In a l.
Proof.
  induction l as [|y l IH]; simpl; [tauto|].
  rewrite In_insert_by, IH. intuition congruence.
Qed.

Lemma length_insert_by {A : Type} (le : A -> A -> bool) (x : A) (l : list A) :
  List.length (insert_by le x l) = S (List.length l).
Proof.
  induction l as [|y l IH]; simpl; trivial.
  destruct (le x y); simpl; congruence.
Qed.

Lemma length_order_by {A : Type} (le : A -> A -> bool) (l : list A) :
  List.length (order_by le l) = List.length l.
Proof.
  induction l as [|y l IH]; simpl; trivial.
  now rewrite length_insert_by, IH.
Qed.

(** *** A key finds its row *)

Lemma find_by_key {A : Type} (key : A -> string) (k : string) (l : list A) (a : A) :
  NoDup (map key l) -> In a l -> key a = k ->
  find (fun x => key x =? k) l = Some a.
Proof.
  induction l as [|y l IH]; simpl; intros Hnd Hin Hk; [contradiction|].
  inversion Hnd as [|? ? Hy Hl]; subst.
  destruct Hin as [->|Hin].
  - now rewrite String.eqb_refl.
  - destruct (String.eqb_spec (key y) (key a)) as [E|_]; [|now apply IH].
    exfalso. apply Hy. rewrite E. now apply in_map.
Qed.

Lemma find_some_key {A : Type} (key : A -> string) (k : string) (l : list A) (a : A) :
  find (fun x => key x =? k) l = Some a -> In a l /\ key a = k.
Proof.
  intros H. apply find_some in H as [H1 H2]. split; trivial.
  now apply String.eqb_eq.
Qed.

Lemma filter_by_key {A : Type} (key : A -> string) (k : string) (l : list A) :
  NoDup (map key l) ->
  filter (fun x => key x =? k) l
  = match find (fun x => key x =? k) l with Some a => [a] | None => [] end.
Proof.
  induction l as [|y l IH]; simpl; intros Hnd; trivial.
  inversion Hnd as [|? ? Hy Hl]; subst.
  destruct (String.eqb_spec (key y) k) as [E|_]; [|now apply IH].
  f_equal. rewrite IH by assumption.
  destruct (find (fun x => key x =? k) l) as [a|] eqn:F; trivial.
  exfalso. apply find_some_key in F as [Ha Ek].
  apply Hy. rewrite E, <- Ek. now apply in_map.
Qed.

(** *** The advancer, row by row *)

Lemma store_eta (db : Store) :
  db = {| habits := habits db; habit_days := habit_days db;
          habit_completions := habit_completions db;
          interval_habit_state := interval_habit_state db |}.
Proof. now destruct db. Qed.

Lemma overdue_of_id (db : Store) (ds : string) (ihs : IntervalHabitStateRow) (r : OverdueRow) :
  overdue_of db ds ihs = Some r -> habit_id r = ihs_habit_id ihs.
Proof.
  unfold overdue_of. destruct (find _ _); [|discriminate].
  destruct (_ && _); [|discriminate]. now intros [= <-].
Qed.

Lemma select_overdue_rows (db : Store) (ds : string) :
  habits_pk db ->
  select_overdue db ds = flat_map (rows_of (overdue_of db ds)) (interval_habit_state db).
Proof.
  intros Hpk. unfold select_overdue. apply flat_map_ext. intros ihs.
  unfold rows_of, overdue_of. unfold habits_pk in Hpk.
  induction (habits db) as [|h l IH]; simpl; trivial.
  inversion Hpk as [|? ? Hh Hl]; subst.
  destruct (String.eqb_spec (h_id h) (ihs_habit_id ihs)) as [E|_]; simpl.
  - assert (N : flat_map (fun h0 =>
        if (h_id h0 =? ihs_habit_id ihs) && (ihs_reschedule_if_missed ihs =? 0)%Z
           && (ihs_next_due ihs <? ds)
        then [mkOverdueRow (ihs_habit_id ihs) (ihs_next_due ihs) (h_interval_days h0)]
        else []) l = []).
    { clear IH Hl Hpk. induction l as [|h' l IHl]; simpl; trivial.
      destruct (String.eqb_spec (h_id h') (ihs_habit_id ihs)) as [E'|_]; simpl.
      - exfalso. apply Hh. simpl. left. congruence.
      - apply IHl. intros Hin. apply Hh. now right. }
    rewrite N. destruct (_ && _); reflexivity.
  - now apply IH.
Qed.

Lemma find_not_in (o : IntervalHabitStateRow -> option OverdueRow) (k : string)
    (T : list IntervalHabitStateRow) :
  (forall ihs r, o ihs = Some r -> habit_id r = ihs_habit_id ihs) ->
  ~ In k (map ihs_habit_id T) ->
  find (fun r => habit_id r =? k) (flat_map (rows_of o) T) = None.
Proof.
  intros Ho. induction T as [|y T IH]; simpl; intros Hk; trivial.
  unfold rows_of at 1. destruct (o y) as [r|] eqn:E; simpl.
  - destruct (String.eqb_spec (habit_id r) k) as [Ek|_].
    + exfalso. apply Hk. left. rewrite <- Ek. symmetry. now apply Ho.
    + apply IH. tauto.
  - apply IH. tauto.
Qed.

Lemma find_overdue_row (o : IntervalHabitStateRow -> option OverdueRow)
    (T : list IntervalHabitStateRow) (ihs : IntervalHabitStateRow) :
  (forall ihs r, o ihs = Some r -> habit_id r = ihs_habit_id ihs) ->
  NoDup (map ihs_habit_id T) -> In ihs T ->
  find (fun r => habit_id r =? ihs_habit_id ihs) (flat_map (rows_of o) T) = o ihs.
Proof.
  intros Ho. induction T as [|y T IH]; simpl; intros Hnd Hin; [contradiction|].
  inversion Hnd as [|? ? Hy HT]; subst.
  destruct Hin as [->|Hin].
  - unfold rows_of at 1. destruct (o ihs) as [r|] eqn:E; simpl.
    + rewrite (Ho _ _ E), String.eqb_refl. reflexivity.
    + now apply find_not_in.
  - unfold rows_of at 1. destruct (o y) as [r|] eqn:E; simpl; [|now apply IH].
    destruct (String.eqb_spec (habit_id r) (ihs_habit_id ihs)) as [Ek|_]; [|now apply IH].
    exfalso. apply Hy. rewrite <- (Ho _ _ E), Ek. now apply in_map.
Qed.

Lemma NoDup_overdue_rows (o : IntervalHabitStateRow -> option OverdueRow)
    (T : list IntervalHabitStateRow) :
  (forall ihs r, o ihs = Some r -> habit_id r = ihs_habit_id ihs) ->
  NoDup (map ihs_habit_id T) ->
  NoDup (map habit_id (flat_map (rows_of o) T)).
Proof.
  intros Ho. induction T as [|y T IH]; simpl; intros Hnd; [constructor|].
  inversion Hnd as [|? ? Hy HT]; subst.
  unfold rows_of at 1. destruct (o y) as [r|] eqn:E; simpl; [|now apply IH].
  constructor; [|now apply IH].
  intros Hin. apply in_map_iff in Hin as (r' & Er & Hr').
  apply in_flat_map in Hr' as (y' & Hy' & Hr').
  unfold rows_of in Hr'. destruct (o y') as [r''|] eqn:E'; [|contradiction].
  destruct Hr' as [->|[]].
  apply Hy. rewrite <- (Ho _ _ E), <- Er, (Ho _ _ E'). now apply in_map.
Qed.

(** The loop writes into each state row what the first row of the SELECT
    with its key says. *)
Lemma advance_fold (referenceDate : Date) (rows : list OverdueRow) :
  NoDup (map habit_id rows) ->
  forall db,
  fold_left (advance_one referenceDate) rows db
  = {| habits := habits db; habit_days := habit_days db;
       habit_completions := habit_completions db;
       interval_habit_state :=
         map (fun ihs =>
                match find (fun r => habit_id r =? ihs_habit_id ihs) rows with
                | Some r => advanced_row referenceDate r ihs
                | None => ihs
                end)
             (interval_habit_state db) |}.
Proof.
  induction rows as [|r rows IH]; simpl; intros Hnd db.
  - rewrite map_id. apply store_eta.
  - inversion Hnd as [|? ? Hr Hrows]; subst.
    rewrite (IH Hrows). unfold advance_one, update_due. simpl.
    f_equal. rewrite map_map. apply map_ext. intros ihs.
    destruct (String.eqb_spec (ihs_habit_id ihs) (habit_id r)) as [E|Hne]; simpl.
    + assert (F : find (fun r0 => habit_id r0 =? habit_id r) rows = None).
      { destruct (find _ rows) as [r'|] eqn:F; trivial.
        exfalso. apply find_some_key in F as [Hin Ek].
        apply Hr. rewrite <- Ek. now apply in_map. }
      rewrite <- E in F |- *. rewrite String.eqb_refl, F. reflexivity.
    + destruct (String.eqb_spec (habit_id r) (ihs_habit_id ihs)) as [E|_];
        [congruence|reflexivity].
Qed.

Lemma autoAdvance_rows (db : Store) (referenceDate : Date) :
  habits_pk db -> interval_state_pk db ->
  autoAdvanceOverdueIntervalHabits db referenceDate
  = {| habits := habits db; habit_days := habit_days db;
       habit_completions := habit_completions db;
       interval_habit_state :=
         map (advance_row db referenceDate) (interval_habit_state db) |}.
Proof.
  intros Hh Hs. unfold autoAdvanceOverdueIntervalHabits.
  rewrite (select_overdue_rows _ _ Hh).
  set (o := overdue_of db (formatDateString referenceDate)).
  assert (Ho : forall ihs r, o ihs = Some r -> habit_id r = ihs_habit_id ihs)
    by (intros; eapply overdue_of_id; eassumption).
  rewrite advance_fold by (now apply NoDup_overdue_rows).
  f_equal. apply map_ext_in. intros ihs Hin.
  rewrite (find_overdue_row o _ _ Ho Hs Hin). reflexivity.
Qed.

End StoreFacts.

(** ** The Interval Advancer *)

Module Advancer.
Import Calendar Js Schema Repo Scenarios Checks Wf CalendarFacts DateStrings DateArith StoreFacts.

Local Open Scope string_scope.

Lemma same_key_same_row {A : Type} (key : A -> string) (l : list A) (a b : A) :
  NoDup (map key l) -> In a l -> In b l -> key a = key b -> a = b.
Proof.
  intros Hnd Ha Hb E.
  pose proof (find_by_key key (key b) l a Hnd Ha E) as Fa.
  pose proof (find_by_key key (key b) l b Hnd Hb eq_refl) as Fb.
  congruence.
Qed.

(** What the advancer does to a row it selects, on a well-formed store. *)
Lemma overdue_row_advanced (db : Store) (z : Z) (ihs : IntervalHabitStateRow)
    (r : OverdueRow) :
  wf_intervals db -> reference_ok db z ->
  In ihs (interval_habit_state db) ->
  overdue_of db (formatDateString (Day z)) ihs = Some r ->
  exists z0 n,
    in_range z0 /\ 0 < n /\ z0 < z
    /\ ihs_next_due ihs = formatDateString (Day z0)
    /\ ihs_reschedule_if_missed ihs = 0
    /\ r = mkOverdueRow (ihs_habit_id ihs) (formatDateString (Day z0)) (Some n)
    /\ in_range (advanced_day z0 n z)
    /\ z <= advanced_day z0 n z < z + n
    /\ newDueDate_of (Day z) r = Day (advanced_day z0 n z)
    /\ lastDueDate_of (Day z) r = Day (advanced_day z0 n z - n).
Proof.
  intros Hwf [Hz Hzn] Hin Ho.
  unfold overdue_of in Ho.
  destruct (find _ (habits db)) as [h|] eqn:F; [|discriminate].
  apply find_some_key in F as [Hh Eh].
  destruct (wf_interval db Hwf ihs h Hin Hh Eh) as (n & En & Hn).
  destruct (wf_next_due db Hwf ihs Hin) as (z0 & Hz0 & Ez0).
  destruct (_ && _) eqn:C; [|discriminate].
  apply andb_true_iff in C as [C1 C2]. apply Z.eqb_eq in C1.
  rewrite Ez0, formatDateString_ltb in C2 by assumption. apply Z.ltb_lt in C2.
  injection Ho as <-. rewrite Ez0, En.
  pose proof (advanced_day_bounds z0 n z Hn) as Hb.
  pose proof (Hzn h n Hh En) as Hzn'.
  exists z0, n.
  repeat match goal with |- _ /\ _ => split end; trivial; try lia.
  - unfold in_range in *. lia.
  - apply newDueDate_of_days; trivial; lia.
  - apply lastDueDate_of_days; trivial; lia.
Qed.


Lemma in_range_2024_01_10 : in_range day_2024_01_10.
Proof. unfold in_range. split; intros C; discriminate C. Qed.

Lemma wf_store_B : wf_intervals store_B.
Proof.
  constructor.
  - repeat constructor. simpl. tauto.
  - repeat constructor. simpl. tauto.
  - intros ihs h [<-|[]] [<-|[]] _. exists 3. split; [reflexivity|lia].
  - intros ihs [<-|[]]. exists (days_from_civil 2024 1 1). split.
    + split; intros C; discriminate C.
    + reflexivity.
Qed.

Lemma reference_ok_B : reference_ok store_B day_2024_01_10.
Proof.
  split; [exact in_range_2024_01_10|].
  intros h n [<-|[]] [= <-]. split; intros C; discriminate C.
Qed.




End Advancer.

(** ** The Schedule Resolver *)

Module Resolver.
Import Calendar Js Schema Repo Scenarios Checks Wf CalendarFacts DateStrings DateArith
       StoreFacts Advancer.

Local Open Scope string_scope.

(** *** The WHERE clause, schedule by schedule *)

Lemma due_where_daily (db : Store) ds dow h c :
  h_schedule_type h = daily -> sql_true (due_where db ds dow h c) = true.
Proof. unfold due_where. intros ->. reflexivity. Qed.

Lemma due_where_one_time (db : Store) ds dow h c s :
  h_schedule_type h = custom -> h_one_time_date h = Some s ->
  sql_true (due_where db ds dow h c) = (s =? ds).
Proof.
  unfold due_where, exists_habit_day, exists_interval_state. intros -> ->. simpl.
  destruct (s =? ds), c; reflexivity.
Qed.

Lemma due_where_weekdays (db : Store) ds dow h c :
  h_schedule_type h = custom -> h_one_time_date h = None ->
  sql_true (due_where db ds dow h c)
  = existsb (fun hd => (hd_habit_id hd =? h_id h)
                       && sql_true (int_eq (Some (hd_day_of_week hd)) dow))
            (habit_days db).
Proof.
  unfold due_where, exists_habit_day, exists_interval_state. intros -> ->.
  assert (E : forall l,
    existsb (fun hd => sql_true (Some (hd_habit_id hd =? h_id h)
                                 AND int_eq (Some (hd_day_of_week hd)) dow)%sql) l
    = existsb (fun hd => (hd_habit_id hd =? h_id h)
                         && sql_true (int_eq (Some (hd_day_of_week hd)) dow)) l).
  { intros l. induction l as [|hd l IH]; cbn [existsb]; trivial. rewrite IH. f_equal.
    destruct (hd_habit_id hd =? h_id h), (int_eq _ dow) as [[|]|]; reflexivity. }
  rewrite E.
  repeat match goal with |- context [existsb ?f ?l] => destruct (existsb f l) end;
    destruct c; reflexivity.
Qed.

Lemma due_where_interval (db : Store) ds dow h c :
  h_schedule_type h = interval ->
  sql_true (due_where db ds dow h c)
  = completed_of c
    || existsb (fun ihs => (ihs_habit_id ihs =? h_id h)
                           && sql_true (interval_state_due ihs ds))
               (interval_habit_state db).
Proof.
  unfold due_where, exists_habit_day, exists_interval_state. intros ->.
  assert (E : forall l,
    existsb (fun ihs => sql_true (Some (ihs_habit_id ihs =? h_id h)
                                  AND interval_state_due ihs ds)%sql) l
    = existsb (fun ihs => (ihs_habit_id ihs =? h_id h)
                          && sql_true (interval_state_due ihs ds)) l).
  { intros l. induction l as [|ihs l IH]; cbn [existsb]; trivial. rewrite IH. f_equal.
    destruct (ihs_habit_id ihs =? h_id h), (interval_state_due ihs ds) as [[|]|];
      reflexivity. }
  rewrite E.
  repeat match goal with |- context [existsb ?f ?l] => destruct (existsb f l) end;
    destruct c, (h_one_time_date h); try reflexivity;
    simpl; destruct (_ =? ds); reflexivity.
Qed.

Lemma sql_or_true_l (b : sql_bool) : sql_or (Some true) b = Some true.
Proof. reflexivity. Qed.

Lemma sql_or_true_r (a : sql_bool) : sql_or a (Some true) = Some true.
Proof. destruct a as [[|]|]; reflexivity. Qed.

(** Rule 2 and rule 3: a state row whose [next_due] is the day, or is
    before the day with [reschedule_if_missed = 1], makes the habit due. *)
Lemma interval_state_due_next (ihs : IntervalHabitStateRow) (ds : string) :
  ihs_next_due ihs = ds -> sql_true (interval_state_due ihs ds) = true.
Proof.
  intros E. unfold interval_state_due, text_eq, sql_text.
  rewrite E, String.eqb_refl, !sql_or_true_l. reflexivity.
Qed.

Lemma interval_state_due_carried (ihs : IntervalHabitStateRow) (ds : string) :
  ihs_reschedule_if_missed ihs = 1 -> (ihs_next_due ihs <? ds) = true ->
  sql_true (interval_state_due ihs ds) = true.
Proof.
  intros E1 E2. unfold interval_state_due, text_lt, sql_text, int_eq.
  rewrite E1, E2. cbn [Z.eqb Pos.eqb sql_and].
  rewrite sql_or_true_r, !sql_or_true_l. reflexivity.
Qed.

(** *** The rows of the LEFT JOIN *)

Lemma left_join_habit (db : Store) ds h c :
  In (h, c) (left_join_completions db ds) -> In h (habits db).
Proof.
  unfold left_join_completions. intros H.
  apply in_flat_map in H as (h' & Hh & H).
  destruct (filter _ _) as [|c0 cs].
  - destruct H as [[= <- _]|[]]. exact Hh.
  - apply in_map_iff in H as (c' & [= <- _] & _). exact Hh.
Qed.

Lemma left_join_total (db : Store) ds h :
  In h (habits db) -> exists c, In (h, c) (left_join_completions db ds).
Proof.
  intros Hh. unfold left_join_completions.
  destruct (filter (fun c => (h_id h =? c_habit_id c) && (c_completed_date c =? ds))
                   (habit_completions db)) as [|c0 cs] eqn:F.
  - exists None. apply in_flat_map. exists h. split; trivial. rewrite F. now left.
  - exists (Some c0). apply in_flat_map. exists h. split; trivial. rewrite F.
    now left.
Qed.

(** The completion flag of a joined row says whether the habit has a
    completion on the day. *)
Lemma left_join_completed (db : Store) ds h c :
  In (h, c) (left_join_completions db ds) ->
  completed_of c
  = existsb (fun c' => (c_habit_id c' =? h_id h) && (c_completed_date c' =? ds))
            (habit_completions db).
Proof.
  unfold left_join_completions. intros H.
  apply in_flat_map in H as (h' & Hh & H).
  destruct (filter _ _) as [|c0 cs] eqn:F.
  - destruct H as [[= <- <-]|[]]. simpl. symmetry.
    apply not_true_is_false. intros E. apply existsb_exists in E as (c' & Hc' & Ec').
    assert (Hf : In c' (filter (fun c => (h_id h' =? c_habit_id c)
                                          && (c_completed_date c =? ds))
                               (habit_completions db))).
    { apply filter_In. split; trivial. now rewrite String.eqb_sym. }
    rewrite F in Hf. contradiction.
  - apply in_map_iff in H as (c' & [= <- <-] & Hc'). simpl. symmetry.
    assert (Hf : In c' (filter (fun c => (h_id h' =? c_habit_id c)
                                          && (c_completed_date c =? ds))
                               (habit_completions db)))
      by (rewrite F; exact Hc').
    apply filter_In in Hf as [Hin Ec].
    apply existsb_exists. exists c'. split; trivial. now rewrite String.eqb_sym.
Qed.

(** *** What [getHabitsForDate] returns *)

Lemma getHabitsForDate_store (db : Store) (date : Date) :
  fst (getHabitsForDate db date) = autoAdvanceOverdueIntervalHabits db date.
Proof. reflexivity. Qed.

Lemma getHabitsForDate_In (db : Store) (date : Date) (hc : HabitWithCompletion) :
  In hc (snd (getHabitsForDate db date)) <->
  exists h c,
    hc = {| habit := mapRowToHabit h; completed := completed_of c |}
    /\ In (h, c) (left_join_completions (autoAdvanceOverdueIntervalHabits db date)
                                        (formatDateString date))
    /\ sql_true (due_where (autoAdvanceOverdueIntervalHabits db date)
                           (formatDateString date) (getDay date) h c) = true.
Proof.
  unfold getHabitsForDate, select_due. cbn [snd].
  rewrite in_map_iff. split.
  - intros ([h c] & <- & Hin). apply In_order_by, filter_In in Hin as [Hj Hw].
    exists h, c. auto.
  - intros (h & c & -> & Hj & Hw). exists (h, c). split; trivial.
    apply In_order_by, filter_In. auto.
Qed.

Lemma mapRowToHabit_inj (h1 h2 : HabitRow) :
  mapRowToHabit h1 = mapRowToHabit h2 -> h1 = h2.
Proof. destruct h1, h2. unfold mapRowToHabit. simpl. now intros [= -> -> -> -> -> -> ->]. Qed.

Lemma autoAdvance_habits (db : Store) (date : Date) :
  habits (autoAdvanceOverdueIntervalHabits db date) = habits db
  /\ habit_days (autoAdvanceOverdueIntervalHabits db date) = habit_days db
  /\ habit_completions (autoAdvanceOverdueIntervalHabits db date) = habit_completions db.
Proof.
  unfold autoAdvanceOverdueIntervalHabits.
  generalize (select_overdue db (formatDateString date)). intros rows.
  revert db. induction rows as [|r rows IH]; intros db; simpl; [auto|].
  destruct (IH (advance_one date db r)) as (-> & -> & ->). auto.
Qed.

End Resolver.

(** ** Claims on the Schedule Resolver *)

Module ResolverClaims.
Import Calendar Js Schema Repo Scenarios Checks Wf CalendarFacts DateStrings DateArith
       StoreFacts Advancer Resolver.

Local Open Scope string_scope.

(** C8: [getHabitsForDate] lists a custom habit that has a [oneTimeDate]
    only on the date whose string is exactly that [oneTimeDate], and it does
    list it then: whether such a habit is listed depends neither on the
    weekday nor on the rows of [habit_days]. *)
Theorem one_time_exact_match (db : Store) (date : Date) :
  (forall hc s,
     In hc (snd (getHabitsForDate db date)) ->
     scheduleType (habit hc) = custom -> oneTimeDate (habit hc) = Some s ->
     s = formatDateString date)
  /\ (forall h s,
        In h (habits db) -> h_schedule_type h = custom -> h_one_time_date h = Some s ->
        s = formatDateString date ->
        exists c, In {| habit := mapRowToHabit h; completed := c |}
                     (snd (getHabitsForDate db date))).
Proof.
  split.
  - intros hc s Hin Hc Hs.
    apply getHabitsForDate_In in Hin as (h & c & -> & Hj & Hw).
    simpl in Hc, Hs. rewrite (due_where_one_time _ _ _ _ _ s Hc Hs) in Hw.
    now apply String.eqb_eq.
  - intros h s Hh Hc Hs ->.
    destruct (autoAdvance_habits db date) as (Eh & _ & _).
    destruct (left_join_total (autoAdvanceOverdueIntervalHabits db date)
                (formatDateString date) h) as [c Hj]; [now rewrite Eh|].
    exists (completed_of c). apply getHabitsForDate_In. exists h, c.
    repeat split; trivial.
    rewrite (due_where_one_time _ _ _ _ _ _ Hc Hs). apply String.eqb_refl.
Qed.

Lemma one_time_exact_match_witness :
  (forall hc, In hc (snd (getHabitsForDate store_once (Day day_2024_01_11))) ->
              habit hc <> mapRowToHabit habit_once)
  /\ exists c, In {| habit := mapRowToHabit habit_once; completed := c |}
                  (snd (getHabitsForDate store_once (Day day_2024_01_10))).
Proof.
  split.
  - intros hc Hin E.
    pose proof (proj1 (one_time_exact_match store_once (Day day_2024_01_11))
                  hc "2024-01-10" Hin) as H.
    rewrite E in H. specialize (H eq_refl eq_refl).
    vm_compute in H. discriminate H.
  - apply (proj2 (one_time_exact_match store_once (Day day_2024_01_10))
             habit_once "2024-01-10").
    + now left.
    + reflexivity.
    + reflexivity.
    + vm_compute. reflexivity.
Defined.

Lemma advance_row_rescheduled (db : Store) (d : Date) (ihs : IntervalHabitStateRow) :
  ihs_reschedule_if_missed ihs = 1 -> advance_row db d ihs = ihs.
Proof.
  intros E. unfold advance_row, overdue_of. rewrite E.
  destruct (find _ _); reflexivity.
Qed.

Lemma advance_row_id (db : Store) (d : Date) (ihs : IntervalHabitStateRow) :
  ihs_habit_id (advance_row db d ihs) = ihs_habit_id ihs.
Proof. unfold advance_row. destruct (overdue_of _ _ _); reflexivity. Qed.

(** An interval habit is listed when one of its state rows is due. *)
Lemma interval_habit_listed (db : Store) (date : Date) (h : HabitRow)
    (ihs : IntervalHabitStateRow) :
  In h (habits db) -> h_schedule_type h = interval ->
  In ihs (interval_habit_state (autoAdvanceOverdueIntervalHabits db date)) ->
  ihs_habit_id ihs = h_id h ->
  sql_true (interval_state_due ihs (formatDateString date)) = true ->
  exists c, In {| habit := mapRowToHabit h; completed := c |}
               (snd (getHabitsForDate db date)).
Proof.
  intros Hh Hi Hin Eid Hdue.
  destruct (autoAdvance_habits db date) as (Eh & _ & _).
  destruct (left_join_total (autoAdvanceOverdueIntervalHabits db date)
              (formatDateString date) h) as [c Hj]; [now rewrite Eh|].
  exists (completed_of c). apply getHabitsForDate_In. exists h, c.
  repeat split; trivial.
  rewrite (due_where_interval _ _ _ _ _ Hi).
  apply orb_true_iff. right. apply existsb_exists. exists ihs.
  split; trivial. now rewrite Eid, String.eqb_refl, Hdue.
Qed.

(** C7: the Interval Advancer, whatever its reference date, leaves the
    state row of an interval habit with [reschedule_if_missed = 1] as it is,
    and [getHabitsForDate] lists the habit on every day on or after its
    [next_due] (as long as no completion moves [next_due]). *)
Theorem reschedule_if_missed_stays_due (db : Store) (h : HabitRow)
    (ihs : IntervalHabitStateRow) (z0 z : Z) :
  habits_pk db -> interval_state_pk db ->
  In h (habits db) -> h_schedule_type h = interval ->
  In ihs (interval_habit_state db) -> ihs_habit_id ihs = h_id h ->
  ihs_reschedule_if_missed ihs = 1 ->
  ihs_next_due ihs = formatDateString (Day z0) ->
  in_range z0 -> in_range z -> z0 <= z ->
  (forall d,
     In ihs (interval_habit_state (autoAdvanceOverdueIntervalHabits db d))
     /\ forall ihs',
          In ihs' (interval_habit_state (autoAdvanceOverdueIntervalHabits db d)) ->
          ihs_habit_id ihs' = h_id h -> ihs' = ihs)
  /\ In ihs (interval_habit_state (fst (getHabitsForDate db (Day z))))
  /\ exists c, In {| habit := mapRowToHabit h; completed := c |}
                  (snd (getHabitsForDate db (Day z))).
Proof.
  intros Hpk Hspk Hh Hi Hin Eid Er End Hz0 Hz Hle.
  assert (Hkeep : forall d,
    In ihs (interval_habit_state (autoAdvanceOverdueIntervalHabits db d))).
  { intros d. rewrite autoAdvance_rows by assumption. cbn [interval_habit_state].
    apply in_map_iff. exists ihs. split; trivial. now apply advance_row_rescheduled. }
  split; [|split].
  - intros d. split; [apply Hkeep|].
    intros ihs' Hin' Eid'. rewrite autoAdvance_rows in Hin' by assumption.
    cbn [interval_habit_state] in Hin'.
    apply in_map_iff in Hin' as (ihs0 & <- & Hin0).
    rewrite advance_row_id in Eid'.
    assert (ihs0 = ihs) as ->
      by (apply (same_key_same_row ihs_habit_id (interval_habit_state db));
          [exact Hspk|assumption|assumption|congruence]).
    now apply advance_row_rescheduled.
  - rewrite getHabitsForDate_store. apply Hkeep.
  - apply (interval_habit_listed db (Day z) h ihs); trivial.
    destruct (Z.eq_dec z0 z) as [->|Hne].
    + now apply interval_state_due_next.
    + apply interval_state_due_carried; trivial.
      rewrite End, formatDateString_ltb by assumption. apply Z.ltb_lt. lia.
Qed.

Lemma reschedule_if_missed_stays_due_witness :
  (forall d,
     In state_D (interval_habit_state (autoAdvanceOverdueIntervalHabits store_D d))
     /\ forall ihs',
          In ihs' (interval_habit_state (autoAdvanceOverdueIntervalHabits store_D d)) ->
          ihs_habit_id ihs' = "b" -> ihs' = state_D)
  /\ In state_D (interval_habit_state (fst (getHabitsForDate store_D (Day day_2024_01_15))))
  /\ exists c, In {| habit := mapRowToHabit habit_B; completed := c |}
                  (snd (getHabitsForDate store_D (Day day_2024_01_15))).
Proof.
  apply (reschedule_if_missed_stays_due store_D habit_B state_D
           (days_from_civil 2024 1 1) day_2024_01_15).
  - repeat constructor. simpl. tauto.
  - repeat constructor. simpl. tauto.
  - now left.
  - reflexivity.
  - now left.
  - reflexivity.
  - reflexivity.
  - vm_compute. reflexivity.
  - split; intros C; discriminate C.
  - split; intros C; discriminate C.
  - intros C. discriminate C.
Defined.

Lemma format_2024_01_10 : formatDateString (Day day_2024_01_10) = "2024-01-10".
Proof. vm_compute. reflexivity. Qed.

Lemma scenario_B_numbers (hid : string) :
  let date := Day day_2024_01_10 in
  let habit := mkOverdueRow hid "2024-01-01" (Some 3) in
  daysPassed_of date (next_due habit) = Some 9
  /\ intervalsToAdd_of date habit = Some 3
  /\ formatDateString (newDueDate_of date habit) = "2024-01-10"
  /\ formatDateString (lastDueDate_of date habit) = "2024-01-07".
Proof. vm_compute. auto. Qed.

(** C1 (scenario B): for an interval habit of 3 days with
    [reschedule_if_missed = 0] and [next_due = "2024-01-01"],
    [getHabitsForDate] on 2024-01-10 first advances the habit's state, with
    [daysPassed = 9] and [intervalsToAdd = 3], to [next_due = "2024-01-10"]
    and [last_due = "2024-01-07"], and then lists the habit as due. *)
Theorem scenario_B_auto_advance (db : Store) (h : HabitRow) (ihs : IntervalHabitStateRow) :
  habits_pk db -> interval_state_pk db ->
  In h (habits db) -> h_schedule_type h = interval -> h_interval_days h = Some 3 ->
  In ihs (interval_habit_state db) -> ihs_habit_id ihs = h_id h ->
  ihs_reschedule_if_missed ihs = 0 -> ihs_next_due ihs = "2024-01-01" ->
  let date := Day day_2024_01_10 in
  let overdue := mkOverdueRow (h_id h) "2024-01-01" (Some 3) in
  let advanced :=
    {| ihs_habit_id := h_id h;
       ihs_last_completed := ihs_last_completed ihs;
       ihs_last_due := Some "2024-01-07";
       ihs_next_due := "2024-01-10";
       ihs_reschedule_if_missed := 0 |} in
  formatDateString date = "2024-01-10"
  /\ In overdue (select_overdue db (formatDateString date))
  /\ daysPassed_of date (next_due overdue) = Some 9
  /\ intervalsToAdd_of date overdue = Some 3
  /\ (forall ihs',
        In ihs' (interval_habit_state (fst (getHabitsForDate db date))) ->
        ihs_habit_id ihs' = h_id h <-> ihs' = advanced)
  /\ In advanced (interval_habit_state (fst (getHabitsForDate db date)))
  /\ exists c, In {| habit := mapRowToHabit h; completed := c |}
                  (snd (getHabitsForDate db date)).
Proof.
  intros Hpk Hspk Hh Hi Hn Hin Eid Er End date overdue advanced.
  destruct (scenario_B_numbers (h_id h)) as (Edays & Eadd & Enew & Elast).
  assert (Eo : overdue_of db (formatDateString date) ihs = Some overdue).
  { unfold overdue_of.
    rewrite (find_by_key h_id _ _ h Hpk Hh (eq_sym Eid)).
    unfold date. rewrite format_2024_01_10, Er, End, Eid, Hn. reflexivity. }
  assert (Ea : advance_row db date ihs = advanced).
  { unfold advance_row. rewrite Eo. unfold advanced_row, overdue, date.
    rewrite Enew, Elast, Eid, Er. reflexivity. }
  assert (Hadv : In advanced (interval_habit_state (fst (getHabitsForDate db date)))).
  { rewrite getHabitsForDate_store, autoAdvance_rows by assumption.
    cbn [interval_habit_state]. apply in_map_iff. exists ihs. auto. }
  split; [exact format_2024_01_10|].
  split.
  { rewrite select_overdue_rows by assumption. apply in_flat_map.
    exists ihs. split; trivial. unfold rows_of. rewrite Eo. now left. }
  split; [exact Edays|]. split; [exact Eadd|].
  split; [|split; [exact Hadv|]].
  - intros ihs' Hin'. split; [|now intros ->].
    intros Eid'. rewrite getHabitsForDate_store, autoAdvance_rows in Hin' by assumption.
    cbn [interval_habit_state] in Hin'.
    apply in_map_iff in Hin' as (ihs0 & <- & Hin0).
    rewrite advance_row_id in Eid'.
    assert (ihs0 = ihs) as ->
      by (apply (same_key_same_row ihs_habit_id (interval_habit_state db));
          [exact Hspk|assumption|assumption|congruence]).
    exact Ea.
  - apply (interval_habit_listed db date h advanced);
      [exact Hh|exact Hi|exact Hadv|reflexivity|].
    apply interval_state_due_next. unfold date. now rewrite format_2024_01_10.
Qed.

Lemma scenario_B_auto_advance_witness :
  let date := Day day_2024_01_10 in
  let advanced := mkIntervalHabitStateRow "b" None (Some "2024-01-07") "2024-01-10" 0 in
  daysPassed_of date "2024-01-01" = Some 9
  /\ interval_habit_state (fst (getHabitsForDate store_B date)) = [advanced]
  /\ exists c, In {| habit := mapRowToHabit habit_B; completed := c |}
                  (snd (getHabitsForDate store_B date)).
Proof.
  intros date advanced.
  destruct (scenario_B_auto_advance store_B habit_B state_B) as (_ & _ & Hd & _ & _ & _ & Hdue).
  - repeat constructor. simpl. tauto.
  - repeat constructor. simpl. tauto.
  - now left.
  - reflexivity.
  - reflexivity.
  - now left.
  - reflexivity.
  - reflexivity.
  - reflexivity.
  - split; [exact Hd|]. split; [vm_compute; reflexivity|exact Hdue].
Defined.

End ResolverClaims.

(** ** The Completion Ledger *)

Module Ledger.
Import Calendar Js Schema Repo Scenarios Checks Wf CalendarFacts DateStrings DateArith
       StoreFacts Advancer.

Local Open Scope string_scope.

Lemma insert_or_ignore_tables (db db1 : Store) (habitId ds : string) :
  insert_or_ignore_completion db habitId ds = Resolved db1 ->
  habits db1 = habits db /\ habit_days db1 = habit_days db
  /\ interval_habit_state db1 = interval_habit_state db
  /\ completed_on db1 habitId ds = true
  /\ (forall c, In c (habit_completions db1) <->
                In c (habit_completions db) \/ c = mkHabitCompletionRow habitId ds).
Proof.
  unfold insert_or_ignore_completion, completed_on.
  destruct (existsb _ (habit_completions db)) eqn:E.
  - intros [= <-]. repeat split; trivial; [tauto|].
    intros [H| ->]; trivial.
    apply existsb_exists in E as (c & Hc & Ec).
    apply andb_true_iff in Ec as [E1 E2].
    apply String.eqb_eq in E1, E2. destruct c. simpl in *. now subst.
  - destruct (existsb _ (habits db)); [|discriminate].
    intros [= <-]. cbn [habits habit_days interval_habit_state habit_completions].
    repeat split; trivial.
    + rewrite existsb_app. simpl. now rewrite !String.eqb_refl, orb_true_r.
    + rewrite in_app_iff. simpl. intuition.
    + rewrite in_app_iff. simpl. intuition.
Qed.

Lemma insert_or_ignore_again (db : Store) (habitId ds : string) :
  completed_on db habitId ds = true ->
  insert_or_ignore_completion db habitId ds = Resolved db.
Proof.
  unfold insert_or_ignore_completion, completed_on. now intros ->.
Qed.

Lemma insert_or_ignore_known (db : Store) (habitId ds : string) (h : HabitRow) :
  In h (habits db) -> h_id h = habitId ->
  exists db1, insert_or_ignore_completion db habitId ds = Resolved db1.
Proof.
  intros Hh Eh. unfold insert_or_ignore_completion.
  destruct (existsb _ (habit_completions db)); [eauto|].
  assert (E : existsb (fun h0 => h_id h0 =? habitId) (habits db) = true).
  { apply existsb_exists. exists h. split; trivial. now apply String.eqb_eq. }
  rewrite E. eauto.
Qed.

(** [uncompleteHabit] writes to [habit_completions] only, and removes the
    completions of the habit on the date. *)
Lemma uncompleteHabit_frame (db : Store) (habitId : string) (date : Date) :
  let db2 := uncompleteHabit db habitId date in
  habits db2 = habits db /\ habit_days db2 = habit_days db
  /\ interval_habit_state db2 = interval_habit_state db
  /\ completed_on db2 habitId (formatDateString date) = false
  /\ (forall c, In c (habit_completions db2) <->
                In c (habit_completions db)
                /\ c <> mkHabitCompletionRow habitId (formatDateString date)).
Proof.
  unfold uncompleteHabit, completed_on.
  cbn [habits habit_days interval_habit_state habit_completions].
  split; [reflexivity|]. split; [reflexivity|]. split; [reflexivity|]. split.
  - apply not_true_is_false. intros E.
    apply existsb_exists in E as (c & Hc & Ec).
    apply filter_In in Hc as [_ Hc]. now rewrite Ec in Hc.
  - intros c. rewrite filter_In. split.
    + intros [Hc Hn]. split; trivial. intros ->.
      simpl in Hn. now rewrite !String.eqb_refl in Hn.
    + intros [Hc Hne]. split; trivial.
      apply negb_true_iff, not_true_is_false. intros E.
      apply andb_true_iff in E as [E1 E2]. apply String.eqb_eq in E1, E2.
      apply Hne. destruct c. simpl in *. now subst.
Qed.

Lemma completeHabit_completed (db db1 : Store) (habitId : string) (date : Date) :
  completeHabit db habitId date = (db1, Resolved tt) ->
  completed_on db1 habitId (formatDateString date) = true
  /\ habits db1 = habits db.
Proof.
  unfold completeHabit.
  destruct (insert_or_ignore_completion db habitId (formatDateString date)) as [db0|e] eqn:I;
    [|discriminate].
  destruct (insert_or_ignore_tables _ _ _ _ I) as (Eh & _ & _ & Ec & _).
  destruct (find _ (habits db0)) as [h|]; [destruct (_ && _)|]; intros [= <-]; auto.
Qed.

(** [completeHabit] resolves on every habit of the store. *)
Lemma completeHabit_resolves (db : Store) (h : HabitRow) (date : Date) :
  In h (habits db) ->
  exists db1, completeHabit db (h_id h) date = (db1, Resolved tt).
Proof.
  intros Hh. unfold completeHabit.
  destruct (insert_or_ignore_known db (h_id h) (formatDateString date) h Hh eq_refl)
    as [db0 ->].
  destruct (find _ (habits db0)) as [h'|]; [destruct (_ && _)|]; eauto.
Qed.

(** C5: [completeHabit] on a habit of the store resolves, and
    [uncompleteHabit] for the same habit and date then removes the completion
    and nothing else: the rows of [interval_habit_state] stay exactly as
    [completeHabit] left them, and [habits] and [habit_days] are not written
    to. *)
Theorem complete_then_uncomplete (db : Store) (h : HabitRow) (date : Date) :
  In h (habits db) ->
  exists db1,
    completeHabit db (h_id h) date = (db1, Resolved tt)
    /\ let db2 := uncompleteHabit db1 (h_id h) date in
       completed_on db1 (h_id h) (formatDateString date) = true
       /\ completed_on db2 (h_id h) (formatDateString date) = false
       /\ interval_habit_state db2 = interval_habit_state db1
       /\ habits db2 = habits db1
       /\ habit_days db2 = habit_days db1
       /\ (forall c, In c (habit_completions db2) <->
                     In c (habit_completions db1)
                     /\ c <> mkHabitCompletionRow (h_id h) (formatDateString date)).
Proof.
  intros Hh. destruct (completeHabit_resolves db h date Hh) as [db1 H].
  exists db1. split; [exact H|]. intros db2.
  destruct (completeHabit_completed _ _ _ _ H) as [Hc _].
  destruct (uncompleteHabit_frame db1 (h_id h) date) as (Eh & Ed & Es & Eu & Ecs).
  auto 10.
Qed.

Lemma complete_then_uncomplete_witness :
  let date := Day day_2024_01_10 in
  exists db1,
    completeHabit store_B_advanced "b" date = (db1, Resolved tt)
    /\ let db2 := uncompleteHabit db1 "b" date in
       completed_on db1 "b" (formatDateString date) = true
       /\ completed_on db2 "b" (formatDateString date) = false
       /\ interval_habit_state db2 = interval_habit_state db1
       /\ habits db2 = habits db1
       /\ habit_days db2 = habit_days db1
       /\ (forall c, In c (habit_completions db2) <->
                     In c (habit_completions db1)
                     /\ c <> mkHabitCompletionRow "b" (formatDateString date)).
Proof.
  apply (complete_then_uncomplete store_B_advanced habit_B (Day day_2024_01_10)).
  now left.
Defined.

(** [completeHabit] on an interval habit: the completion is inserted or
    ignored, then the UPDATE runs with the current [next_due] of the habit's
    state row, or the date when there is none, as [last_due]. *)
Lemma completeHabit_interval (db : Store) (h : HabitRow) (n z : Z) :
  habits_pk db -> In h (habits db) ->
  h_schedule_type h = interval -> h_interval_days h = Some n -> n <> 0 ->
  exists db0,
    insert_or_ignore_completion db (h_id h) (formatDateString (Day z)) = Resolved db0
    /\ completeHabit db (h_id h) (Day z)
       = (update_completed db0 (formatDateString (Day z))
            match find (fun ihs => ihs_habit_id ihs =? h_id h) (interval_habit_state db) with
            | Some ihs => ihs_next_due ihs
            | None => formatDateString (Day z)
            end
            (formatDateString (Day (z + n))) (h_id h),
          Resolved tt).
Proof.
  intros Hpk Hh Hi Hn Hn0.
  destruct (insert_or_ignore_known db (h_id h) (formatDateString (Day z)) h Hh eq_refl)
    as [db0 I].
  exists db0. split; trivial.
  destruct (insert_or_ignore_tables _ _ _ _ I) as (Eh & _ & Es & _ & _).
  unfold completeHabit. rewrite I, Eh, Es.
  rewrite (find_by_key h_id _ _ h Hpk Hh eq_refl).
  rewrite Hi, Hn. cbn [schedule_type_eqb truthy_number andb].
  destruct (Z.eqb_spec n 0) as [E|_]; [contradiction|]. cbn [negb].
  now rewrite setDate_add.
Qed.

(** C6, as the code has it: completing an interval habit on a date writes
    into the habit's state row the [next_due] it had as [last_due], the date
    as [last_completed] and the date plus the interval as [next_due], as long
    as the date and the date plus the interval are days a [Date] can hold;
    when the habit has no state row nothing is written to
    [interval_habit_state], and no row is created. *)
Theorem complete_sets_interval_state (db : Store) (h : HabitRow) (n z : Z) :
  habits_pk db -> interval_state_pk db -> In h (habits db) ->
  h_schedule_type h = interval -> h_interval_days h = Some n -> n <> 0 ->
  date_range z -> date_range (z + n) ->
  exists db1,
    completeHabit db (h_id h) (Day z) = (db1, Resolved tt)
    /\ (forall ihs,
          In ihs (interval_habit_state db) -> ihs_habit_id ihs = h_id h ->
          let written :=
            {| ihs_habit_id := h_id h;
               ihs_last_completed := Some (formatDateString (Day z));
               ihs_last_due := Some (ihs_next_due ihs);
               ihs_next_due := formatDateString (Day (z + n));
               ihs_reschedule_if_missed := ihs_reschedule_if_missed ihs |} in
          In written (interval_habit_state db1)
          /\ forall ihs1, In ihs1 (interval_habit_state db1) ->
                          ihs_habit_id ihs1 = h_id h -> ihs1 = written)
    /\ (forall ihs, In ihs (interval_habit_state db) -> ihs_habit_id ihs <> h_id h ->
                    In ihs (interval_habit_state db1))
    /\ ((forall ihs, In ihs (interval_habit_state db) -> ihs_habit_id ihs <> h_id h) ->
        interval_habit_state db1 = interval_habit_state db).
Proof.
  intros Hpk Hspk Hh Hi Hn Hn0 _ _.
  destruct (completeHabit_interval db h n z Hpk Hh Hi Hn Hn0) as (db0 & I & E).
  destruct (insert_or_ignore_tables _ _ _ _ I) as (_ & _ & Es & _ & _).
  eexists. split; [exact E|].
  unfold update_completed. cbn [interval_habit_state]. rewrite Es.
  split; [|split].
  - intros ihs Hin Eid.
    rewrite (find_by_key ihs_habit_id _ _ ihs Hspk Hin Eid).
    split.
    + apply in_map_iff. exists ihs. split; trivial.
      now rewrite Eid, String.eqb_refl.
    + intros ihs1 Hin1 Eid1. apply in_map_iff in Hin1 as (ihs0 & <- & Hin0).
      assert (Eid0 : ihs_habit_id ihs0 = h_id h).
      { destruct (ihs_habit_id ihs0 =? h_id h); exact Eid1. }
      assert (ihs0 = ihs) as ->
        by (apply (same_key_same_row ihs_habit_id (interval_habit_state db));
            [exact Hspk|assumption|assumption|congruence]).
      now rewrite Eid, String.eqb_refl.
  - intros ihs Hin Hne. apply in_map_iff. exists ihs. split; trivial.
    apply String.eqb_neq in Hne. now rewrite Hne.
  - intros Hnone. rewrite <- (map_id (interval_habit_state db)) at 2.
    apply map_ext_in. intros ihs Hin.
    pose proof (Hnone ihs Hin) as Hne. apply String.eqb_neq in Hne. now rewrite Hne.
Qed.

Lemma habits_pk_B_advanced : habits_pk store_B_advanced.
Proof. repeat constructor. simpl. tauto. Qed.

Lemma interval_state_pk_B_advanced : interval_state_pk store_B_advanced.
Proof. repeat constructor. simpl. tauto. Qed.

(** Scenario C. *)
Lemma complete_sets_interval_state_witness :
  exists db1,
    completeHabit store_B_advanced "b" (Day day_2024_01_10) = (db1, Resolved tt)
    /\ interval_habit_state db1
       = [mkIntervalHabitStateRow "b" (Some "2024-01-10") (Some "2024-01-10") "2024-01-13" 0].
Proof.
  destruct (complete_sets_interval_state store_B_advanced habit_B 3 day_2024_01_10
              habits_pk_B_advanced interval_state_pk_B_advanced
              (or_introl eq_refl) eq_refl eq_refl) as (db1 & E & _).
  - intros C. discriminate C.
  - split; intros C; discriminate C.
  - split; intros C; discriminate C.
  - exists db1. split; [exact E|].
    apply (f_equal fst) in E. cbn [fst] in E. rewrite <- E.
    vm_compute. reflexivity.
Defined.

(** C6 as the claim states it fails where the habit has no state row:
    [completeHabit] resolves, and afterwards there is still no row whose
    [last_due] could be the date. *)
Lemma complete_without_state_counterexample :
  let date := Day day_2024_01_10 in
  snd (completeHabit store_B_stateless "b" date) = Resolved tt
  /\ ~ exists ihs,
         In ihs (interval_habit_state (fst (completeHabit store_B_stateless "b" date)))
         /\ ihs_habit_id ihs = "b"
         /\ ihs_last_due ihs = Some (formatDateString date).
Proof.
  split; [vm_compute; reflexivity|].
  intros (ihs & Hin & _). vm_compute in Hin. exact Hin.
Qed.

(** C3 as the claim states it fails on an interval habit: the second
    [completeHabit] finds the completion, inserts nothing and raises nothing,
    but its UPDATE runs again and overwrites [last_due] with the [next_due]
    the first call wrote. *)
Lemma complete_twice_counterexample :
  let date := Day day_2024_01_10 in
  let db1 := fst (completeHabit store_B_advanced "b" date) in
  let db2 := fst (completeHabit db1 "b" date) in
  completed_on db1 "b" (formatDateString date) = true
  /\ snd (completeHabit db1 "b" date) = Resolved tt
  /\ map ihs_last_due (interval_habit_state db1) = [Some "2024-01-10"]
  /\ map ihs_last_due (interval_habit_state db2) = [Some "2024-01-13"]
  /\ db2 <> db1.
Proof.
  vm_compute. repeat split; trivial. discriminate.
Qed.

Lemma update_completed_twice (T : list IntervalHabitStateRow)
    (ds ld1 ld2 nd habitId : string) :
  let upd ld ihs :=
    if ihs_habit_id ihs =? habitId
    then {| ihs_habit_id := ihs_habit_id ihs;
            ihs_last_completed := Some ds;
            ihs_last_due := Some ld;
            ihs_next_due := nd;
            ihs_reschedule_if_missed := ihs_reschedule_if_missed ihs |}
    else ihs in
  map forget_last_due (map (upd ld2) (map (upd ld1) T))
  = map forget_last_due (map (upd ld1) T).
Proof.
  intros upd. rewrite !map_map. apply map_ext. intros ihs. unfold upd.
  destruct (ihs_habit_id ihs =? habitId) eqn:E; cbn [ihs_habit_id]; rewrite E; reflexivity.
Qed.

(** C3, as the code has it: a second [completeHabit] for the same habit and
    date raises no error and leaves [habits], [habit_days],
    [habit_completions] and, in every row of [interval_habit_state], all
    columns but [last_due] as the first call left them; when the habit is not
    an interval habit the whole store is left as it was. *)
Theorem complete_twice (db db1 : Store) (habitId : string) (date : Date) :
  completeHabit db habitId date = (db1, Resolved tt) ->
  exists db2,
    completeHabit db1 habitId date = (db2, Resolved tt)
    /\ habits db2 = habits db1
    /\ habit_days db2 = habit_days db1
    /\ habit_completions db2 = habit_completions db1
    /\ map forget_last_due (interval_habit_state db2)
       = map forget_last_due (interval_habit_state db1)
    /\ ((forall h, In h (habits db) -> h_id h = habitId ->
                   h_schedule_type h <> interval) ->
        db2 = db1).
Proof.
  intros H.
  destruct (completeHabit_completed _ _ _ _ H) as [Hc Eh1].
  pose proof (insert_or_ignore_again _ _ _ Hc) as I1.
  unfold completeHabit in H |- *. rewrite I1.
  destruct (insert_or_ignore_completion db habitId (formatDateString date)) as [db0|e] eqn:I;
    [|discriminate].
  destruct (insert_or_ignore_tables _ _ _ _ I) as (Eh & _ & _ & _ & _).
  rewrite Eh1, <- Eh.
  destruct (find (fun h => h_id h =? habitId) (habits db0)) as [h|] eqn:F.
  - destruct (schedule_type_eqb (h_schedule_type h) interval
              && truthy_number (h_interval_days h)) eqn:C.
    + injection H as <-. eexists. split; [reflexivity|].
      unfold update_completed. cbn [habits habit_days habit_completions interval_habit_state].
      repeat (split; [reflexivity|]). split.
      * apply update_completed_twice.
      * intros Hno. exfalso.
        apply find_some_key in F as [Hh Ek].
        apply (Hno h Hh Ek).
        apply andb_true_iff in C as [C _].
        destruct (h_schedule_type h); try discriminate C. reflexivity.
    + injection H as <-. eexists. split; [reflexivity|]. auto 6.
  - injection H as <-. eexists. split; [reflexivity|]. auto 6.
Qed.

Lemma complete_twice_witness :
  let date := Day day_2024_01_10 in
  let db1 := fst (completeHabit store_B_advanced "b" date) in
  exists db2,
    completeHabit db1 "b" date = (db2, Resolved tt)
    /\ habits db2 = habits db1
    /\ habit_days db2 = habit_days db1
    /\ habit_completions db2 = habit_completions db1
    /\ map forget_last_due (interval_habit_state db2)
       = map forget_last_due (interval_habit_state db1)
    /\ ((forall h, In h (habits store_B_advanced) -> h_id h = "b" ->
                   h_schedule_type h <> interval) ->
        db2 = db1).
Proof.
  apply (complete_twice store_B_advanced).
  vm_compute. reflexivity.
Defined.

End Ledger.

(** ** createHabit *)

Module Create.
Import Calendar Js Schema Repo Scenarios Checks Wf Constraints.

Local Open Scope string_scope.

(** Decide the condition of the first [if] of a hypothesis. *)
Ltac case_if_in H :=
  match type of H with
  | context [if ?b then _ else _] => destruct b eqn:?
  end.

(** With a [oneTimeDate] that is a non-empty string, [createHabit] writes
    nothing to [habit_days], whatever [days] holds. *)
Lemma createHabit_one_time_no_days (db : Store) (newId now : string) (today : Date)
    (nm s : string) (days : list Z) :
  s <> "" ->
  habit_days (fst (createHabit db newId now today (NewCustomHabit nm (Some s) days)))
  = habit_days db.
Proof.
  intros Hs. unfold createHabit.
  destruct (insert_habit db _) as [db0|e] eqn:I; [|reflexivity].
  unfold insert_habit in I. destruct (existsb _ _); [discriminate|].
  injection I as <-.
  cbn [truthy_string]. apply String.eqb_neq in Hs. rewrite Hs. reflexivity.
Qed.

Lemma insert_habit_days_rows (habitId : string) (days : list Z) :
  forall db,
  let db1 := fst (insert_habit_days db habitId days) in
  habits db1 = habits db
  /\ forall hd, In hd (habit_days db1) -> In hd (habit_days db) \/ hd_habit_id hd = habitId.
Proof.
  induction days as [|day days IH]; intros db; simpl; [auto|].
  destruct (insert_habit_day db habitId day) as [db0|e] eqn:I; simpl; [|auto].
  unfold insert_habit_day in I.
  do 3 (case_if_in I; [discriminate I|]). injection I as <-.
  destruct (IH {| habits := habits db;
                  habit_days := habit_days db ++ [mkHabitDayRow habitId day];
                  habit_completions := habit_completions db;
                  interval_habit_state := interval_habit_state db |}) as [Eh Hd].
  split; [exact Eh|]. intros hd Hin. destruct (Hd hd Hin) as [H|H]; [|now right].
  cbn [habit_days] in H. apply in_app_iff in H as [H|[<-|[]]]; auto.
Qed.

(** Outside the empty string, [createHabit] keeps the mutual exclusion:
    when no row of [habit_days] waits for the new id, a store in which no
    one-time habit has weekday rows stays so, whether the call resolves or
    is rejected half-way. *)
Lemma createHabit_keeps_exclusion (db : Store) (newId now : string) (today : Date)
    (newHabit : NewHabit) :
  one_time_xor_days db ->
  (forall hd, In hd (habit_days db) -> hd_habit_id hd <> newId) ->
  nh_oneTimeDate newHabit <> Some "" ->
  one_time_xor_days (fst (createHabit db newId now today newHabit)).
Proof.
  intros Hx Hfresh Hblank. unfold createHabit.
  destruct (insert_habit db _) as [db0|e] eqn:I; [|exact Hx].
  unfold insert_habit in I.
  destruct (existsb _ (habits db)) eqn:Ex; [discriminate|]. injection I as <-.
  assert (Hnew : forall h, In h (habits db) -> h_id h <> newId).
  { intros h Hh E. apply not_true_iff_false in Ex. apply Ex.
    apply existsb_exists. exists h. split; trivial. now apply String.eqb_eq. }
  destruct newHabit as [nm o|nm o days|nm o n startDate resched];
    cbn [nh_scheduleType nh_oneTimeDate nh_name] in *.
  - intros h hd Hh Hc Ho Hhd. cbn [fst habits habit_days] in *.
    apply in_app_iff in Hh as [Hh|[<-|[]]]; [now apply (Hx h hd)|simpl in Hc; discriminate Hc].
  - destruct (negb (truthy_string o) && (0 <? List.length days)%nat) eqn:C.
    + apply andb_true_iff in C as [C _]. apply negb_true_iff in C.
      assert (Eo : o = None).
      { destruct o as [s|]; trivial. simpl in C. apply negb_false_iff in C.
        apply String.eqb_eq in C. subst. now contradiction Hblank. }
      subst o.
      set (db0 := {| habits := habits db ++ _; habit_days := habit_days db;
                     habit_completions := habit_completions db;
                     interval_habit_state := interval_habit_state db |}).
      destruct (insert_habit_days_rows newId days db0) as [Eh Hd].
      destruct (insert_habit_days db0 newId days) as [db1 [u|e]];
        cbn [fst] in *; intros h hd Hh Hc Ho Hhd; rewrite Eh in Hh;
        cbn [habits] in Hh;
        (apply in_app_iff in Hh as [Hh|[<-|[]]]; [|now contradiction Ho]);
        (destruct (Hd hd Hhd) as [Hold|Hid];
         [now apply (Hx h hd)|rewrite Hid; intros E; now apply (Hnew h)]).
    + intros h hd Hh Hc Ho Hhd. cbn [fst habits habit_days] in *.
      apply in_app_iff in Hh as [Hh|[<-|[]]]; [now apply (Hx h hd)|].
      now apply Hfresh.
  - set (db0 := {| habits := habits db ++ _; habit_days := habit_days db;
                   habit_completions := habit_completions db;
                   interval_habit_state := interval_habit_state db |}).
    assert (Hx0 : one_time_xor_days db0).
    { intros h hd Hh Hc Ho Hhd. cbn [habits habit_days db0] in *.
      apply in_app_iff in Hh as [Hh|[<-|[]]]; [now apply (Hx h hd)|simpl in Hc; discriminate Hc]. }
    destruct (insert_interval_state db0 newId _ _) as [db1|e] eqn:S; cbn [fst];
      [|exact Hx0].
    unfold insert_interval_state in S.
    do 2 (case_if_in S; [discriminate S|]). injection S as <-. exact Hx0.
Qed.

(** C10: for every [oneTimeDate] but the empty string, which is no date
    and which no caller passes, [createHabit] enforces the mutual exclusion
    itself.  A custom habit with a [oneTimeDate] gets no row of [habit_days],
    whatever [days] holds; and a store whose rows of [habit_days] belong to
    habits (the foreign key) and in which no one-time habit has weekday rows
    stays so, whether the call resolves or is rejected half-way. *)
Theorem createHabit_enforces_exclusion (db : Store) (newId now : string) (today : Date)
    (newHabit : NewHabit) :
  nh_oneTimeDate newHabit <> Some "" ->
  let db1 := fst (createHabit db newId now today newHabit) in
  (nh_scheduleType newHabit = custom -> nh_oneTimeDate newHabit <> None ->
   habit_days db1 = habit_days db)
  /\ ((forall hd, In hd (habit_days db) -> known db (hd_habit_id hd)) ->
      one_time_xor_days db -> one_time_xor_days db1).
Proof.
  intros Hblank db1. split.
  - intros Hc Ho. unfold db1.
    destruct newHabit as [nm o|nm o days|nm o n startDate resched];
      cbn [nh_scheduleType] in Hc; try discriminate Hc.
    cbn [nh_oneTimeDate] in Ho, Hblank.
    destruct o as [s|]; [|now contradiction Ho].
    apply createHabit_one_time_no_days. intros ->. now apply Hblank.
  - intros Hfk Hx. unfold db1.
    destruct (existsb (fun h => h_id h =? newId) (habits db)) eqn:Ex.
    + unfold createHabit, insert_habit. cbn [h_id]. rewrite Ex. exact Hx.
    + apply createHabit_keeps_exclusion; trivial.
      intros hd Hhd E. destruct (Hfk hd Hhd) as (h & Hh & Eh).
      apply not_true_iff_false in Ex. apply Ex.
      apply existsb_exists. exists h. split; trivial.
      apply String.eqb_eq. congruence.
Qed.

Lemma createHabit_enforces_exclusion_witness :
  let db1 :=
    fst (createHabit empty_store "n" "2024-01-09T08:00:00.000Z" (Day day_2024_01_10)
                     (NewCustomHabit "call the bank" (Some "2024-01-10") [4])) in
  habit_days db1 = [] /\ one_time_xor_days db1.
Proof.
  assert (Hblank : Some "2024-01-10" <> Some "") by discriminate.
  destruct (createHabit_enforces_exclusion empty_store "n" "2024-01-09T08:00:00.000Z"
              (Day day_2024_01_10)
              (NewCustomHabit "call the bank" (Some "2024-01-10") [4]) Hblank)
    as [H1 H2].
  split.
  - apply H1; [reflexivity|discriminate].
  - apply H2; [intros hd []|intros h hd []].
Defined.

(** The empty string is the one [oneTimeDate] for which the exclusion is not
    kept: line 78 ([??]) stores it, as it is not NULL, while line 95 ([!])
    takes it for absent and inserts the days; the stored habit has a
    [one_time_date] and a row of [habit_days]. *)
Lemma createHabit_blank_one_time_date :
  let '(db, outcome) :=
    createHabit empty_store "n" "2024-01-09T08:00:00.000Z" (Day day_2024_01_10)
                new_habit_blank in
  one_time_xor_days empty_store
  /\ (exists created, outcome = Resolved created /\ oneTimeDate created = Some "")
  /\ map h_one_time_date (habits db) = [Some ""]
  /\ habit_days db = [mkHabitDayRow "n" 1]
  /\ ~ one_time_xor_days db.
Proof.
  vm_compute.
  split; [intros h hd []|].
  split; [eexists; split; reflexivity|].
  split; [reflexivity|]. split; [reflexivity|].
  intros H. eapply H; [left; reflexivity|reflexivity|discriminate|left; reflexivity|reflexivity].
Qed.

End Create.

(** ** getDailyCompletionStreak *)

Module DailyStreak.
Import Calendar Js Schema Repo Scenarios Checks Wf CalendarFacts DateStrings DateArith
       StoreFacts Advancer Resolver.

Local Open Scope string_scope.

Lemma filter_length_all {A : Type} (p : A -> bool) (l : list A) :
  (List.length (filter p l) =? List.length l)%nat = forallb p l.
Proof.
  induction l as [|a l IH]; simpl; trivial.
  pose proof (filter_length_le p l) as Hle.
  destruct (p a); simpl; [exact IH|].
  apply Nat.eqb_neq. lia.
Qed.

(** A day is complete when something is due on it and all that is due is
    completed. *)
Lemma isCompleteDay_spec (db : Store) (date : Date) :
  fst (isCompleteDay db date) = fst (getHabitsForDate db date)
  /\ (snd (isCompleteDay db date) = true <->
      snd (getHabitsForDate db date) <> []
      /\ forall hc, In hc (snd (getHabitsForDate db date)) -> completed hc = true).
Proof.
  unfold isCompleteDay.
  destruct (getHabitsForDate db date) as [db1 due]. cbn [fst snd].
  split; trivial.
  rewrite andb_true_iff, filter_length_all, forallb_forall, Nat.ltb_lt.
  destruct due as [|hc due]; simpl; split.
  - intros [H _]. lia.
  - intros [H _]. now contradiction H.
  - intros [_ H]. split; [discriminate|exact H].
  - intros [_ H]. split; [lia|exact H].
Qed.

Lemma isCompleteDay_completions (db : Store) (date : Date) :
  habit_completions (fst (isCompleteDay db date)) = habit_completions db.
Proof.
  rewrite (proj1 (isCompleteDay_spec db date)), getHabitsForDate_store.
  apply autoAdvance_habits.
Qed.

(** A complete day has a completion. *)
Lemma complete_day_completion (db : Store) (date : Date) :
  snd (isCompleteDay db date) = true ->
  exists c, In c (habit_completions db)
            /\ c_completed_date c = formatDateString date.
Proof.
  intros H. apply isCompleteDay_spec in H as [Hne Hall].
  destruct (snd (getHabitsForDate db date)) as [|hc due] eqn:E; [now contradiction Hne|].
  assert (Hin : In hc (snd (getHabitsForDate db date))) by (rewrite E; now left).
  pose proof (Hall hc (or_introl eq_refl)) as Hc.
  apply getHabitsForDate_In in Hin as (h & c & -> & Hj & _).
  rewrite (left_join_completed _ _ _ _ Hj) in Hc. cbn [completed] in Hc.
  apply existsb_exists in Hc as (c' & Hc' & Ec').
  apply andb_true_iff in Ec' as [_ Ed]. apply String.eqb_eq in Ed.
  destruct (autoAdvance_habits db date) as (_ & _ & Ecs). rewrite Ecs in Hc'.
  eauto.
Qed.

Lemma canon_length (t : Z * Z * Z) : String.length (canon t) = 10%nat.
Proof. destruct t as [[y m] d]. reflexivity. Qed.

(** The day before 1000-01-01 is not written as a date string. *)
Lemma before_MinDay_no_date_string : ~ date_string (formatDateString (Day (MinDay - 1))).
Proof.
  intros (z & Hz & E). rewrite (formatDateString_canon z Hz) in E.
  apply (f_equal String.length) in E. rewrite canon_length in E.
  vm_compute in E. discriminate E.
Qed.

Lemma store_after_days_completions (n : nat) (db : Store) (cursor : Z) :
  habit_completions (store_after_days n db cursor) = habit_completions db.
Proof.
  induction n as [|n IH]; cbn [store_after_days]; trivial.
  now rewrite isCompleteDay_completions.
Qed.

(** A complete day is a day of four-digit year, when the completions carry
    date strings. *)
Lemma complete_back_range (db : Store) (cursor : Z) (n : nat) :
  completion_dates db -> MinDay - 1 <= cursor - Z.of_nat n ->
  complete_back db cursor n = true -> MinDay <= cursor - Z.of_nat n.
Proof.
  intros Hd Hlo Hc. unfold complete_back in Hc.
  destruct (complete_day_completion _ _ Hc) as (c & Hin & Ec).
  rewrite store_after_days_completions in Hin.
  destruct (Z.eq_dec (cursor - Z.of_nat n) (MinDay - 1)) as [Eq|Hne]; [|lia].
  exfalso. apply before_MinDay_no_date_string.
  rewrite <- Eq, <- Ec. now apply Hd.
Qed.

(** The loop ends, at the latest on the day before 1000-01-01, which has no
    completion, and it has then counted the complete days it went through:
    entered after the day [cursor - j], it adds the number [m] of days from
    that day back that are complete, the next one being incomplete. *)
Lemma streak_while_counts (n : nat) (db : Store) (cursor : Z) :
  completion_dates db ->
  forall (j streak : nat),
  MinDay - 1 <= cursor - Z.of_nat j ->
  cursor - Z.of_nat j - MinDay + 1 <= Z.of_nat n ->
  exists m,
    (forall fuel, (n <= fuel)%nat ->
       snd (streak_while fuel (store_after_days (S j) db cursor) (Day (cursor - Z.of_nat j))
                         streak (complete_back db cursor j))
       = Some (streak + m)%nat)
    /\ (forall i, (i < m)%nat -> complete_back db cursor (j + i) = true)
    /\ complete_back db cursor (j + m) = false.
Proof.
  intros Hd. induction n as [|n IH]; intros j streak Hlo Hn.
  - destruct (complete_back db cursor j) eqn:C.
    + pose proof (complete_back_range db cursor j Hd Hlo C). lia.
    + exists 0%nat. rewrite !Nat.add_0_r. split; [|split; [lia|exact C]].
      intros fuel _. now destruct fuel.
  - destruct (complete_back db cursor j) eqn:C.
    + pose proof (complete_back_range db cursor j Hd Hlo C) as Hj.
      destruct (IH (S j) (S streak)) as (m & Hm & Hrun & Hend);
        [rewrite Nat2Z.inj_succ; lia|rewrite Nat2Z.inj_succ; lia|].
      exists (S m). split; [|split].
      * intros [|fuel] Hf; [lia|]. cbn [streak_while].
        rewrite yesterday_of_day.
        replace (cursor - Z.of_nat j - 1) with (cursor - Z.of_nat (S j))
          by (rewrite Nat2Z.inj_succ; lia).
        rewrite (surjective_pairing (isCompleteDay _ _)).
        change (fst (isCompleteDay (store_after_days (S j) db cursor)
                                   (Day (cursor - Z.of_nat (S j)))))
          with (store_after_days (S (S j)) db cursor).
        change (snd (isCompleteDay (store_after_days (S j) db cursor)
                                   (Day (cursor - Z.of_nat (S j)))))
          with (complete_back db cursor (S j)).
        rewrite Hm by lia. f_equal. lia.
      * intros [|i] Hi; [now rewrite Nat.add_0_r|].
        replace (j + S i)%nat with (S j + i)%nat by lia. apply Hrun. lia.
      * now replace (j + S m)%nat with (S j + m)%nat by lia.
    + exists 0%nat. rewrite !Nat.add_0_r. split; [|split; [lia|exact C]].
      intros fuel _. now destruct fuel.
Qed.

(** C4 as the claim states it (scenario F) fails: nothing is due on
    2024-03-06, yet the streak from that day is 1, the complete day before
    it. *)
Lemma daily_streak_counterexample :
  snd (getHabitsForDate store_F (Day day_2024_03_06)) = []
  /\ forall fuel, (2 <= fuel)%nat ->
       snd (getDailyCompletionStreak fuel store_F (Day day_2024_03_06)) = Some 1%nat.
Proof.
  split; [vm_compute; reflexivity|].
  intros [|[|fuel]] Hf; try lia.
  vm_compute. reflexivity.
Qed.

(** C4, as the code has it: a day is complete exactly when it has a due
    habit and all its due habits are completed; a start day on which nothing
    is due is not complete and is not counted, and the streak is then counted
    from the day before: it is the number of complete days, without a gap,
    that end on the day before the start day, hence 0 exactly when the day
    before is not complete either. *)
Theorem daily_streak_without_due_habits (db : Store) (z : Z) :
  in_range z -> completion_dates db ->
  snd (getHabitsForDate db (Day z)) = [] ->
  let db1 := fst (getHabitsForDate db (Day z)) in
  (forall db' date,
     snd (isCompleteDay db' date) = true <->
     snd (getHabitsForDate db' date) <> []
     /\ forall hc, In hc (snd (getHabitsForDate db' date)) -> completed hc = true)
  /\ snd (isCompleteDay db (Day z)) = false
  /\ exists k,
       (forall fuel, (Z.to_nat (z - MinDay) <= fuel)%nat ->
          snd (getDailyCompletionStreak fuel db (Day z)) = Some k)
       /\ (forall i, (i < k)%nat -> complete_back db1 (z - 1) i = true)
       /\ complete_back db1 (z - 1) k = false
       /\ (k = 0%nat <-> snd (isCompleteDay db1 (Day (z - 1))) = false).
Proof.
  intros Hz Hd Hdue db1.
  split; [intros db' date; apply isCompleteDay_spec|].
  assert (Hinc : snd (isCompleteDay db (Day z)) = false).
  { apply not_true_is_false. intros H. apply isCompleteDay_spec in H as [Hne _].
    now apply Hne. }
  split; trivial.
  assert (Hz' : MinDay <= z <= MaxDay) by exact Hz.
  assert (Hd1 : completion_dates db1).
  { unfold completion_dates, db1. rewrite getHabitsForDate_store.
    destruct (autoAdvance_habits db (Day z)) as (_ & _ & ->). exact Hd. }
  destruct (streak_while_counts (Z.to_nat (z - MinDay)) db1 (z - 1) Hd1 0 0)
    as (k & Hk & Hrun & Hend); [cbn [Z.of_nat]; lia|cbn [Z.of_nat]; lia|].
  exists k. split; [|split; [exact Hrun|split; [exact Hend|]]].
  - intros fuel Hf. unfold getDailyCompletionStreak.
    rewrite (surjective_pairing (isCompleteDay db (Day z))), Hinc.
    rewrite (proj1 (isCompleteDay_spec db (Day z))). fold db1.
    cbn [negb]. rewrite yesterday_of_day.
    rewrite (surjective_pairing (isCompleteDay db1 (Day (z - 1)))).
    specialize (Hk fuel Hf). cbn [store_after_days Z.of_nat] in Hk.
    unfold complete_back in Hk. cbn [store_after_days Z.of_nat] in Hk.
    rewrite Z.sub_0_r in Hk. exact Hk.
  - assert (E0 : complete_back db1 (z - 1) 0 = snd (isCompleteDay db1 (Day (z - 1)))).
    { unfold complete_back. cbn [store_after_days Z.of_nat]. now rewrite Z.sub_0_r. }
    rewrite <- E0. split.
    + intros ->. exact Hend.
    + intros E. destruct k as [|k]; trivial.
      assert (H0 : complete_back db1 (z - 1) 0 = true) by (apply (Hrun 0%nat); lia).
      congruence.
Qed.

Lemma daily_streak_without_due_habits_witness :
  let db1 := fst (getHabitsForDate store_F (Day day_2024_03_06)) in
  snd (isCompleteDay store_F (Day day_2024_03_06)) = false
  /\ exists k,
       (forall fuel, (Z.to_nat (day_2024_03_06 - MinDay) <= fuel)%nat ->
          snd (getDailyCompletionStreak fuel store_F (Day day_2024_03_06)) = Some k)
       /\ (forall i, (i < k)%nat -> complete_back db1 (day_2024_03_06 - 1) i = true)
       /\ complete_back db1 (day_2024_03_06 - 1) k = false
       /\ (k = 0%nat <-> snd (isCompleteDay db1 (Day (day_2024_03_06 - 1))) = false).
Proof.
  apply (daily_streak_without_due_habits store_F day_2024_03_06).
  - split; intros C; discriminate C.
  - intros c [<-|[]]. exists (days_from_civil 2024 3 5). split.
    + split; intros C; discriminate C.
    + vm_compute. reflexivity.
  - vm_compute. reflexivity.
Defined.

End DailyStreak.

(** ** getStreak *)

Module HabitStreak.
Import Calendar Js Schema Repo Scenarios Checks Wf CalendarFacts DateStrings DateArith
       StoreFacts DailyStreak.

Local Open Scope string_scope.

(** *** Sorting days *)

Lemma insert_later_first (x : Z) (s : list Z) :
  StronglySorted Z.gt s -> ~ In x s ->
  StronglySorted Z.gt (insert_by later_first x s).
Proof.
  induction s as [|y s IH]; simpl; intros Hs Hx.
  - repeat constructor.
  - apply StronglySorted_inv in Hs as [Hs Hy].
    unfold later_first at 1. destruct (Z.leb_spec y x) as [Hle|Hlt].
    + constructor; [now constructor|].
      assert (Hne : x <> y) by (intros ->; apply Hx; now left).
      assert (Hxy : x > y) by lia.
      constructor; trivial.
      rewrite Forall_forall in *. intros w Hw. specialize (Hy w Hw). lia.
    + constructor; [apply IH; trivial; intros Hin; apply Hx; now right|].
      rewrite Forall_forall in *. intros w Hw.
      apply In_insert_by in Hw as [->|Hw]; [lia|now apply Hy].
Qed.

Lemma order_by_later_first (l : list Z) :
  NoDup l -> StronglySorted Z.gt (order_by later_first l).
Proof.
  induction l as [|x l IH]; simpl; intros Hnd; [constructor|].
  inversion Hnd as [|? ? Hx Hl]; subst.
  apply insert_later_first; [now apply IH|].
  now rewrite In_order_by.
Qed.

(** Sorting date strings, later first, is sorting their days. *)
Lemma insert_by_desc_days (x : Z) (l : list Z) :
  in_range x -> Forall in_range l ->
  insert_by (desc (fun d => d)) (formatDateString (Day x))
            (map (fun z => formatDateString (Day z)) l)
  = map (fun z => formatDateString (Day z)) (insert_by later_first x l).
Proof.
  intros Hx. induction l as [|y l IH]; simpl; intros Hl; trivial.
  inversion Hl as [|? ? Hy Hl']; subst.
  unfold desc at 1, later_first at 1.
  rewrite formatDateString_leb by assumption.
  destruct (y <=? x)%Z; simpl; [reflexivity|].
  now rewrite IH.
Qed.

Lemma Forall_order_by {A : Type} (P : A -> Prop) (le : A -> A -> bool) (l : list A) :
  Forall P l -> Forall P (order_by le l).
Proof.
  rewrite !Forall_forall. intros H a Ha. apply H. now apply In_order_by in Ha.
Qed.

Lemma order_by_desc_days (l : list Z) :
  Forall in_range l ->
  order_by (desc (fun d => d)) (map (fun z => formatDateString (Day z)) l)
  = map (fun z => formatDateString (Day z)) (order_by later_first l).
Proof.
  induction l as [|x l IH]; simpl; intros Hl; trivial.
  inversion Hl as [|? ? Hx Hl']; subst.
  rewrite IH by assumption.
  apply insert_by_desc_days; trivial. now apply Forall_order_by.
Qed.

(** A list of date strings is the list of the strings of some days. *)
Lemma date_strings_days (l : list string) :
  (forall s, In s l -> date_string s) ->
  exists days, l = map (fun z => formatDateString (Day z)) days /\ Forall in_range days.
Proof.
  induction l as [|s l IH]; intros H.
  - exists []. split; [reflexivity|constructor].
  - destruct IH as (days & -> & Hd); [intros; apply H; now right|].
    destruct (H s (or_introl eq_refl)) as (z & Hz & ->).
    exists (z :: days). split; [reflexivity|now constructor].
Qed.

(** *** The loop, on days *)

Lemma formatDateString_eqb_early (z e : Z) :
  in_range z -> MinDay - 1 <= e <= MaxDay ->
  (formatDateString (Day z) =? formatDateString (Day e)) = (z =? e)%Z.
Proof.
  intros Hz He. destruct (Z.eq_dec e (MinDay - 1)) as [->|Hne].
  - destruct (Z.eqb_spec z (MinDay - 1)) as [E|_]; [unfold in_range in Hz; lia|].
    apply String.eqb_neq. intros E. apply before_MinDay_no_date_string.
    rewrite <- E. exists z. split; [exact Hz|reflexivity].
  - apply formatDateString_eqb; trivial. unfold in_range. lia.
Qed.

(** Once a day has been counted, the loop counts the days that follow it
    without a gap. *)
Lemma streak_loop_counting (days : list Z) :
  Forall in_range days ->
  forall (streak : nat) (e : Z), MinDay - 1 <= e <= MaxDay ->
  streak_loop (map (fun z => formatDateString (Day z)) days) (S streak) (Day e)
  = (S streak + consecutive_back days e)%nat.
Proof.
  induction 1 as [|z days Hz Hd IH]; intros streak e He;
    cbn [map streak_loop consecutive_back]; [lia|].
  rewrite formatDateString_eqb_early by assumption.
  destruct (Z.eqb_spec z e) as [->|Hne]; [|cbn [Nat.eqb]; lia].
  rewrite yesterday_of_day, IH by (unfold in_range in Hz; lia). lia.
Qed.

(** The first iteration: the first completion is counted when it is today's
    or, failing that, yesterday's. *)
Lemma streak_loop_start (days : list Z) (t : Z) :
  Forall in_range days -> in_range t ->
  streak_loop (map (fun z => formatDateString (Day z)) days) 0 (Day t)
  = match days with
    | [] => 0%nat
    | z :: _ => if (z =? t)%Z then consecutive_back days t
                else consecutive_back days (t - 1)
    end.
Proof.
  intros Hd Ht. destruct Hd as [|z days Hz Hd]; [reflexivity|].
  cbn [map streak_loop consecutive_back].
  assert (Ht' : MinDay <= t <= MaxDay) by exact Ht.
  rewrite formatDateString_eqb_early by (trivial; lia).
  destruct (Z.eqb_spec z t) as [->|Hne].
  - rewrite yesterday_of_day, streak_loop_counting by (trivial; lia). lia.
  - cbn [Nat.eqb]. rewrite yesterday_of_day.
    rewrite formatDateString_eqb_early by (trivial; lia).
    destruct (Z.eqb_spec z (t - 1)) as [->|_]; [|reflexivity].
    rewrite yesterday_of_day, streak_loop_counting by (trivial; unfold in_range in Hz; lia).
    lia.
Qed.

(** On a list of days in strictly decreasing order, none after [e], the
    count from [e] is the length of the run of days of the list that ends
    on [e]. *)
Lemma consecutive_back_spec (days : list Z) :
  StronglySorted Z.gt days ->
  forall e, Forall (fun z => z <= e) days ->
  let k := Z.of_nat (consecutive_back days e) in
  (forall i, 0 <= i < k -> In (e - i) days) /\ ~ In (e - k) days.
Proof.
  induction 1 as [|z days Hs IH Hz]; intros e He; simpl.
  - split; [lia|tauto].
  - inversion He as [|? ? Hze He']; subst.
    rewrite Forall_forall in Hz, He'.
    destruct (Z.eqb_spec z e) as [->|Hne].
    + destruct (IH (e - 1)) as [Hrun Hend].
      { apply Forall_forall. intros w Hw. specialize (Hz w Hw). lia. }
      rewrite Nat2Z.inj_succ. split.
      * intros i Hi. destruct (Z.eq_dec i 0) as [->|Hi0]; [left; lia|].
        right. replace (e - i) with (e - 1 - (i - 1)) by lia. apply Hrun. lia.
      * intros [E|Hin]; [lia|].
        apply Hend. now replace (e - 1 - Z.of_nat (consecutive_back days (e - 1)))
                      with (e - Z.succ (Z.of_nat (consecutive_back days (e - 1)))) by lia.
    + split; [simpl; lia|]. simpl. rewrite Z.sub_0_r.
      intros [E|Hin]; [lia|]. specialize (Hz e Hin). lia.
Qed.

(** *** The completions the query returns *)

(** The rows of the SELECT of [getStreak], as days: in decreasing order,
    none after today, and exactly the days up to today on which the habit has
    a completion. *)
Lemma select_completions_days (db : Store) (habitId : string) (t : Z) :
  in_range t -> completions_unique db -> completion_dates db ->
  exists days,
    select_completions_until db habitId (formatDateString (Day t))
    = map (fun z => formatDateString (Day z)) days
    /\ Forall in_range days
    /\ StronglySorted Z.gt days
    /\ Forall (fun z => z <= t) days
    /\ (forall z, In z days -> completed_on db habitId (formatDateString (Day z)) = true)
    /\ (forall z, MinDay - 1 <= z <= t ->
                  completed_on db habitId (formatDateString (Day z)) = true -> In z days).
Proof.
  intros Ht Hu Hd. unfold select_completions_until.
  set (today := formatDateString (Day t)).
  set (P := fun c => (c_habit_id c =? habitId) && (c_completed_date c <=? today)).
  set (rows := filter P (habit_completions db)).
  assert (Hrows : forall c, In c rows ->
            In c (habit_completions db) /\ c_habit_id c = habitId
            /\ (c_completed_date c <=? today) = true).
  { intros c Hc. apply filter_In in Hc as [Hin Hp]. unfold P in Hp.
    apply andb_true_iff in Hp as [Hp1 Hp2]. apply String.eqb_eq in Hp1. auto. }
  destruct (date_strings_days (map c_completed_date rows)) as (ds & Eds & Hds).
  { intros s Hs. apply in_map_iff in Hs as (c & <- & Hc).
    apply Hd. now apply Hrows. }
  assert (Hnd : NoDup ds).
  { apply (NoDup_map_inv (fun z => formatDateString (Day z))). rewrite <- Eds.
    apply NoDup_map_NoDup_ForallPairs; [|now apply NoDup_filter].
    intros c1 c2 H1 H2 E.
    destruct (Hrows c1 H1) as (_ & E1 & _). destruct (Hrows c2 H2) as (_ & E2 & _).
    destruct c1, c2. simpl in *. congruence. }
  assert (Hin : forall z, In z ds <->
            in_range z /\ In (formatDateString (Day z)) (map c_completed_date rows)).
  { intros z. rewrite Eds. split.
    - intros Hz. split; [now apply (proj1 (Forall_forall _ _) Hds)|].
      apply in_map_iff. now exists z.
    - intros [Hz Hm]. apply in_map_iff in Hm as (z' & E & Hz').
      assert (z' = z) as <-; [|exact Hz'].
      apply formatDateString_inj; trivial. now apply (proj1 (Forall_forall _ _) Hds). }
  exists (order_by later_first ds).
  split; [rewrite Eds; now apply order_by_desc_days|].
  split; [now apply Forall_order_by|].
  split; [now apply order_by_later_first|].
  split; [|split].
  - apply Forall_forall. intros z Hz. apply In_order_by, Hin in Hz as [Hz Hm].
    apply in_map_iff in Hm as (c & Ec & Hc).
    destruct (Hrows c Hc) as (_ & _ & Hle).
    unfold today in Hle. rewrite Ec, formatDateString_leb in Hle by assumption.
    now apply Z.leb_le.
  - intros z Hz. apply In_order_by, Hin in Hz as [Hz Hm].
    apply in_map_iff in Hm as (c & Ec & Hc).
    destruct (Hrows c Hc) as (Hin' & Eid & _).
    apply existsb_exists. exists c. split; trivial.
    now rewrite Eid, Ec, !String.eqb_refl.
  - intros z Hz Hdone. apply In_order_by, Hin.
    apply existsb_exists in Hdone as (c & Hc & Ec).
    apply andb_true_iff in Ec as [E1 E2]. apply String.eqb_eq in E1, E2.
    assert (Hzr : in_range z).
    { destruct (Z.eq_dec z (MinDay - 1)) as [->|Hne].
      - exfalso. apply before_MinDay_no_date_string. rewrite <- E2. now apply Hd.
      - unfold in_range in *. lia. }
    split; trivial.
    apply in_map_iff. exists c. split; trivial.
    apply filter_In. split; trivial. unfold P.
    rewrite E1, String.eqb_refl, E2. unfold today.
    rewrite formatDateString_leb by assumption. apply Z.leb_le. lia.
Qed.

(** C9: [getStreak] counts the days without a gap on which the habit has a
    completion, going back from today, or from yesterday when today has no
    completion yet: every day it counts has a completion, the day before the
    last one it counts has none, and no other number has these two
    properties.  With completions on 2024-03-05 and 2024-03-04 and none on
    2024-03-06, today, the count is 2. *)
Theorem habit_streak_counts (db : Store) (habitId : string) (t : Z) :
  in_range t -> completions_unique db -> completion_dates db ->
  let done := fun z => completed_on db habitId (formatDateString (Day z)) in
  let start := if done t then t else t - 1 in
  let k := Z.of_nat (getStreak db (Day t) habitId) in
  (forall i, 0 <= i < k -> done (start - i) = true)
  /\ done (start - k) = false
  /\ (forall n, 0 <= n ->
        (forall i, 0 <= i < n -> done (start - i) = true) ->
        done (start - n) = false -> k = n).
Proof.
  intros Ht Hu Hd done start k.
  destruct (select_completions_days db habitId t Ht Hu Hd)
    as (days & El & Hr & Hs & Hle & Hdone & Hin).
  assert (Ht' : MinDay <= t <= MaxDay) by exact Ht.
  assert (Ek : k = Z.of_nat (consecutive_back days start)).
  { unfold k, getStreak. rewrite El.
    destruct days as [|z days]; [reflexivity|].
    change (map (fun z0 => formatDateString (Day z0)) (z :: days))
      with (formatDateString (Day z) :: map (fun z0 => formatDateString (Day z0)) days)
      at 1. cbv iota.
    rewrite streak_loop_start by assumption.
    f_equal. unfold start.
    destruct (Z.eqb_spec z t) as [->|Hne].
    - unfold done. now rewrite (Hdone t (or_introl eq_refl)).
    - destruct (done t) eqn:Et; [|reflexivity].
      exfalso. apply (Hin t ltac:(lia)) in Et. destruct Et as [E|Et]; [lia|].
      apply StronglySorted_inv in Hs as [_ Hz].
      rewrite Forall_forall in Hz, Hle.
      specialize (Hz t Et). specialize (Hle z (or_introl eq_refl)). lia. }
  assert (Hstart : Forall (fun z => z <= start) days).
  { apply Forall_forall. intros z Hz.
    pose proof (proj1 (Forall_forall _ _) Hle z Hz) as Hzt. cbv beta in Hzt.
    unfold start. destruct (done t) eqn:Et; trivial.
    destruct (Z.eq_dec z t) as [->|Hne]; [|lia].
    unfold done in Et. rewrite (Hdone t Hz) in Et. discriminate. }
  destruct (consecutive_back_spec days Hs start Hstart) as [Hrun Hend].
  rewrite <- Ek in Hrun, Hend.
  assert (Hk : 0 <= k) by (rewrite Ek; lia).
  assert (Hst : t - 1 <= start <= t) by (unfold start; destruct (done t); lia).
  assert (Hlast : done (start - k) = false).
  { apply not_true_is_false. intros E. apply Hend, Hin; trivial.
    destruct (Z.eq_dec k 0) as [->|Hk0]; [lia|].
    pose proof (Hrun (k - 1) ltac:(lia)) as Hp.
    pose proof (proj1 (Forall_forall _ _) Hr _ Hp) as Hp'. cbv beta in Hp'.
    unfold in_range in Hp'. lia. }
  split; [|split; [exact Hlast|]].
  - intros i Hi. apply Hdone, Hrun, Hi.
  - intros n Hn Hall Hnone.
    destruct (Z.lt_trichotomy k n) as [Hlt|[E|Hgt]]; trivial.
    + rewrite (Hall k ltac:(lia)) in Hlast. discriminate.
    + pose proof (Hdone _ (Hrun n ltac:(lia))) as Hyes.
      unfold done in Hnone. rewrite Hyes in Hnone. discriminate.
Qed.

Lemma habit_streak_counts_witness :
  getStreak store_E (Day day_2024_03_06) "e" = 2%nat
  /\ let done := fun z => completed_on store_E "e" (formatDateString (Day z)) in
     done day_2024_03_06 = false
     /\ done (day_2024_03_06 - 1) = true
     /\ done (day_2024_03_06 - 2) = true
     /\ done (day_2024_03_06 - 3) = false.
Proof.
  assert (Hd : completed_on store_E "e" (formatDateString (Day day_2024_03_06)) = false)
    by (vm_compute; reflexivity).
  destruct (habit_streak_counts store_E "e" day_2024_03_06) as (Hrun & Hend & Huniq).
  - split; intros C; discriminate C.
  - repeat constructor; simpl; intuition discriminate.
  - intros c [<-|[<-|[]]].
    + exists (days_from_civil 2024 3 4). split; [split; intros C; discriminate C|].
      vm_compute. reflexivity.
    + exists (days_from_civil 2024 3 5). split; [split; intros C; discriminate C|].
      vm_compute. reflexivity.
  - rewrite Hd in Hrun, Hend, Huniq.
    assert (E : getStreak store_E (Day day_2024_03_06) "e" = 2%nat)
      by (vm_compute; reflexivity).
    rewrite E in Hrun, Hend. split; [exact E|]. cbv zeta.
    split; [exact Hd|].
    split; [apply (Hrun 0); lia|].
    split; [apply (Hrun 1); lia|exact Hend].
Defined.

End HabitStreak.

From Stdlib Require Import Permutation.

(** ** Sorted results and joins *)

Module ListFacts.
Import Calendar Js Schema Repo Queries Checks Wf StoreFacts Resolver.

Local Open Scope string_scope.

Lemma insert_by_perm {A : Type} (le : A -> A -> bool) (x : A) (l : list A) :
  Permutation (insert_by le x l) (x :: l).
Proof.
  induction l as [|y l IH]; cbn [insert_by]; [apply Permutation_refl|].
  destruct (le x y); [apply Permutation_refl|].
  eapply perm_trans; [apply perm_skip, IH|apply perm_swap].
Qed.

Lemma order_by_perm {A : Type} (le : A -> A -> bool) (l : list A) :
  Permutation (order_by le l) l.
Proof.
  induction l as [|x l IH]; [apply Permutation_refl|].
  change (order_by le (x :: l)) with (insert_by le x (order_by le l)).
  eapply perm_trans; [apply insert_by_perm|apply perm_skip, IH].
Qed.

Lemma NoDup_map_order_by {A B : Type} (f : A -> B) (le : A -> A -> bool) (l : list A) :
  NoDup (map f l) -> NoDup (map f (order_by le l)).
Proof.
  intros H. eapply Permutation_NoDup; [|exact H].
  apply Permutation_map, Permutation_sym, order_by_perm.
Qed.

(** A WHERE clause keeps a key a key. *)
Lemma NoDup_map_filter {Row Key : Type} (key : Row -> Key) (keep : Row -> bool)
    (rows : list Row) :
  NoDup (map key rows) -> NoDup (map key (filter keep rows)).
Proof.
  intros Hnd. induction rows as [|x rows IH]; cbn [map filter] in *; [constructor|].
  inversion Hnd as [|? ? Hx Hl]; subst.
  destruct (keep x); [|auto]. cbn [map]. constructor; [|auto].
  intros C. apply Hx. apply in_map_iff in C as (y & E & Hy).
  apply filter_In in Hy as [Hy _]. apply in_map_iff. eauto.
Qed.

(** The rows come out in the order [ORDER BY] asks for, whenever any two
    keys compare one way or the other. *)
Lemma Sorted_insert_by {A : Type} (le : A -> A -> bool) (x : A) (l : list A) :
  (forall a b, le a b = true \/ le b a = true) ->
  Sorted (fun a b => le a b = true) l ->
  Sorted (fun a b => le a b = true) (insert_by le x l).
Proof.
  intros Htot. induction l as [|y l IH]; cbn [insert_by]; intros H.
  - repeat constructor.
  - apply Sorted_inv in H as [Hs Hr].
    destruct (le x y) eqn:E.
    + constructor; [constructor; trivial|constructor; exact E].
    + constructor; [auto|].
      assert (Hyx : le y x = true) by (destruct (Htot x y); congruence).
      destruct l as [|z l]; cbn [insert_by].
      * constructor. exact Hyx.
      * destruct (le x z); constructor; [exact Hyx|].
        inversion Hr; assumption.
Qed.

Lemma Sorted_order_by {A : Type} (le : A -> A -> bool) (l : list A) :
  (forall a b, le a b = true \/ le b a = true) ->
  Sorted (fun a b => le a b = true) (order_by le l).
Proof.
  intros Htot. induction l as [|x l IH]; [constructor|].
  change (order_by le (x :: l)) with (insert_by le x (order_by le l)).
  apply Sorted_insert_by; assumption.
Qed.

Lemma Sorted_map {A B : Type} (R : A -> A -> Prop) (R' : B -> B -> Prop) (f : A -> B)
    (l : list A) :
  (forall a b, R a b -> R' (f a) (f b)) -> Sorted R l -> Sorted R' (map f l).
Proof.
  intros Hf. induction 1 as [|a l Hs IH Hr]; cbn [map]; constructor; trivial.
  destruct Hr; cbn [map]; constructor; auto.
Qed.

Lemma asc_total {A : Type} (key : A -> string) (a b : A) :
  asc key a b = true \/ asc key b a = true.
Proof. unfold asc. apply String.leb_total. Qed.

(** A filter that only one value can pass, on a list without duplicates. *)
Lemma filter_unique {A : Type} (p : A -> bool) (x : A) (l : list A) :
  NoDup l -> (forall a, In a l -> p a = true -> a = x) ->
  filter p l = if existsb p l then [x] else [].
Proof.
  induction l as [|a l IH]; cbn [filter existsb]; intros Hnd Hp; trivial.
  inversion Hnd as [|? ? Ha Hl]; subst.
  destruct (p a) eqn:E; cbn [orb].
  - assert (a = x) by (apply Hp; [now left|trivial]). subst a.
    f_equal. rewrite IH; [|trivial|intros; apply Hp; [now right|trivial]].
    destruct (existsb p l) eqn:Ex; trivial.
    apply existsb_exists in Ex as (b & Hb & Eb).
    assert (b = x) by (apply Hp; [now right|trivial]). subst b. contradiction.
  - apply IH; [trivial|intros; apply Hp; [now right|trivial]].
Qed.

(** With UNIQUE(habit_id, completed_date) the LEFT JOIN yields one row for
    each habit. *)
Lemma left_join_rows (db : Store) (ds : string) :
  completions_unique db ->
  left_join_completions db ds
  = map (fun h => (h, if completed_on db (h_id h) ds
                      then Some (mkHabitCompletionRow (h_id h) ds) else None))
        (habits db).
Proof.
  intros Hu. unfold left_join_completions, completed_on.
  assert (E : forall h T,
    existsb (fun c => (h_id h =? c_habit_id c) && (c_completed_date c =? ds)) T
    = existsb (fun c => (c_habit_id c =? h_id h) && (c_completed_date c =? ds)) T).
  { intros h T. induction T as [|c T IHT]; cbn [existsb]; trivial.
    rewrite IHT, (String.eqb_sym (h_id h)). reflexivity. }
  induction (habits db) as [|h l IH]; trivial.
  rewrite map_cons, <- IH. clear IH.
  cbn [flat_map].
  rewrite (filter_unique _ (mkHabitCompletionRow (h_id h) ds)); [|exact Hu|].
  - rewrite E. destruct (existsb _ _); reflexivity.
  - intros [hid d] _ E'. cbn [c_habit_id c_completed_date] in E'.
    apply andb_true_iff in E' as [E1 E2].
    apply String.eqb_eq in E1, E2. now subst.
Qed.

Lemma left_join_same (db db1 : Store) (ds : string) :
  habits db1 = habits db -> habit_completions db1 = habit_completions db ->
  left_join_completions db1 ds = left_join_completions db ds.
Proof. unfold left_join_completions. now intros -> ->. Qed.

Lemma left_join_advanced (db : Store) (date : Date) (ds : string) :
  left_join_completions (autoAdvanceOverdueIntervalHabits db date) ds
  = left_join_completions db ds.
Proof.
  destruct (autoAdvance_habits db date) as (E1 & _ & E3).
  apply left_join_same; assumption.
Qed.

(** The advancer never adds, drops or renames a state row. *)
Lemma autoAdvance_state_ids (db : Store) (date : Date) :
  map ihs_habit_id (interval_habit_state (autoAdvanceOverdueIntervalHabits db date))
  = map ihs_habit_id (interval_habit_state db)
  /\ map ihs_reschedule_if_missed
         (interval_habit_state (autoAdvanceOverdueIntervalHabits db date))
     = map ihs_reschedule_if_missed (interval_habit_state db)
  /\ map ihs_last_completed
         (interval_habit_state (autoAdvanceOverdueIntervalHabits db date))
     = map ihs_last_completed (interval_habit_state db).
Proof.
  unfold autoAdvanceOverdueIntervalHabits.
  generalize (select_overdue db (formatDateString date)). intros rows.
  revert db. induction rows as [|r rows IH]; intros db; cbn [fold_left]; [auto|].
  destruct (IH (advance_one date db r)) as (-> & -> & ->).
  unfold advance_one, update_due. cbn [interval_habit_state].
  rewrite !map_map.
  repeat split; apply map_ext; intros ihs; destruct (ihs_habit_id ihs =? habit_id r);
    reflexivity.
Qed.

Lemma exists_habit_day_spec (db : Store) (h : HabitRow) (dow : option Z) :
  sql_true (exists_habit_day db h dow)
  = existsb (fun hd => (hd_habit_id hd =? h_id h)
                       && sql_true (int_eq (Some (hd_day_of_week hd)) dow))
            (habit_days db).
Proof.
  unfold exists_habit_day.
  assert (E : forall l,
    existsb (fun hd => sql_true (Some (hd_habit_id hd =? h_id h)
                                 AND int_eq (Some (hd_day_of_week hd)) dow)%sql) l
    = existsb (fun hd => (hd_habit_id hd =? h_id h)
                         && sql_true (int_eq (Some (hd_day_of_week hd)) dow)) l).
  { intros l. induction l as [|hd l IH]; cbn [existsb]; trivial. rewrite IH. f_equal.
    destruct (hd_habit_id hd =? h_id h), (int_eq _ dow) as [[|]|]; reflexivity. }
  rewrite E. destruct (existsb _ _); reflexivity.
Qed.

(** The WHERE clause of the weekly view, schedule by schedule. *)
Lemma day_of_week_where_spec (db : Store) (dow : option Z) (h : HabitRow) :
  sql_true (day_of_week_where db dow h)
  = match h_schedule_type h, h_one_time_date h with
    | daily, _ => true
    | custom, None => sql_true (exists_habit_day db h dow)
    | _, _ => false
    end.
Proof.
  unfold day_of_week_where, exists_habit_day.
  destruct (h_schedule_type h), (h_one_time_date h); cbn; trivial;
    destruct (existsb _ _); reflexivity.
Qed.

Lemma getHabitsForDayOfWeek_In (db : Store) (dow : option Z) (date : Date)
    (hc : HabitWithCompletion) :
  In hc (getHabitsForDayOfWeek db dow date) <->
  exists h c,
    hc = {| habit := mapRowToHabit h; completed := completed_of c |}
    /\ In (h, c) (left_join_completions db (formatDateString date))
    /\ sql_true (day_of_week_where db dow h) = true.
Proof.
  unfold getHabitsForDayOfWeek. rewrite in_map_iff. split.
  - intros ([h c] & <- & Hin). apply In_order_by, filter_In in Hin as [Hj Hw].
    exists h, c. auto.
  - intros (h & c & -> & Hj & Hw). exists (h, c). split; trivial.
    apply In_order_by, filter_In. auto.
Qed.

End ListFacts.

(** ** Date strings between the screens and the repository *)

Module DateRoundTrip.
Import Calendar Js Schema Repo Queries Screens Scenarios Checks Wf.
Import CalendarFacts DateStrings DateArith DailyStreak.

Local Open Scope string_scope.

Lemma formatDateString_length (z : Z) :
  in_range z -> String.length (formatDateString (Day z)) = 10%nat.
Proof. intros Hz. rewrite formatDateString_canon by assumption. apply canon_length. Qed.

Lemma formatDateString_truthy (z : Z) :
  in_range z -> truthy_string (Some (formatDateString (Day z))) = true.
Proof.
  intros Hz. pose proof (formatDateString_length z Hz) as L.
  unfold truthy_string. destruct (formatDateString (Day z)); [discriminate L|reflexivity].
Qed.

Lemma in_range_2024_01_15 : in_range day_2024_01_15.
Proof. split; intros C; discriminate C. Qed.

Lemma in_range_day_2024_01_10 : in_range day_2024_01_10.
Proof. split; intros C; discriminate C. Qed.

(** X1: for days of four-digit year, [formatDateString] writes ten
    characters, and comparing two of its strings as text gives the order of
    the two days; in particular different days have different strings. *)
Theorem date_strings_ordered (z1 z2 : Z) :
  in_range z1 -> in_range z2 ->
  String.length (formatDateString (Day z1)) = 10%nat
  /\ String.compare (formatDateString (Day z1)) (formatDateString (Day z2)) = (z1 ?= z2)%Z
  /\ (formatDateString (Day z1) = formatDateString (Day z2) -> z1 = z2).
Proof.
  intros H1 H2. split; [|split].
  - apply formatDateString_length; assumption.
  - apply formatDateString_compare; assumption.
  - apply formatDateString_inj; assumption.
Qed.

Lemma date_strings_ordered_witness :
  String.length (formatDateString (Day day_2024_01_10)) = 10%nat
  /\ String.compare (formatDateString (Day day_2024_01_10))
                    (formatDateString (Day day_2024_01_15))
     = (day_2024_01_10 ?= day_2024_01_15)%Z
  /\ (formatDateString (Day day_2024_01_10) = formatDateString (Day day_2024_01_15) ->
      day_2024_01_10 = day_2024_01_15).
Proof.
  exact (date_strings_ordered day_2024_01_10 day_2024_01_15
           in_range_day_2024_01_10 in_range_2024_01_15).
Defined.

Lemma date_of_param_format (z : Z) (now : Date) :
  in_range z -> date_of_param (Some (formatDateString (Day z))) now = Day z.
Proof.
  intros Hz.
  pose proof (in_range_year z Hz) as Hy.
  pose proof (month_date_bounds z) as [Hm Hd].
  destruct (pieces_of_formatDateString z Hz) as (P0 & P1 & P2).
  unfold date_of_param. rewrite formatDateString_truthy by assumption.
  cbn [negb]. rewrite P0, P1, P2.
  unfold falsy_number, truthy_number.
  destruct (Z.eqb_spec (YearFromDay z) 0) as [E|_]; [lia|].
  destruct (Z.eqb_spec (MonthFromDay z + 1) 0) as [E|_]; [lia|].
  destruct (Z.eqb_spec (DateFromDay z) 0) as [E|_]; [lia|].
  cbn [negb orb num_sub new_Date].
  replace (MonthFromDay z + 1 - 1) with (MonthFromDay z) by lia.
  rewrite MakeDay_full_year by lia. reflexivity.
Qed.

(** X2: the add-habit modals read back the day the home screen wrote into
    their [date] parameter with [formatDateString]; without the parameter, or
    with an empty one, they take the current date. *)
Theorem date_param_round_trip (z : Z) (now : Date) :
  in_range z ->
  date_of_param (Some (formatDateString (Day z))) now = Day z
  /\ date_of_param None now = now
  /\ date_of_param (Some "") now = now.
Proof.
  intros Hz. split; [|split; reflexivity]. apply date_of_param_format. exact Hz.
Qed.

Lemma date_param_round_trip_witness :
  date_of_param (Some (formatDateString (Day day_2024_01_10))) InvalidDate
  = Day day_2024_01_10
  /\ date_of_param None InvalidDate = InvalidDate
  /\ date_of_param (Some "") InvalidDate = InvalidDate.
Proof.
  exact (date_param_round_trip day_2024_01_10 InvalidDate in_range_day_2024_01_10).
Defined.

Lemma getDaysUntilDate_days (z z1 : Z) :
  in_range z -> in_range z1 ->
  getDaysUntilDate (Day z) (Some (formatDateString (Day z1)))
  = Some (Some (Z.max 0 (z1 - z))).
Proof.
  intros Hz Hz1.
  pose proof (in_range_year z Hz). pose proof (in_range_year z1 Hz1).
  destruct (pieces_of_formatDateString z1 Hz1) as (P0 & P1 & P2).
  unfold getDaysUntilDate. rewrite formatDateString_truthy by assumption.
  cbn [negb]. rewrite P0, P1, P2.
  cbn [num_sub Date_UTC getFullYear getMonth getDate].
  replace (MonthFromDay z1 + 1 - 1) with (MonthFromDay z1) by lia.
  rewrite !MakeDay_full_year by lia.
  change MS_PER_DAY with 86400000.
  cbn [round_div]. change (86400000 <=? 0)%Z with false. cbv iota.
  cbn [num_max].
  assert (E : ((2 * (z1 * 86400000 - z * 86400000) + 86400000) / (2 * 86400000) = z1 - z)%Z).
  { replace (2 * (z1 * 86400000 - z * 86400000) + 86400000)%Z
      with (86400000 + (z1 - z) * (2 * 86400000))%Z by lia.
    rewrite Z.div_add by lia. rewrite Z.div_small by lia. lia. }
  rewrite E. reflexivity.
Qed.

(** X3: for a date string and a current day of four-digit years,
    [getDaysUntilDate] is the number of days from the current day to the
    date, and 0 when the date is past; without a date string it is
    [undefined]. *)
Theorem days_until_date (z z1 : Z) :
  in_range z -> in_range z1 ->
  getDaysUntilDate (Day z) (Some (formatDateString (Day z1)))
  = Some (Some (Z.max 0 (z1 - z)))
  /\ getDaysUntilDate (Day z) None = None
  /\ getDaysUntilDate (Day z) (Some "") = None.
Proof.
  intros Hz Hz1. split; [|split; reflexivity]. apply getDaysUntilDate_days; assumption.
Qed.

Lemma days_until_date_witness :
  getDaysUntilDate (Day day_2024_01_10) (Some (formatDateString (Day day_2024_01_15)))
  = Some (Some (Z.max 0 (day_2024_01_15 - day_2024_01_10)))
  /\ getDaysUntilDate (Day day_2024_01_10) None = None
  /\ getDaysUntilDate (Day day_2024_01_10) (Some "") = None.
Proof.
  exact (days_until_date day_2024_01_10 day_2024_01_15
           in_range_day_2024_01_10 in_range_2024_01_15).
Defined.

End DateRoundTrip.

(** ** The lists the views show *)

Module Views.
Import Calendar Js Schema Repo Queries Scenarios MoreScenarios Checks Wf.
Import CalendarFacts DateStrings DateArith StoreFacts Resolver ListFacts.

Local Open Scope string_scope.

Lemma habits_pk_week : habits_pk store_week.
Proof.
  unfold habits_pk. cbn.
  repeat constructor; cbn; intros C;
    repeat (destruct C as [C|C]; [discriminate C|]); exact C.
Qed.

Lemma completions_unique_week : completions_unique store_week.
Proof. unfold completions_unique. cbn. repeat constructor. intros []. Qed.

Lemma interval_state_pk_week : interval_state_pk store_week.
Proof. unfold interval_state_pk. cbn. repeat constructor. intros []. Qed.

Lemma list_week_today : snd (getHabitsForDate store_week (Day day_2024_01_10)) = list_week.
Proof. vm_compute. reflexivity. Qed.

(** The flag of an entry of the Today list, and the row it comes from. *)
Lemma getHabitsForDate_flag (db : Store) (date : Date) (hc : HabitWithCompletion) :
  In hc (snd (getHabitsForDate db date)) ->
  completed hc = completed_on db (id (habit hc)) (formatDateString date)
  /\ exists h, In h (habits db) /\ habit hc = mapRowToHabit h.
Proof.
  intros H. apply getHabitsForDate_In in H as (h & c & -> & Hj & _).
  rewrite left_join_advanced in Hj. split.
  - cbn [completed habit id mapRowToHabit]. apply (left_join_completed db _ h c Hj).
  - exists h. split; [|reflexivity]. exact (left_join_habit db _ h c Hj).
Qed.

(** X4: the [completed] flag of an entry of the Today list says whether the
    store holds a completion of that habit on that date, and every entry is a
    habit of the store. *)
Theorem completed_flag_correct (db : Store) (date : Date) (hc : HabitWithCompletion) :
  In hc (snd (getHabitsForDate db date)) ->
  completed hc = completed_on db (id (habit hc)) (formatDateString date)
  /\ exists h, In h (habits db) /\ habit hc = mapRowToHabit h.
Proof.
  intros Hin. apply getHabitsForDate_In in Hin as (h & c & -> & Hj & _).
  rewrite left_join_advanced in Hj.
  pose proof (left_join_habit db _ h c Hj) as Hh.
  pose proof (left_join_completed db _ h c Hj) as Hc.
  split; [exact Hc|]. exists h. split; [exact Hh|reflexivity].
Qed.

Lemma completed_flag_correct_witness :
  let hc := {| habit := mapRowToHabit habit_daily; completed := true |} in
  completed hc
  = completed_on store_week (id (habit hc)) (formatDateString (Day day_2024_01_10))
  /\ exists h, In h (habits store_week) /\ habit hc = mapRowToHabit h.
Proof.
  apply (completed_flag_correct store_week (Day day_2024_01_10)).
  rewrite list_week_today. left. reflexivity.
Defined.

(** X5: a daily habit is due on every date, an invalid one included: each
    habit [getDailyHabits] returns is in the Today list of every date, with
    the flag of its completion on that date; and the daily habits of a Today
    list are all returned by [getDailyHabits]. *)
Theorem daily_habits_always_listed (db : Store) (date : Date) :
  (forall hb, In hb (getDailyHabits db) ->
     scheduleType hb = daily
     /\ In {| habit := hb;
              completed := completed_on db (id hb) (formatDateString date) |}
           (snd (getHabitsForDate db date)))
  /\ (forall hc, In hc (snd (getHabitsForDate db date)) ->
        scheduleType (habit hc) = daily -> In (habit hc) (getDailyHabits db)).
Proof.
  split.
  - intros hb H. unfold getDailyHabits in H.
    apply in_map_iff in H as (h & <- & H).
    apply In_order_by, filter_In in H as [Hh Hd].
    assert (Ed : h_schedule_type h = daily) by (destruct (h_schedule_type h); now try discriminate).
    split; [exact Ed|].
    destruct (left_join_total db (formatDateString date) h Hh) as (c & Hj).
    apply getHabitsForDate_In. exists h, c. rewrite left_join_advanced.
    split; [|split; [exact Hj|apply due_where_daily; exact Ed]].
    f_equal. cbn [id mapRowToHabit]. symmetry.
    apply (left_join_completed db _ h c Hj).
  - intros hc H Ed. apply getHabitsForDate_In in H as (h & c & -> & Hj & _).
    rewrite left_join_advanced in Hj. cbn [habit scheduleType mapRowToHabit] in *.
    unfold getDailyHabits. apply in_map. apply In_order_by, filter_In.
    split; [exact (left_join_habit db _ h c Hj)|]. rewrite Ed. reflexivity.
Qed.

Lemma daily_habits_always_listed_witness :
  In (mapRowToHabit habit_daily) (getDailyHabits store_week)
  /\ In {| habit := mapRowToHabit habit_daily; completed := false |}
        (snd (getHabitsForDate store_week InvalidDate)).
Proof.
  assert (H : In (mapRowToHabit habit_daily) (getDailyHabits store_week))
    by (left; reflexivity).
  split; [exact H|].
  exact (proj2 (proj1 (daily_habits_always_listed store_week InvalidDate) _ H)).
Defined.

(** X6: with the keys of the schema in place, the Today list shows every
    habit at most once, and it is in the order of creation. *)
Theorem today_list_sorted_without_duplicates (db : Store) (date : Date) :
  habits_pk db -> completions_unique db ->
  Sorted (fun a b => (createdAt (habit a) <=? createdAt (habit b)) = true)
         (snd (getHabitsForDate db date))
  /\ NoDup (map (fun hc => id (habit hc)) (snd (getHabitsForDate db date))).
Proof.
  intros Hpk Hu. unfold getHabitsForDate, select_due. cbn [snd]. split.
  - apply Sorted_map
      with (R := fun a b => asc (fun row => h_created_at (fst row)) a b = true).
    + intros a b H. exact H.
    + apply Sorted_order_by. intros a b. apply asc_total.
  - rewrite map_map. cbn [habit id mapRowToHabit].
    apply (NoDup_map_order_by (fun row => h_id (fst row))).
    apply NoDup_map_filter. rewrite left_join_advanced.
    rewrite left_join_rows by assumption. rewrite map_map. cbn [fst]. exact Hpk.
Qed.

Lemma today_list_sorted_without_duplicates_witness :
  Sorted (fun a b => (createdAt (habit a) <=? createdAt (habit b)) = true)
         (snd (getHabitsForDate store_week (Day day_2024_01_10)))
  /\ NoDup (map (fun hc => id (habit hc))
                (snd (getHabitsForDate store_week (Day day_2024_01_10)))).
Proof.
  exact (today_list_sorted_without_duplicates store_week (Day day_2024_01_10)
           habits_pk_week completions_unique_week).
Defined.

(** X7: the weekly view never shows an interval habit or a one-time habit,
    whatever weekday it is asked for; asked for the date's own weekday it
    shows exactly the daily and the weekday habits of the date's Today
    list. *)
Theorem weekly_view_of_today (db : Store) (date : Date) :
  (forall dayOfWeek hc,
     In hc (getHabitsForDayOfWeek db dayOfWeek date) ->
     scheduleType (habit hc) = daily
     \/ (scheduleType (habit hc) = custom /\ oneTimeDate (habit hc) = None))
  /\ (forall hc,
        In hc (getHabitsForDayOfWeek db (getDay date) date) <->
        In hc (snd (getHabitsForDate db date))
        /\ (scheduleType (habit hc) = daily
            \/ (scheduleType (habit hc) = custom /\ oneTimeDate (habit hc) = None))).
Proof.
  assert (Hkind : forall dow h,
    sql_true (day_of_week_where db dow h) = true ->
    h_schedule_type h = daily
    \/ (h_schedule_type h = custom /\ h_one_time_date h = None)).
  { intros dow h H. rewrite day_of_week_where_spec in H.
    destruct (h_schedule_type h), (h_one_time_date h); try discriminate; auto. }
  split.
  - intros dow hc H. apply getHabitsForDayOfWeek_In in H as (h & c & -> & _ & Hw).
    exact (Hkind dow h Hw).
  - intros hc. rewrite getHabitsForDayOfWeek_In, getHabitsForDate_In.
    rewrite left_join_advanced.
    destruct (autoAdvance_habits db date) as (_ & Ed & _).
    split.
    + intros (h & c & -> & Hj & Hw). split; [|exact (Hkind _ h Hw)].
      exists h, c. split; [reflexivity|split; [exact Hj|]].
      destruct (Hkind _ h Hw) as [Hd|[Hc Ho]].
      * apply due_where_daily; exact Hd.
      * rewrite due_where_weekdays by assumption.
        rewrite day_of_week_where_spec, Hc, Ho, exists_habit_day_spec in Hw.
        rewrite Ed. exact Hw.
    + intros ((h & c & -> & Hj & Hw) & Hk). exists h, c.
      split; [reflexivity|split; [exact Hj|]].
      cbn [habit scheduleType oneTimeDate mapRowToHabit] in Hk.
      rewrite day_of_week_where_spec.
      destruct Hk as [Hd|[Hc Ho]].
      * rewrite Hd. reflexivity.
      * rewrite Hc, Ho, exists_habit_day_spec.
        rewrite due_where_weekdays in Hw by assumption.
        rewrite Ed in Hw. exact Hw.
Qed.

Lemma weekly_view_of_today_witness :
  getHabitsForDayOfWeek store_week (getDay (Day day_2024_01_10)) (Day day_2024_01_10)
  = [ {| habit := mapRowToHabit habit_daily; completed := true |};
      {| habit := mapRowToHabit habit_weekdays; completed := false |} ]
  /\ In {| habit := mapRowToHabit habit_weekdays; completed := false |}
        (snd (getHabitsForDate store_week (Day day_2024_01_10))).
Proof.
  assert (E : getHabitsForDayOfWeek store_week (getDay (Day day_2024_01_10))
                                     (Day day_2024_01_10)
              = [ {| habit := mapRowToHabit habit_daily; completed := true |};
                  {| habit := mapRowToHabit habit_weekdays; completed := false |} ])
    by (vm_compute; reflexivity).
  split; [exact E|].
  destruct (weekly_view_of_today store_week (Day day_2024_01_10)) as [_ H].
  refine (proj1 (proj1 (H {| habit := mapRowToHabit habit_weekdays; completed := false |}) _)).
  rewrite E. right. left. reflexivity.
Defined.

Lemma Z_leb_total (a b : Z) : (a <=? b)%Z = true \/ (b <=? a)%Z = true.
Proof. destruct (Z.leb_spec a b); [now left|right; apply Z.leb_le; lia]. Qed.

Lemma select_days_In (db : Store) (habitId : string) (d : Z) :
  In d (select_days db habitId) <-> In (mkHabitDayRow habitId d) (habit_days db).
Proof.
  unfold select_days. rewrite In_order_by, in_map_iff. split.
  - intros ([hid d'] & E & H). cbn [hd_day_of_week] in E. subst d'.
    apply filter_In in H as [H E]. cbn [hd_habit_id] in E.
    apply String.eqb_eq in E. now subst.
  - intros H. exists (mkHabitDayRow habitId d). split; [reflexivity|].
    apply filter_In. split; [exact H|]. cbn [hd_habit_id]. apply String.eqb_refl.
Qed.

(** X8: [getCustomHabits] returns weekday habits only, never a one-time
    habit; the [days] of each are its rows of [habit_days], in ascending
    order, and a weekday is among them exactly when the weekly view of that
    weekday shows the habit. *)
Theorem custom_habits_days (db : Store) (e : HabitWithDays) :
  In e (getCustomHabits db) ->
  scheduleType (weekday_habit e) = custom
  /\ oneTimeDate (weekday_habit e) = None
  /\ Sorted Z.le (days e)
  /\ (forall d, In d (days e) <->
                In (mkHabitDayRow (id (weekday_habit e)) d) (habit_days db))
  /\ (forall d date,
        In d (days e) <->
        exists c, In {| habit := weekday_habit e; completed := c |}
                     (getHabitsForDayOfWeek db (Some d) date)).
Proof.
  intros H. unfold getCustomHabits in H.
  apply in_map_iff in H as (h & <- & H).
  apply In_order_by, filter_In in H as [Hh Hw].
  cbn [weekday_habit days scheduleType oneTimeDate id mapRowToHabit].
  assert (Hc : h_schedule_type h = custom /\ h_one_time_date h = None).
  { destruct (h_schedule_type h), (h_one_time_date h); try discriminate Hw; auto. }
  destruct Hc as [Hc Ho].
  assert (Hday : forall d,
    sql_true (day_of_week_where db (Some d) h) = true <-> In d (select_days db (h_id h))).
  { intros d. rewrite day_of_week_where_spec, Hc, Ho, exists_habit_day_spec.
    rewrite select_days_In, existsb_exists. split.
    - intros ([hid d'] & Hin & E). cbn [hd_habit_id hd_day_of_week int_eq sql_true] in E.
      apply andb_true_iff in E as [E1 E2]. apply String.eqb_eq in E1.
      destruct (Z.eqb_spec d' d) as [->|]; [|discriminate E2]. now subst.
    - intros Hin. exists (mkHabitDayRow (h_id h) d). split; [exact Hin|].
      cbn [hd_habit_id hd_day_of_week int_eq sql_true].
      now rewrite String.eqb_refl, Z.eqb_refl. }
  repeat match goal with |- _ /\ _ => split end; trivial.
  - unfold select_days.
    rewrite <- (map_id (order_by Z.leb _)).
    apply Sorted_map with (R := fun a b => (a <=? b)%Z = true).
    + intros a b E. apply Z.leb_le. exact E.
    + apply Sorted_order_by. exact Z_leb_total.
  - intros d. apply select_days_In.
  - intros d date. split.
    + intros Hd. destruct (left_join_total db (formatDateString date) h Hh) as (c & Hj).
      exists (completed_of c). apply getHabitsForDayOfWeek_In. exists h, c.
      split; [reflexivity|split; [exact Hj|]]. apply Hday. exact Hd.
    + intros (c & Hin). apply getHabitsForDayOfWeek_In in Hin as (h' & c' & E & _ & Hw').
      apply (f_equal habit) in E. cbn [habit] in E.
      apply mapRowToHabit_inj in E. subst h'.
      apply Hday. exact Hw'.
Qed.

Lemma custom_habits_days_witness :
  let e := {| weekday_habit := mapRowToHabit habit_weekdays; days := [1; 3]%Z |} in
  scheduleType (weekday_habit e) = custom
  /\ oneTimeDate (weekday_habit e) = None
  /\ Sorted Z.le (days e)
  /\ (forall d, In d (days e) <->
                In (mkHabitDayRow (id (weekday_habit e)) d) (habit_days store_week))
  /\ (forall d date,
        In d (days e) <->
        exists c, In {| habit := weekday_habit e; completed := c |}
                     (getHabitsForDayOfWeek store_week (Some d) date)).
Proof.
  apply (custom_habits_days store_week). left. reflexivity.
Defined.

Lemma week_lookup (T : list HabitCompletionRow) (habitId date : string)
    (weekDates : list string) :
  In date weekDates ->
  existsb (fun d => d =? date)
    (map c_completed_date
       (filter (fun c => (c_habit_id c =? habitId)
                         && existsb (fun d => c_completed_date c =? d) weekDates) T))
  = existsb (fun c => (c_habit_id c =? habitId) && (c_completed_date c =? date)) T.
Proof.
  intros Hin. induction T as [|c T IH]; trivial.
  cbn [filter existsb].
  destruct (c_habit_id c =? habitId) eqn:E1; cbn [andb].
  - destruct (c_completed_date c =? date) eqn:E2.
    + apply String.eqb_eq in E2.
      assert (Ex : existsb (fun d => c_completed_date c =? d) weekDates = true).
      { apply existsb_exists. exists date. split; trivial. rewrite E2. apply String.eqb_refl. }
      rewrite Ex. cbn [map existsb]. rewrite E2, String.eqb_refl. reflexivity.
    + destruct (existsb _ weekDates); cbn [map existsb]; [rewrite E2|]; exact IH.
  - exact IH.
Qed.

Lemma getWeekProgress_lookup (db : Store) (habitId : string) (weekStartDate : Date) :
  getWeekProgress db habitId weekStartDate
  = map (fun date => completed_on db habitId date) (weekDates_of weekStartDate).
Proof.
  unfold getWeekProgress. apply map_ext_in. intros date Hin.
  apply week_lookup. exact Hin.
Qed.

(** X9: [getWeekProgress] returns seven flags; the flag of place [i] says
    whether the habit has a completion on the day [i] days after the start of
    the week. *)
Theorem week_progress_flags (db : Store) (habitId : string) (z : Z) :
  getWeekProgress db habitId (Day z)
  = map (fun i => completed_on db habitId (formatDateString (Day (z + Z.of_nat i))))
        (seq 0 7)
  /\ forall weekStartDate,
       List.length (getWeekProgress db habitId weekStartDate) = 7%nat.
Proof.
  split.
  - rewrite getWeekProgress_lookup.
    unfold weekDates_of. rewrite map_map. apply map_ext. intros i.
    cbv zeta. rewrite setDate_add. reflexivity.
  - intros w. unfold getWeekProgress, weekDates_of. rewrite !length_map. reflexivity.
Qed.

Lemma week_progress_flags_witness :
  getWeekProgress store_week "d" (Day (day_2024_01_10 - 3))
  = [false; false; false; true; false; false; false].
Proof.
  rewrite (proj1 (week_progress_flags store_week "d" (day_2024_01_10 - 3))).
  vm_compute. reflexivity.
Defined.

End Views.

(** ** Completing, undoing and the Today list *)

Module Accounting.
Import Calendar Js Schema Repo Queries Hooks Scenarios MoreScenarios Checks Wf.
Import CalendarFacts DateStrings DateArith StoreFacts Advancer Resolver ResolverClaims.
Import Ledger ListFacts DateRoundTrip Views.

Local Open Scope string_scope.

(** [completeHabit] never writes to [habits] or [habit_days], and keeps the
    keys of the state rows. *)
Lemma completeHabit_frame (db : Store) (habitId : string) (date : Date) :
  let db1 := fst (completeHabit db habitId date) in
  habits db1 = habits db /\ habit_days db1 = habit_days db
  /\ map ihs_habit_id (interval_habit_state db1)
     = map ihs_habit_id (interval_habit_state db).
Proof.
  unfold completeHabit.
  destruct (insert_or_ignore_completion db habitId (formatDateString date))
    as [db0|e] eqn:I; cbn [fst]; [|auto].
  destruct (insert_or_ignore_tables _ _ _ _ I) as (Eh & Ed & Es & _).
  destruct (find _ (habits db0)) as [h|]; [destruct (_ && _)|]; cbn [fst];
    rewrite <- ?Eh, <- ?Ed, <- ?Es; auto.
  unfold update_completed. cbn [habits habit_days interval_habit_state].
  repeat split. rewrite map_map. apply map_ext. intros ihs.
  destruct (ihs_habit_id ihs =? habitId); reflexivity.
Qed.

(** What [completeHabit] leaves in [habit_completions]. *)
Lemma completeHabit_completions (db : Store) (habitId : string) (date : Date) :
  habit_completions (fst (completeHabit db habitId date))
  = if completed_on db habitId (formatDateString date) then habit_completions db
    else if existsb (fun h => h_id h =? habitId) (habits db)
    then (habit_completions db ++ [mkHabitCompletionRow habitId (formatDateString date)])%list
    else habit_completions db.
Proof.
  unfold completeHabit, insert_or_ignore_completion, completed_on.
  destruct (existsb _ (habit_completions db)).
  - destruct (find _ (habits db)) as [h|]; [destruct (_ && _)|]; reflexivity.
  - destruct (existsb _ (habits db)); [|reflexivity].
    cbn [habits]. destruct (find _ (habits db)) as [h|]; [destruct (_ && _)|]; reflexivity.
Qed.

Lemma existsb_habit (db : Store) (h : HabitRow) :
  In h (habits db) -> existsb (fun h0 => h_id h0 =? h_id h) (habits db) = true.
Proof.
  intros Hh. apply existsb_exists. exists h. split; [exact Hh|apply String.eqb_refl].
Qed.

Lemma completions_unique_filter (db : Store) (habitId ds : string) :
  completions_unique db ->
  filter (fun c => (c_habit_id c =? habitId) && (c_completed_date c =? ds))
         (habit_completions db)
  = if completed_on db habitId ds then [mkHabitCompletionRow habitId ds] else [].
Proof.
  intros Hu. unfold completed_on. apply filter_unique; [exact Hu|].
  intros [hid d] _ E. cbn [c_habit_id c_completed_date] in E.
  apply andb_true_iff in E as [E1 E2]. apply String.eqb_eq in E1, E2. now subst.
Qed.

(** X10: completing a habit of the store adds one to the number of
    completions when the habit had none on that date, and nothing when it had
    one; undoing takes one off when it had one, and nothing otherwise. *)
Theorem total_completions_accounting (db : Store) (h : HabitRow) (date : Date) :
  In h (habits db) -> completions_unique db ->
  let was := completed_on db (h_id h) (formatDateString date) in
  getTotalCompletions (fst (completeHabit db (h_id h) date))
  = (getTotalCompletions db + (if was then 0 else 1))%nat
  /\ (getTotalCompletions (uncompleteHabit db (h_id h) date) + (if was then 1 else 0))%nat
     = getTotalCompletions db.
Proof.
  intros Hh Hu was. unfold getTotalCompletions. split.
  - rewrite completeHabit_completions. fold was. destruct was.
    + now rewrite Nat.add_0_r.
    + rewrite existsb_habit by assumption. rewrite length_app. reflexivity.
  - unfold uncompleteHabit. cbn [habit_completions].
    rewrite <- (filter_length
                  (fun c => (c_habit_id c =? h_id h)
                            && (c_completed_date c =? formatDateString date))
                  (habit_completions db)).
    rewrite completions_unique_filter by assumption. fold was.
    destruct was; cbn [List.length]; lia.
Qed.

Lemma total_completions_accounting_witness :
  getTotalCompletions (fst (completeHabit store_week "w" (Day day_2024_01_10))) = 2%nat
  /\ getTotalCompletions (uncompleteHabit store_week "d" (Day day_2024_01_10)) = 0%nat.
Proof.
  assert (Hw : In habit_weekdays (habits store_week)) by (right; left; reflexivity).
  assert (Hd : In habit_daily (habits store_week)) by (left; reflexivity).
  split.
  - exact (proj1 (total_completions_accounting store_week habit_weekdays
                    (Day day_2024_01_10) Hw completions_unique_week)).
  - pose proof (proj2 (total_completions_accounting store_week habit_daily
                         (Day day_2024_01_10) Hd completions_unique_week)) as H.
    apply (f_equal Nat.pred) in H. rewrite Nat.add_1_r in H. exact H.
Defined.

(** X11: for a habit that is not an interval habit and has no completion on
    the date, completing and then undoing gives back the store as it was. *)
Theorem complete_then_undo_restores (db : Store) (h : HabitRow) (date : Date) :
  In h (habits db) ->
  (forall h', In h' (habits db) -> h_id h' = h_id h -> h_schedule_type h' <> interval) ->
  completed_on db (h_id h) (formatDateString date) = false ->
  snd (completeHabit db (h_id h) date) = Resolved tt
  /\ uncompleteHabit (fst (completeHabit db (h_id h) date)) (h_id h) date = db.
Proof.
  intros Hh Hk Hc.
  assert (E : completeHabit db (h_id h) date
              = ({| habits := habits db; habit_days := habit_days db;
                    habit_completions :=
                      (habit_completions db
                       ++ [mkHabitCompletionRow (h_id h) (formatDateString date)])%list;
                    interval_habit_state := interval_habit_state db |}, Resolved tt)).
  { unfold completeHabit, insert_or_ignore_completion. unfold completed_on in Hc.
    rewrite Hc, existsb_habit by assumption. cbn [habits].
    destruct (find _ (habits db)) as [h'|] eqn:F; [|reflexivity].
    apply find_some_key in F as [Hh' Eh'].
    specialize (Hk h' Hh' Eh').
    destruct (h_schedule_type h'); try reflexivity. contradiction. }
  rewrite E. cbn [fst snd]. split; [reflexivity|].
  unfold uncompleteHabit. cbn [habits habit_days habit_completions interval_habit_state].
  rewrite filter_app. cbn [filter c_habit_id c_completed_date].
  rewrite !String.eqb_refl. cbn [andb negb].
  rewrite app_nil_r.
  replace (filter _ (habit_completions db)) with (habit_completions db);
    [symmetry; apply store_eta|].
  symmetry. apply forallb_filter_id. apply forallb_forall. intros c Hin.
  apply negb_true_iff, not_true_is_false. intros Ec.
  unfold completed_on in Hc. apply not_true_iff_false in Hc. apply Hc.
  apply existsb_exists. eauto.
Qed.

Lemma complete_then_undo_restores_witness :
  snd (completeHabit store_week "w" (Day day_2024_01_10)) = Resolved tt
  /\ uncompleteHabit (fst (completeHabit store_week "w" (Day day_2024_01_10))) "w"
                     (Day day_2024_01_10)
     = store_week.
Proof.
  apply (complete_then_undo_restores store_week habit_weekdays (Day day_2024_01_10)).
  - right. left. reflexivity.
  - intros h' Hin E.
    repeat (destruct Hin as [<-|Hin]; [try discriminate E; discriminate|]).
    destruct Hin.
  - vm_compute. reflexivity.
Defined.

Lemma ltb_irrefl (s : string) : (s <? s) = false.
Proof. unfold String.ltb. now rewrite string_compare_refl. Qed.

(** A state row completed on the day whose [next_due] is later makes no
    habit due on the day. *)
Lemma interval_state_due_undone (ihs : IntervalHabitStateRow) (ds : string) :
  ihs_last_completed ihs = Some ds ->
  (ihs_next_due ihs =? ds) = false -> (ihs_next_due ihs <? ds) = false ->
  sql_true (interval_state_due ihs ds) = false.
Proof.
  intros E1 E2 E3. unfold interval_state_due.
  unfold text_eq, text_lt, text_le, text_gt, text_ne, sql_text, int_eq.
  rewrite E1, E2, E3, ltb_irrefl.
  destruct (ihs_last_due ihs) as [ld|];
    destruct (ihs_reschedule_if_missed ihs =? 1)%Z,
             (ihs_reschedule_if_missed ihs =? 0)%Z; cbn;
    try reflexivity;
    try (destruct (ld <=? ds); reflexivity);
    try (rewrite (String.eqb_sym ds ld); destruct (ld =? ds); reflexivity);
    rewrite (String.eqb_sym ds ld); destruct (ld <=? ds), (ld =? ds); reflexivity.
Qed.

(** Once completed on the date, a habit that was due, or is an interval
    habit, is in the Today list of the date, as completed. *)
Lemma listed_after_complete (db db1 : Store) (h : HabitRow) (date : Date) :
  In h (habits db) ->
  completeHabit db (h_id h) date = (db1, Resolved tt) ->
  (h_schedule_type h = interval
   \/ exists c, sql_true (due_where (autoAdvanceOverdueIntervalHabits db date)
                                    (formatDateString date) (getDay date) h c) = true) ->
  In {| habit := mapRowToHabit h; completed := true |} (snd (getHabitsForDate db1 date)).
Proof.
  intros Hh Hc Hdue.
  destruct (completeHabit_completed db db1 (h_id h) date Hc) as [Hon Eh].
  pose proof (completeHabit_frame db (h_id h) date) as Hf.
  rewrite Hc in Hf. cbn [fst] in Hf. destruct Hf as (_ & Ed & _).
  assert (Hh1 : In h (habits db1)) by (rewrite Eh; exact Hh).
  destruct (left_join_total db1 (formatDateString date) h Hh1) as (c1 & Hj).
  pose proof (left_join_completed db1 _ h c1 Hj) as Ec1.
  fold (completed_on db1 (h_id h) (formatDateString date)) in Ec1.
  rewrite Hon in Ec1.
  apply getHabitsForDate_In. exists h, c1. rewrite left_join_advanced.
  split; [now rewrite Ec1|]. split; [exact Hj|].
  destruct (autoAdvance_habits db date) as (_ & Ed0 & _).
  destruct (autoAdvance_habits db1 date) as (_ & Ed1 & _).
  destruct (h_schedule_type h) eqn:Ek.
  - apply due_where_daily; exact Ek.
  - destruct Hdue as [C|(c & Hw)]; [discriminate C|].
    destruct (h_one_time_date h) as [s|] eqn:Eo.
    + rewrite (due_where_one_time _ _ _ h c1 s) by assumption.
      rewrite (due_where_one_time _ _ _ h c s) in Hw by assumption. exact Hw.
    + rewrite due_where_weekdays by assumption.
      rewrite due_where_weekdays in Hw by assumption.
      rewrite Ed1, Ed. rewrite Ed0 in Hw. exact Hw.
  - rewrite due_where_interval by assumption. rewrite Ec1. reflexivity.
Qed.

(** X12: with unique ids, for a positive interval and a day that has, as has
    the day one interval later, a four-digit year (1000 to 9999), completing
    an interval habit and undoing it on the same day takes the habit off the
    Today list of that day: after the completion it is listed as completed,
    and after the undo it is not listed, because [next_due] stays one
    interval ahead. *)
Theorem undo_hides_interval_habit (db : Store) (h : HabitRow) (n z : Z) :
  habits_pk db -> interval_state_pk db ->
  In h (habits db) -> h_schedule_type h = interval -> h_interval_days h = Some n ->
  0 < n -> in_range z -> in_range (z + n) ->
  let db1 := fst (completeHabit db (h_id h) (Day z)) in
  let db2 := uncompleteHabit db1 (h_id h) (Day z) in
  In {| habit := mapRowToHabit h; completed := true |} (snd (getHabitsForDate db1 (Day z)))
  /\ forall hc, In hc (snd (getHabitsForDate db2 (Day z))) -> id (habit hc) <> h_id h.
Proof.
  intros Hpk Hspk Hh Hk Hn Hpos Hz Hzn db1 db2.
  assert (Hn0 : n <> 0) by lia.
  destruct (completeHabit_interval db h n z Hpk Hh Hk Hn Hn0) as (db0 & I & Hc).
  destruct (insert_or_ignore_tables _ _ _ _ I) as (Eh0 & Ed0 & Es0 & _).
  assert (E1 : db1 = fst (completeHabit db (h_id h) (Day z))) by reflexivity.
  rewrite Hc in E1. cbn [fst] in E1.
  split.
  - apply (listed_after_complete db db1 h (Day z) Hh); [|now left].
    unfold db1. rewrite Hc. reflexivity.
  - intros hc Hin Eid.
    destruct (uncompleteHabit_frame db1 (h_id h) (Day z)) as (Eh2 & Ed2 & Es2 & Hoff & _).
    fold db2 in Eh2, Ed2, Es2, Hoff.
    assert (Eh1 : habits db1 = habits db) by (rewrite E1; cbn [update_completed habits]; exact Eh0).
    assert (Hpk2 : habits_pk db2) by (unfold habits_pk; rewrite Eh2, Eh1; exact Hpk).
    assert (Hids : map ihs_habit_id (interval_habit_state db2)
                   = map ihs_habit_id (interval_habit_state db)).
    { rewrite Es2. pose proof (completeHabit_frame db (h_id h) (Day z)) as (_ & _ & Ei).
      exact Ei. }
    assert (Hspk2 : interval_state_pk db2) by (unfold interval_state_pk; rewrite Hids; exact Hspk).
    apply getHabitsForDate_In in Hin as (h' & c & -> & Hj & Hw).
    cbn [habit id mapRowToHabit] in Eid.
    rewrite left_join_advanced in Hj.
    pose proof (left_join_habit db2 _ h' c Hj) as Hh'.
    rewrite Eh2, Eh1 in Hh'.
    assert (h' = h) by (apply (same_key_same_row h_id (habits db)); assumption).
    subst h'.
    rewrite due_where_interval in Hw by assumption.
    pose proof (left_join_completed db2 _ h c Hj) as Ec.
    fold (completed_on db2 (h_id h) (formatDateString (Day z))) in Ec.
    rewrite Hoff in Ec. rewrite Ec in Hw. cbn [orb] in Hw.
    apply existsb_exists in Hw as (ihs' & Hin' & Hdue).
    apply andb_true_iff in Hdue as [Ei Hdue]. apply String.eqb_eq in Ei.
    rewrite autoAdvance_rows in Hin' by assumption. cbn [interval_habit_state] in Hin'.
    apply in_map_iff in Hin' as (ihs2 & <- & Hin2).
    rewrite advance_row_id in Ei.
    rewrite Es2, E1 in Hin2. cbn [update_completed interval_habit_state] in Hin2.
    apply in_map_iff in Hin2 as (ihs & Eu & _).
    assert (Enext : (formatDateString (Day (z + n)) <? formatDateString (Day z)) = false).
    { rewrite formatDateString_ltb by assumption. apply Z.ltb_ge. lia. }
    assert (Eeq : (formatDateString (Day (z + n)) =? formatDateString (Day z)) = false).
    { rewrite formatDateString_eqb by assumption. apply Z.eqb_neq. lia. }
    destruct (ihs_habit_id ihs =? h_id h) eqn:Ek2.
    + subst ihs2.
      assert (Ea : advance_row db2 (Day z)
                     {| ihs_habit_id := ihs_habit_id ihs;
                        ihs_last_completed := Some (formatDateString (Day z));
                        ihs_last_due :=
                          Some match find (fun ihs0 => ihs_habit_id ihs0 =? h_id h)
                                          (interval_habit_state db) with
                               | Some ihs0 => ihs_next_due ihs0
                               | None => formatDateString (Day z)
                               end;
                        ihs_next_due := formatDateString (Day (z + n));
                        ihs_reschedule_if_missed := ihs_reschedule_if_missed ihs |}
                   = {| ihs_habit_id := ihs_habit_id ihs;
                        ihs_last_completed := Some (formatDateString (Day z));
                        ihs_last_due :=
                          Some match find (fun ihs0 => ihs_habit_id ihs0 =? h_id h)
                                          (interval_habit_state db) with
                               | Some ihs0 => ihs_next_due ihs0
                               | None => formatDateString (Day z)
                               end;
                        ihs_next_due := formatDateString (Day (z + n));
                        ihs_reschedule_if_missed := ihs_reschedule_if_missed ihs |}).
      { unfold advance_row, overdue_of.
        cbn [ihs_habit_id ihs_next_due ihs_reschedule_if_missed].
        rewrite Enext, andb_false_r.
        destruct (find _ (habits db2)); reflexivity. }
      rewrite Ea in Hdue.
      rewrite interval_state_due_undone in Hdue; [discriminate Hdue|reflexivity|exact Eeq|exact Enext].
    + subst ihs2. apply String.eqb_neq in Ek2. contradiction.
Qed.

Lemma in_range_2024_01_13 : in_range (day_2024_01_10 + 3).
Proof. split; intros C; discriminate C. Qed.

Lemma undo_hides_interval_habit_witness :
  let db1 := fst (completeHabit store_week "i" (Day day_2024_01_10)) in
  let db2 := uncompleteHabit db1 "i" (Day day_2024_01_10) in
  In {| habit := mapRowToHabit habit_every_3; completed := true |}
     (snd (getHabitsForDate db1 (Day day_2024_01_10)))
  /\ forall hc, In hc (snd (getHabitsForDate db2 (Day day_2024_01_10))) ->
                id (habit hc) <> "i".
Proof.
  apply (undo_hides_interval_habit store_week habit_every_3 3 day_2024_01_10
           habits_pk_week interval_state_pk_week).
  - right. right. right. left. reflexivity.
  - reflexivity.
  - reflexivity.
  - lia.
  - exact in_range_day_2024_01_10.
  - exact in_range_2024_01_13.
Defined.

(** X13: when the list the hook holds is part of what the store gives for
    the date, toggling a habit that the list shows as not completed
    resolves, and the refreshed list shows the habit, and every entry of that
    habit, as completed. *)
Theorem toggle_marks_completed (db : Store) (habits : list HabitWithCompletion)
    (date : Date) (hc : HabitWithCompletion) :
  (forall x, In x habits -> In x (snd (getHabitsForDate db date))) ->
  In hc habits -> completed hc = false ->
  exists db1 data,
    toggleHabit db habits date (id (habit hc)) = (db1, Resolved data)
    /\ In {| habit := habit hc; completed := true |} data
    /\ forall x, In x data -> id (habit x) = id (habit hc) -> completed x = true.
Proof.
  intros Hsub Hin Hoff.
  pose proof (getHabitsForDate_flag db date hc (Hsub hc Hin)) as [Eflag _].
  rewrite Hoff in Eflag.
  unfold toggleHabit.
  destruct (find _ habits) as [hc0|] eqn:F.
  2:{ exfalso. pose proof (find_none _ _ F hc Hin) as C. cbv beta in C.
      now rewrite String.eqb_refl in C. }
  apply find_some in F as [Hin0 E0]. apply String.eqb_eq in E0.
  pose proof (getHabitsForDate_flag db date hc0 (Hsub hc0 Hin0)) as [Eflag0 _].
  rewrite E0, <- Eflag in Eflag0. rewrite Eflag0.
  apply Hsub, getHabitsForDate_In in Hin as (h & c & -> & Hj & Hw).
  cbn [habit id mapRowToHabit] in *.
  rewrite left_join_advanced in Hj.
  pose proof (left_join_habit db _ h c Hj) as Hh.
  destruct (completeHabit_resolves db h date Hh) as [db1 Hc].
  rewrite Hc. unfold refresh.
  destruct (getHabitsForDate db1 date) as [db1' data] eqn:G.
  exists db1', data. split; [reflexivity|].
  assert (Ed : data = snd (getHabitsForDate db1 date)) by (now rewrite G).
  split.
  - rewrite Ed. apply (listed_after_complete db db1 h date Hh Hc). right. eauto.
  - intros x Hx Ex. rewrite Ed in Hx.
    destruct (getHabitsForDate_flag db1 date x Hx) as [-> _].
    rewrite Ex. exact (proj1 (completeHabit_completed db db1 (h_id h) date Hc)).
Qed.

Lemma toggle_marks_completed_witness :
  exists db1 data,
    toggleHabit store_week list_week (Day day_2024_01_10) "w" = (db1, Resolved data)
    /\ In {| habit := mapRowToHabit habit_weekdays; completed := true |} data
    /\ forall x, In x data -> id (habit x) = "w" -> completed x = true.
Proof.
  apply (toggle_marks_completed store_week list_week (Day day_2024_01_10)
           {| habit := mapRowToHabit habit_weekdays; completed := false |}).
  - intros x Hx. rewrite list_week_today. exact Hx.
  - right. left. reflexivity.
  - reflexivity.
Defined.

End Accounting.

(** ** Creating and deleting habits under the constraints of the schema *)

Module Lifecycle.
Import Calendar Js Schema Repo Queries Scenarios MoreScenarios Checks Wf Constraints.
Import CalendarFacts DateStrings DateArith StoreFacts Advancer Resolver ResolverClaims.
Import Ledger Create ListFacts DateRoundTrip Views Accounting.

Local Open Scope string_scope.

Lemma NoDup_snoc {A : Type} (l : list A) (x : A) :
  NoDup l -> ~ In x l -> NoDup (l ++ [x]).
Proof.
  induction l as [|a l IH]; cbn [app]; intros Hnd Hx.
  - constructor; [intros []|constructor].
  - inversion Hnd as [|? ? Ha Hl]; subst. constructor.
    + intros C. apply in_app_iff in C as [C|[C|[]]]; [contradiction|].
      subst. apply Hx. now left.
    + apply IH; [assumption|]. intros C. apply Hx. now right.
Qed.

Lemma known_existsb (db : Store) (habitId : string) :
  existsb (fun h => h_id h =? habitId) (habits db) = true <-> known db habitId.
Proof.
  rewrite existsb_exists. unfold known.
  split; intros (h & Hh & E); exists h; split; trivial; now apply String.eqb_eq.
Qed.

Lemma unknown_existsb (db : Store) (habitId : string) :
  ~ known db habitId -> existsb (fun h => h_id h =? habitId) (habits db) = false.
Proof.
  intros H. apply not_true_is_false. intros E. apply H, known_existsb, E.
Qed.

Lemma known_mono (db db1 : Store) (habitId : string) :
  (forall h, In h (habits db) -> In h (habits db1)) ->
  known db habitId -> known db1 habitId.
Proof. intros Hsub (h & Hh & E). exists h. auto. Qed.

(** Under the foreign keys an id without a habit is on no row. *)
Lemma schema_ok_unused (db : Store) (habitId : string) :
  schema_ok db -> ~ known db habitId -> unused db habitId.
Proof.
  intros Hok Hn. split; [exact Hn|]. repeat split.
  - intros hd Hin E. apply Hn. rewrite <- E. exact (ok_days_fk db Hok hd Hin).
  - intros c Hin E. apply Hn. rewrite <- E. exact (ok_completions_fk db Hok c Hin).
  - intros ihs Hin E. apply Hn. rewrite <- E. exact (ok_state_fk db Hok ihs Hin).
Qed.

Lemma schema_ok_empty : schema_ok empty_store.
Proof.
  constructor; try (intros ? []);
    unfold habits_pk, interval_state_pk, completions_unique; cbn; constructor.
Qed.

(** A write that keeps [habits], [habit_days] and the keys of the state rows
    keeps the constraints when [habit_completions] is sound after it. *)
Lemma schema_ok_update (db db1 : Store) :
  schema_ok db ->
  habits db1 = habits db -> habit_days db1 = habit_days db ->
  map ihs_habit_id (interval_habit_state db1)
  = map ihs_habit_id (interval_habit_state db) ->
  NoDup (habit_completions db1) ->
  (forall c, In c (habit_completions db1) -> known db (c_habit_id c)) ->
  schema_ok db1.
Proof.
  intros Hok Eh Ed Es Hnd Hfk.
  assert (Hk : forall k, known db k -> known db1 k).
  { intros k. apply known_mono. intros h. now rewrite Eh. }
  constructor.
  - unfold habits_pk. rewrite Eh. exact (ok_habits_pk db Hok).
  - unfold interval_state_pk. rewrite Es. exact (ok_state_pk db Hok).
  - exact Hnd.
  - rewrite Ed. exact (ok_days_unique db Hok).
  - rewrite Ed. exact (ok_days_check db Hok).
  - rewrite Ed. intros hd Hin. apply Hk. exact (ok_days_fk db Hok hd Hin).
  - intros c Hin. apply Hk, Hfk, Hin.
  - intros ihs Hin. apply Hk.
    apply (in_map ihs_habit_id) in Hin. rewrite Es in Hin.
    apply in_map_iff in Hin as (ihs0 & <- & Hin0).
    exact (ok_state_fk db Hok ihs0 Hin0).
Qed.

Lemma schema_ok_advance (db : Store) (date : Date) :
  schema_ok db -> schema_ok (autoAdvanceOverdueIntervalHabits db date).
Proof.
  intros Hok.
  destruct (autoAdvance_habits db date) as (Eh & Ed & Ec).
  destruct (autoAdvance_state_ids db date) as (Es & _).
  apply (schema_ok_update db); trivial; rewrite Ec.
  - exact (ok_completions_unique db Hok).
  - exact (ok_completions_fk db Hok).
Qed.

Lemma schema_ok_complete (db : Store) (habitId : string) (date : Date) :
  schema_ok db -> schema_ok (fst (completeHabit db habitId date)).
Proof.
  intros Hok.
  destruct (completeHabit_frame db habitId date) as (Eh & Ed & Es).
  apply (schema_ok_update db); trivial; rewrite completeHabit_completions.
  - destruct (completed_on db habitId (formatDateString date)) eqn:C;
      [exact (ok_completions_unique db Hok)|].
    destruct (existsb _ (habits db)); [|exact (ok_completions_unique db Hok)].
    apply NoDup_snoc; [exact (ok_completions_unique db Hok)|].
    intros Hin. apply not_true_iff_false in C. apply C.
    unfold completed_on. apply existsb_exists. eexists. split; [exact Hin|].
    cbn [c_habit_id c_completed_date]. now rewrite !String.eqb_refl.
  - destruct (completed_on db habitId (formatDateString date));
      [exact (ok_completions_fk db Hok)|].
    destruct (existsb _ (habits db)) eqn:Ex; [|exact (ok_completions_fk db Hok)].
    intros c Hin. apply in_app_iff in Hin as [Hin|[<-|[]]].
    + exact (ok_completions_fk db Hok c Hin).
    + apply known_existsb. exact Ex.
Qed.

Lemma schema_ok_uncomplete (db : Store) (habitId : string) (date : Date) :
  schema_ok db -> schema_ok (uncompleteHabit db habitId date).
Proof.
  intros Hok. apply (schema_ok_update db); trivial; unfold uncompleteHabit;
    cbn [habit_completions].
  - apply NoDup_filter. exact (ok_completions_unique db Hok).
  - intros c Hin. apply filter_In in Hin as [Hin _].
    exact (ok_completions_fk db Hok c Hin).
Qed.

(** The store after a [deleteHabit] that finds the habit. *)
Lemma deleteHabit_known (db : Store) (habitId : string) :
  known db habitId ->
  deleteHabit db habitId
  = {| habits := filter (fun h => negb (h_id h =? habitId)) (habits db);
       habit_days := filter (fun hd => negb (hd_habit_id hd =? habitId)) (habit_days db);
       habit_completions :=
         filter (fun c => negb (c_habit_id c =? habitId)) (habit_completions db);
       interval_habit_state :=
         filter (fun ihs => negb (ihs_habit_id ihs =? habitId))
                (interval_habit_state db) |}.
Proof. intros H. unfold deleteHabit. apply known_existsb in H. now rewrite H. Qed.

Lemma deleteHabit_unknown (db : Store) (habitId : string) :
  ~ known db habitId -> deleteHabit db habitId = db.
Proof. intros H. unfold deleteHabit. now rewrite unknown_existsb. Qed.

Lemma schema_ok_delete (db : Store) (habitId : string) :
  schema_ok db -> schema_ok (deleteHabit db habitId).
Proof.
  intros Hok. unfold deleteHabit.
  destruct (existsb _ (habits db)); [|exact Hok].
  assert (Hk : forall k, k <> habitId -> known db k ->
    exists h, In h (filter (fun h => negb (h_id h =? habitId)) (habits db)) /\ h_id h = k).
  { intros k Hne (h & Hh & E). exists h. split; [|exact E].
    apply filter_In. split; [exact Hh|]. apply negb_true_iff, String.eqb_neq. congruence. }
  constructor; unfold habits_pk, interval_state_pk, completions_unique, known;
    cbn [habits habit_days habit_completions interval_habit_state].
  - apply NoDup_map_filter. exact (ok_habits_pk db Hok).
  - apply NoDup_map_filter. exact (ok_state_pk db Hok).
  - apply NoDup_filter. exact (ok_completions_unique db Hok).
  - apply NoDup_filter. exact (ok_days_unique db Hok).
  - intros hd Hin. apply filter_In in Hin as [Hin _]. exact (ok_days_check db Hok hd Hin).
  - intros hd Hin. apply filter_In in Hin as [Hin Hne].
    apply negb_true_iff, String.eqb_neq in Hne.
    apply Hk; [exact Hne|exact (ok_days_fk db Hok hd Hin)].
  - intros c Hin. apply filter_In in Hin as [Hin Hne].
    apply negb_true_iff, String.eqb_neq in Hne.
    apply Hk; [exact Hne|exact (ok_completions_fk db Hok c Hin)].
  - intros ihs Hin. apply filter_In in Hin as [Hin Hne].
    apply negb_true_iff, String.eqb_neq in Hne.
    apply Hk; [exact Hne|exact (ok_state_fk db Hok ihs Hin)].
Qed.

Lemma day_row_existsb (T : list HabitDayRow) (habitId : string) (day : Z) :
  existsb (fun hd => (hd_habit_id hd =? habitId) && (hd_day_of_week hd =? day)%Z) T = true
  <-> In (mkHabitDayRow habitId day) T.
Proof.
  rewrite existsb_exists. split.
  - intros ([hid d] & Hin & E). cbn [hd_habit_id hd_day_of_week] in E.
    apply andb_true_iff in E as [E1 E2].
    apply String.eqb_eq in E1. apply Z.eqb_eq in E2. now subst.
  - intros Hin. eexists. split; [exact Hin|].
    cbn [hd_habit_id hd_day_of_week]. now rewrite String.eqb_refl, Z.eqb_refl.
Qed.

Lemma schema_ok_insert_day (db db1 : Store) (habitId : string) (day : Z) :
  schema_ok db -> insert_habit_day db habitId day = Resolved db1 -> schema_ok db1.
Proof.
  intros Hok I. unfold insert_habit_day in I.
  destruct (negb _) eqn:C1; [discriminate I|].
  destruct (existsb _ (habit_days db)) eqn:C2; [discriminate I|].
  destruct (negb (existsb _ (habits db))) eqn:C3; [discriminate I|].
  injection I as <-.
  apply negb_false_iff, andb_true_iff in C1 as [L U].
  apply Z.leb_le in L, U. apply negb_false_iff, known_existsb in C3.
  constructor; unfold habits_pk, interval_state_pk, completions_unique, known;
    cbn [habits habit_days habit_completions interval_habit_state];
    try (apply Hok).
  - apply NoDup_snoc; [exact (ok_days_unique db Hok)|].
    intros Hin. apply day_row_existsb in Hin. congruence.
  - intros hd Hin. apply in_app_iff in Hin as [Hin|[<-|[]]];
      [exact (ok_days_check db Hok hd Hin)|cbn; lia].
  - intros hd Hin. apply in_app_iff in Hin as [Hin|[<-|[]]];
      [exact (ok_days_fk db Hok hd Hin)|exact C3].
Qed.

Lemma schema_ok_insert_days (habitId : string) (days : list Z) :
  forall db, schema_ok db -> schema_ok (fst (insert_habit_days db habitId days)).
Proof.
  induction days as [|day days IH]; intros db Hok; cbn [insert_habit_days fst]; trivial.
  destruct (insert_habit_day db habitId day) as [db0|e] eqn:I; cbn [fst]; trivial.
  apply IH. exact (schema_ok_insert_day db db0 habitId day Hok I).
Qed.

Lemma schema_ok_insert_habit (db db1 : Store) (row : HabitRow) :
  schema_ok db -> insert_habit db row = Resolved db1 -> schema_ok db1.
Proof.
  intros Hok I. unfold insert_habit in I.
  destruct (existsb _ (habits db)) eqn:C; [discriminate I|]. injection I as <-.
  assert (Hk : forall k, known db k ->
    exists h, In h (habits db ++ [row]) /\ h_id h = k).
  { intros k (h & Hh & E). exists h. split; [|exact E]. apply in_app_iff. now left. }
  constructor; unfold habits_pk, interval_state_pk, completions_unique, known;
    cbn [habits habit_days habit_completions interval_habit_state];
    try (apply Hok).
  - rewrite map_app. cbn [map]. apply NoDup_snoc; [exact (ok_habits_pk db Hok)|].
    intros Hin. apply in_map_iff in Hin as (h & E & Hh).
    apply not_true_iff_false in C. apply C. apply existsb_exists. exists h.
    split; [exact Hh|]. now apply String.eqb_eq.
  - intros hd Hin. apply Hk. exact (ok_days_fk db Hok hd Hin).
  - intros c Hin. apply Hk. exact (ok_completions_fk db Hok c Hin).
  - intros ihs Hin. apply Hk. exact (ok_state_fk db Hok ihs Hin).
Qed.

Lemma schema_ok_insert_state (db db1 : Store) (habitId nextDue : string) (r : Z) :
  schema_ok db -> insert_interval_state db habitId nextDue r = Resolved db1 ->
  schema_ok db1.
Proof.
  intros Hok I. unfold insert_interval_state in I.
  destruct (existsb _ (interval_habit_state db)) eqn:C1; [discriminate I|].
  destruct (negb (existsb _ (habits db))) eqn:C2; [discriminate I|].
  injection I as <-. apply negb_false_iff, known_existsb in C2.
  constructor; unfold habits_pk, interval_state_pk, completions_unique, known;
    cbn [habits habit_days habit_completions interval_habit_state];
    try (apply Hok).
  - rewrite map_app. cbn [map]. apply NoDup_snoc; [exact (ok_state_pk db Hok)|].
    intros Hin. apply in_map_iff in Hin as (ihs & E & Hs).
    apply not_true_iff_false in C1. apply C1. apply existsb_exists. exists ihs.
    split; [exact Hs|]. now apply String.eqb_eq.
  - intros ihs Hin. apply in_app_iff in Hin as [Hin|[<-|[]]];
      [exact (ok_state_fk db Hok ihs Hin)|exact C2].
Qed.

Lemma schema_ok_create (db : Store) (newId now : string) (today : Date)
    (newHabit : NewHabit) :
  schema_ok db -> schema_ok (fst (createHabit db newId now today newHabit)).
Proof.
  intros Hok. unfold createHabit.
  destruct (insert_habit db _) as [db0|e] eqn:I; [|exact Hok].
  pose proof (schema_ok_insert_habit _ _ _ Hok I) as Hok0.
  destruct newHabit as [nm o|nm o days|nm o n startDate resched].
  - exact Hok0.
  - destruct (negb (truthy_string o) && (0 <? List.length days)%nat); [|exact Hok0].
    pose proof (schema_ok_insert_days newId days db0 Hok0) as Hok1.
    destruct (insert_habit_days db0 newId days) as [db1 [u|e]]; exact Hok1.
  - destruct (insert_interval_state db0 newId _ _) as [db1|e] eqn:S; cbn [fst];
      [|exact Hok0].
    exact (schema_ok_insert_state _ _ _ _ _ Hok0 S).
Qed.

(** X14: the primary keys, the UNIQUE and CHECK constraints and the foreign
    keys of the schema hold in the empty store, and every function of the
    repository that writes keeps them, also where it is rejected half-way. *)
Theorem schema_constraints_kept :
  schema_ok empty_store
  /\ forall db, schema_ok db ->
     (forall newId now today newHabit,
        schema_ok (fst (createHabit db newId now today newHabit)))
     /\ (forall habitId date, schema_ok (fst (completeHabit db habitId date)))
     /\ (forall habitId date, schema_ok (uncompleteHabit db habitId date))
     /\ (forall habitId, schema_ok (deleteHabit db habitId))
     /\ schema_ok (clearAllData db)
     /\ (forall date, schema_ok (fst (getHabitsForDate db date)))
     /\ (forall referenceDate now,
           schema_ok (fst (getIntervalHabits db referenceDate now))).
Proof.
  split; [exact schema_ok_empty|].
  intros db Hok. repeat match goal with |- _ /\ _ => split end.
  - intros. apply schema_ok_create, Hok.
  - intros. apply schema_ok_complete, Hok.
  - intros. apply schema_ok_uncomplete, Hok.
  - intros. apply schema_ok_delete, Hok.
  - exact schema_ok_empty.
  - intros. apply schema_ok_advance, Hok.
  - intros. apply schema_ok_advance, Hok.
Qed.

Lemma schema_constraints_kept_witness :
  schema_ok (fst (createHabit empty_store "n" "2024-01-09T08:00:00.000Z"
                    (Day day_2024_01_10) (NewCustomHabit "run" None [1; 7; 3]%Z)))
  /\ schema_ok (deleteHabit empty_store "n").
Proof.
  destruct schema_constraints_kept as [H0 H].
  destruct (H empty_store H0) as (Hc & _ & _ & Hd & _).
  split; [apply Hc|apply Hd].
Defined.

End Lifecycle.

(** ** What [createHabit] writes and [deleteHabit] removes *)

Module CreateDelete.
Import Calendar Js Schema Repo Queries Scenarios MoreScenarios Checks Wf Constraints.
Import CalendarFacts DateStrings DateArith StoreFacts Advancer Resolver ResolverClaims.
Import Ledger Create ListFacts DateRoundTrip Views Accounting Lifecycle.

Local Open Scope string_scope.

Lemma with_rows_nil (db : Store) : with_rows db [] [] [] = db.
Proof. destruct db. unfold with_rows. cbn. now rewrite !app_nil_r. Qed.

Lemma with_rows_more (db : Store) hs ds ss hs' ds' ss' :
  with_rows (with_rows db hs ds ss) hs' ds' ss'
  = with_rows db (hs ++ hs') (ds ++ ds') (ss ++ ss').
Proof. unfold with_rows. cbn. now rewrite !app_assoc. Qed.

(** The rows the loop over the days has written when it ends or fails: the
    rows of a first part of the days. *)
Lemma insert_habit_days_shape (habitId : string) (days : list Z) :
  forall db,
  exists pre,
    fst (insert_habit_days db habitId days)
    = with_rows db [] (map (mkHabitDayRow habitId) pre) []
    /\ (forall d, In d pre -> In d days)
    /\ (snd (insert_habit_days db habitId days) = Resolved tt -> pre = days).
Proof.
  induction days as [|day days IH]; intros db; cbn [insert_habit_days].
  - exists []. cbn [fst snd map]. rewrite with_rows_nil. auto.
  - destruct (insert_habit_day db habitId day) as [db0|e] eqn:I.
    + unfold insert_habit_day in I.
      do 3 (case_if_in I; [discriminate I|]). injection I as <-.
      destruct (IH {| habits := habits db;
                      habit_days := habit_days db ++ [mkHabitDayRow habitId day];
                      habit_completions := habit_completions db;
                      interval_habit_state := interval_habit_state db |})
        as (pre & E & Hsub & Hall).
      exists (day :: pre). rewrite E. split; [|split].
      * destruct db. unfold with_rows. cbn. now rewrite !app_nil_r, <- app_assoc.
      * intros d [<-|Hd]; [now left|right; auto].
      * intros Hr. f_equal. auto.
    + exists []. cbn [fst snd map]. rewrite with_rows_nil.
      repeat split; [intros d []|discriminate].
Qed.

(** The row [createHabit] writes to [habits]. *)
Lemma createHabit_shape (db : Store) (newId now : string) (today : Date)
    (newHabit : NewHabit) :
  ~ known db newId ->
  exists row D S,
    fst (createHabit db newId now today newHabit) = with_rows db [row] D S
    /\ h_id row = newId
    /\ h_schedule_type row = nh_scheduleType newHabit
    /\ h_created_at row = now
    /\ (forall hd, In hd D -> hd_habit_id hd = newId)
    /\ (forall ihs, In ihs S -> ihs_habit_id ihs = newId).
Proof.
  intros Hn. unfold createHabit, insert_habit.
  rewrite unknown_existsb by assumption.
  set (row := {| h_id := newId; h_name := nh_name newHabit;
                 h_schedule_type := nh_scheduleType newHabit;
                 h_interval_days := _; h_one_time_date := _;
                 h_created_at := now; h_updated_at := now |}).
  set (db0 := {| habits := (habits db ++ [row])%list; habit_days := habit_days db;
                 habit_completions := habit_completions db;
                 interval_habit_state := interval_habit_state db |}).
  assert (E0 : db0 = with_rows db [row] [] []).
  { unfold db0, with_rows. now rewrite !app_nil_r. }
  exists row.
  destruct newHabit as [nm o|nm o days|nm o n startDate resched].
  - exists [], []. cbn [fst]. repeat split; trivial; intros ? [].
  - destruct (negb (truthy_string o) && (0 <? List.length days)%nat).
    + destruct (insert_habit_days_shape newId days db0) as (pre & E & _).
      exists (map (mkHabitDayRow newId) pre), [].
      split.
      * destruct (insert_habit_days db0 newId days) as [db1 [u|e]]; cbn [fst] in *;
          rewrite E, E0, with_rows_more; reflexivity.
      * repeat split; trivial; [|intros ? []].
        intros hd Hin. apply in_map_iff in Hin as (d & <- & _). reflexivity.
    + exists [], []. cbn [fst]. repeat split; trivial; intros ? [].
  - unfold insert_interval_state.
    destruct (existsb _ (interval_habit_state db0)).
    { exists [], []. cbn [fst]. repeat split; trivial; intros ? []. }
    destruct (negb (existsb _ (habits db0))).
    { exists [], []. cbn [fst]. repeat split; trivial; intros ? []. }
    eexists [], [_]. cbn [fst]. split.
    + unfold with_rows, db0. cbn [habits habit_days habit_completions interval_habit_state].
      now rewrite app_nil_r.
    + repeat split; trivial; [intros ? []|]. intros ihs [<-|[]]. reflexivity.
Qed.

Lemma filter_app_added {A : Type} (p : A -> bool) (l ext : list A) :
  (forall x, In x l -> p x = true) -> (forall x, In x ext -> p x = false) ->
  filter p (l ++ ext) = l.
Proof.
  intros Hl He. rewrite filter_app.
  replace (filter p ext) with (@nil A).
  - rewrite app_nil_r. apply forallb_filter_id. apply forallb_forall. exact Hl.
  - symmetry. induction ext as [|x ext IH]; trivial. cbn [filter].
    rewrite He by now left. apply IH. intros y Hy. apply He. now right.
Qed.

(** X15: creating a habit under an id that no row of the store carries and
    deleting it again gives back the store as it was, also when [createHabit]
    was rejected after its first writes. *)
Theorem create_then_delete_restores (db : Store) (newId now : string) (today : Date)
    (newHabit : NewHabit) :
  unused db newId ->
  deleteHabit (fst (createHabit db newId now today newHabit)) newId = db.
Proof.
  intros (Hn & Hd & Hc & Hs).
  destruct (createHabit_shape db newId now today newHabit Hn)
    as (row & D & S & -> & Eid & _ & _ & HD & HS).
  rewrite deleteHabit_known.
  2:{ exists row. split; [|exact Eid]. cbn [with_rows habits]. apply in_app_iff.
      right. now left. }
  cbn [with_rows habits habit_days habit_completions interval_habit_state].
  assert (Ec : filter (fun c => negb (c_habit_id c =? newId)) (habit_completions db)
               = habit_completions db).
  { apply forallb_filter_id. apply forallb_forall. intros c Hin.
    apply negb_true_iff, String.eqb_neq. exact (Hc c Hin). }
  rewrite Ec, !filter_app_added; [symmetry; apply store_eta|..];
    intros x Hin;
    first [ apply negb_false_iff, String.eqb_eq;
            first [exact (HS x Hin) | exact (HD x Hin)
                  | destruct Hin as [<-|[]]; exact Eid]
          | apply negb_true_iff, String.eqb_neq;
            first [exact (Hs x Hin) | exact (Hd x Hin)
                  | intros E; apply Hn; now exists x] ].
Qed.

Lemma unused_week_n : unused store_week "n".
Proof.
  split; [|repeat split].
  - intros (h & Hin & E).
    repeat (destruct Hin as [<-|Hin]; [discriminate E|]). destruct Hin.
  - intros hd Hin. repeat (destruct Hin as [<-|Hin]; [discriminate|]). destruct Hin.
  - intros c Hin. repeat (destruct Hin as [<-|Hin]; [discriminate|]). destruct Hin.
  - intros ihs Hin. repeat (destruct Hin as [<-|Hin]; [discriminate|]). destruct Hin.
Qed.

Lemma create_then_delete_restores_witness :
  deleteHabit (fst (createHabit store_week "n" "2024-01-09T08:00:00.000Z"
                      (Day day_2024_01_10) (NewCustomHabit "run" None [1; 7; 3]%Z))) "n"
  = store_week.
Proof. exact (create_then_delete_restores store_week "n" _ _ _ unused_week_n). Defined.

(** The loop over the days resolves exactly on distinct days within 0..6
    that the habit does not have yet. *)
Lemma insert_habit_days_resolves (habitId : string) (days : list Z) :
  forall db, known db habitId ->
  (snd (insert_habit_days db habitId days) = Resolved tt <->
   NoDup days /\ (forall d, In d days -> 0 <= d <= 6)
   /\ forall d, In d days -> ~ In (mkHabitDayRow habitId d) (habit_days db)).
Proof.
  induction days as [|day days IH]; intros db Hk; cbn [insert_habit_days].
  - cbn [snd]. split; [intros _|reflexivity].
    split; [constructor|]. split; intros d [].
  - unfold insert_habit_day.
    destruct ((0 <=? day)%Z && (day <=? 6)%Z) eqn:C1; cbn [negb].
    2:{ cbn [snd]. split; [discriminate|]. intros (_ & Hr & _).
        specialize (Hr day (or_introl eq_refl)).
        apply andb_false_iff in C1. destruct C1 as [C|C]; apply Z.leb_gt in C; lia. }
    destruct (existsb _ (habit_days db)) eqn:C2.
    { cbn [snd]. split; [discriminate|]. intros (_ & _ & Hf). exfalso.
      apply (Hf day (or_introl eq_refl)). apply day_row_existsb. exact C2. }
    pose proof (proj2 (known_existsb db habitId) Hk) as Hk'. rewrite Hk'. cbn [negb].
    rewrite IH by exact Hk. cbn [habit_days].
    apply andb_true_iff in C1 as [L U]. apply Z.leb_le in L, U.
    split.
    + intros (Hnd & Hr & Hf). split; [|split].
      * constructor; [|exact Hnd]. intros Hin. apply (Hf day Hin).
        apply in_app_iff. right. now left.
      * intros d [<-|Hd]; [lia|auto].
      * intros d [<-|Hd] Hin.
        -- apply day_row_existsb in Hin. congruence.
        -- apply (Hf d Hd). apply in_app_iff. now left.
    + intros (Hnd & Hr & Hf). inversion Hnd as [|? ? Hday Hnd']; subst.
      split; [exact Hnd'|split].
      * intros d Hd. apply Hr. now right.
      * intros d Hd Hin. apply in_app_iff in Hin as [Hin|[E|[]]].
        -- exact (Hf d (or_intror Hd) Hin).
        -- injection E as <-. contradiction.
Qed.

(** The habit a resolved [createHabit] returns. *)
Lemma createHabit_resolved (db : Store) (newId now : string) (today : Date)
    (newHabit : NewHabit) (created : Habit) :
  snd (createHabit db newId now today newHabit) = Resolved created ->
  id created = newId /\ name created = nh_name newHabit
  /\ scheduleType created = nh_scheduleType newHabit
  /\ createdAt created = now /\ updatedAt created = now.
Proof.
  unfold createHabit.
  destruct (insert_habit db _) as [db0|e]; [|discriminate].
  destruct newHabit as [nm o|nm o days|nm o n startDate resched].
  - intros [= <-]. auto.
  - destruct (negb (truthy_string o) && (0 <? List.length days)%nat).
    + destruct (insert_habit_days db0 newId days) as [db1 [u|e]];
        [intros [= <-]; auto|discriminate].
    + intros [= <-]. auto.
  - destruct (insert_interval_state db0 newId _ _) as [db1|e];
      [intros [= <-]; auto|discriminate].
Qed.

(** X16: under an id that no row of the store carries, [createHabit]
    resolves exactly when the weekdays it has to store are distinct and
    within 0..6 (always then for a daily, an interval or a one-time habit),
    and it returns a habit of the new id; resolved or rejected, the new habit
    is in the store afterwards, since the writes are not undone. *)
Theorem createHabit_outcome (db : Store) (newId now : string) (today : Date)
    (newHabit : NewHabit) :
  unused db newId ->
  let result := createHabit db newId now today newHabit in
  (days_ok newHabit <-> exists created, snd result = Resolved created)
  /\ (forall created, snd result = Resolved created ->
        id created = newId /\ scheduleType created = nh_scheduleType newHabit)
  /\ known (fst result) newId.
Proof.
  intros Hu result. pose proof Hu as (Hn & Hd & Hc & Hs).
  split; [|split].
  - unfold result, createHabit, insert_habit.
    rewrite unknown_existsb by assumption.
    set (row := {| h_id := newId; h_name := nh_name newHabit;
                   h_schedule_type := nh_scheduleType newHabit;
                   h_interval_days := _; h_one_time_date := _;
                   h_created_at := now; h_updated_at := now |}).
    set (db0 := {| habits := (habits db ++ [row])%list; habit_days := habit_days db;
                   habit_completions := habit_completions db;
                   interval_habit_state := interval_habit_state db |}).
    assert (Hk0 : known db0 newId).
    { exists row. split; [|reflexivity]. cbn [db0 habits]. apply in_app_iff.
      right. now left. }
    destruct newHabit as [nm o|nm o days|nm o n startDate resched]; cbn [days_ok].
    + split; [intros _; eexists; reflexivity|trivial].
    + destruct (truthy_string o) eqn:T; cbn [negb andb].
      * split; [intros _; eexists; reflexivity|now left].
      * destruct days as [|d days]; cbn [List.length Nat.ltb Nat.leb].
        -- split; [intros _; eexists; reflexivity|].
           intros _. right. split; [constructor|intros d []].
        -- pose proof (insert_habit_days_resolves newId (d :: days) db0 Hk0) as R.
           destruct (insert_habit_days db0 newId (d :: days)) as [db1 [[]|e]];
             cbn [snd] in *.
           ++ split; [intros _; eexists; reflexivity|].
              intros _. right. destruct (proj1 R eq_refl) as (Hnd & Hr & _). auto.
           ++ split; [|intros (created & C); discriminate C].
              intros [C|(Hnd & Hr)]; [discriminate C|]. exfalso.
              assert (C : @Rejected unit e = Resolved tt); [|discriminate C].
              apply R. split; [exact Hnd|]. split; [exact Hr|].
              intros d' _ Hin. exact (Hd _ Hin eq_refl).
    + split; [intros _|trivial].
      unfold insert_interval_state.
      assert (E1 : existsb (fun ihs => ihs_habit_id ihs =? newId)
                           (interval_habit_state db0) = false).
      { apply not_true_is_false. intros E.
        apply existsb_exists in E as (ihs & Hin & E). apply String.eqb_eq in E.
        exact (Hs ihs Hin E). }
      rewrite E1, (proj2 (known_existsb db0 newId) Hk0). cbn [negb snd].
      eexists. reflexivity.
  - intros created Hr.
    destruct (createHabit_resolved db newId now today newHabit created Hr)
      as (E1 & _ & E2 & _).
    auto.
  - destruct (createHabit_shape db newId now today newHabit Hn)
      as (row & D & S & E & Eid & _).
    unfold result. rewrite E. exists row. split; [|exact Eid].
    cbn [with_rows habits]. apply in_app_iff. right. now left.
Qed.

Lemma createHabit_outcome_witness :
  let result :=
    createHabit store_week "n" "2024-01-09T08:00:00.000Z" (Day day_2024_01_10)
                (NewCustomHabit "run" None [1; 7; 3]%Z) in
  (days_ok (NewCustomHabit "run" None [1; 7; 3]%Z)
   <-> exists created, snd result = Resolved created)
  /\ (forall created, snd result = Resolved created ->
        id created = "n" /\ scheduleType created = custom)
  /\ known (fst result) "n".
Proof. exact (createHabit_outcome store_week "n" _ _ _ unused_week_n). Defined.

Lemma filter_filter_implied {A : Type} (f g : A -> bool) (l : list A) :
  (forall x, f x = true -> g x = true) -> filter f (filter g l) = filter f l.
Proof.
  intros H. induction l as [|x l IH]; trivial. cbn [filter].
  destruct (g x) eqn:G; cbn [filter]; rewrite IH; trivial.
  destruct (f x) eqn:F; trivial. rewrite (H x F) in G. discriminate G.
Qed.

Lemma existsb_filter_implied {A : Type} (f g : A -> bool) (l : list A) :
  (forall x, f x = true -> g x = true) -> existsb f (filter g l) = existsb f l.
Proof.
  intros H. induction l as [|x l IH]; trivial. cbn [filter existsb].
  destruct (g x) eqn:G; cbn [existsb]; rewrite IH; trivial.
  destruct (f x) eqn:F; trivial. rewrite (H x F) in G. discriminate G.
Qed.

Lemma find_filter_implied {A : Type} (f g : A -> bool) (l : list A) :
  (forall x, f x = true -> g x = true) -> find f (filter g l) = find f l.
Proof.
  intros H. induction l as [|x l IH]; trivial. cbn [filter find].
  destruct (g x) eqn:G; cbn [find]; rewrite IH; trivial.
  destruct (f x) eqn:F; trivial. rewrite (H x F) in G. discriminate G.
Qed.

Lemma existsb_map_filter {A : Type} (g q : A -> bool) (f f' : A -> A) (l : list A) :
  (forall x, q x = true -> f' x = f x) -> (forall x, q x = false -> g (f x) = false) ->
  existsb g (map f' (filter q l)) = existsb g (map f l).
Proof.
  intros H1 H2. induction l as [|x l IH]; trivial. cbn [filter map existsb].
  destruct (q x) eqn:Q; cbn [map existsb]; rewrite IH.
  - now rewrite (H1 x Q).
  - now rewrite (H2 x Q).
Qed.

(** The rows of the LEFT JOIN after a [deleteHabit] that finds the habit:
    those of the other habits. *)
Lemma left_join_deleted (db : Store) (habitId ds : string) h c :
  In (h, c) (left_join_completions
               {| habits := filter (fun h => negb (h_id h =? habitId)) (habits db);
                  habit_days :=
                    filter (fun hd => negb (hd_habit_id hd =? habitId)) (habit_days db);
                  habit_completions :=
                    filter (fun c => negb (c_habit_id c =? habitId)) (habit_completions db);
                  interval_habit_state :=
                    filter (fun ihs => negb (ihs_habit_id ihs =? habitId))
                           (interval_habit_state db) |} ds)
  <-> In (h, c) (left_join_completions db ds) /\ h_id h <> habitId.
Proof.
  unfold left_join_completions. cbn [habits habit_completions].
  rewrite !in_flat_map.
  assert (Hrow : forall (h0 : HabitRow) T,
    In (h, c) match filter (fun c0 => (h_id h0 =? c_habit_id c0)
                                      && (c_completed_date c0 =? ds)) T with
              | [] => [(h0, None)]
              | cs => map (fun c0 => (h0, Some c0)) cs
              end -> h0 = h).
  { intros h0 T Hin. destruct (filter _ T) as [|c0 cs].
    - destruct Hin as [[= -> _]|[]]. reflexivity.
    - apply in_map_iff in Hin as (c1 & [= -> _] & _). reflexivity. }
  assert (Hsame : forall h0, h_id h0 <> habitId ->
    filter (fun c0 => (h_id h0 =? c_habit_id c0) && (c_completed_date c0 =? ds))
           (filter (fun c0 => negb (c_habit_id c0 =? habitId)) (habit_completions db))
    = filter (fun c0 => (h_id h0 =? c_habit_id c0) && (c_completed_date c0 =? ds))
             (habit_completions db)).
  { intros h0 Hne. apply filter_filter_implied. intros c0 E.
    apply andb_true_iff in E as [E _]. apply String.eqb_eq in E.
    apply negb_true_iff, String.eqb_neq. congruence. }
  split.
  - intros (h0 & Hh0 & Hin). apply filter_In in Hh0 as [Hh0 Hne].
    apply negb_true_iff, String.eqb_neq in Hne.
    pose proof (Hrow h0 _ Hin) as ->.
    split; [|exact Hne]. exists h. split; [exact Hh0|].
    rewrite Hsame in Hin by exact Hne. exact Hin.
  - intros ((h0 & Hh0 & Hin) & Hne).
    pose proof (Hrow h0 _ Hin) as ->.
    exists h. split.
    + apply filter_In. split; [exact Hh0|]. now apply negb_true_iff, String.eqb_neq.
    + rewrite Hsame by exact Hne. exact Hin.
Qed.

(** The WHERE clause of the Today list on a habit other than the deleted
    one. *)
Lemma due_where_deleted (db : Store) (habitId ds : string) (date : Date) dow h c :
  habits_pk db -> interval_state_pk db -> known db habitId -> h_id h <> habitId ->
  due_where (autoAdvanceOverdueIntervalHabits (deleteHabit db habitId) date) ds dow h c
  = due_where (autoAdvanceOverdueIntervalHabits db date) ds dow h c.
Proof.
  intros Hpk Hspk Hk Hne.
  rewrite deleteHabit_known by exact Hk.
  set (db1 := {| habits := _; habit_days := _; habit_completions := _;
                 interval_habit_state := _ |}).
  assert (Hpk1 : habits_pk db1) by (apply NoDup_map_filter; exact Hpk).
  assert (Hspk1 : interval_state_pk db1) by (apply NoDup_map_filter; exact Hspk).
  assert (Ed : exists_habit_day (autoAdvanceOverdueIntervalHabits db1 date) h dow
               = exists_habit_day (autoAdvanceOverdueIntervalHabits db date) h dow).
  { unfold exists_habit_day.
    destruct (autoAdvance_habits db1 date) as (_ & -> & _).
    destruct (autoAdvance_habits db date) as (_ & -> & _).
    f_equal. cbn [db1 habit_days]. apply existsb_filter_implied.
    intros hd E. apply negb_true_iff, String.eqb_neq.
    destruct (hd_habit_id hd =? h_id h) eqn:E1; [|discriminate E].
    apply String.eqb_eq in E1. congruence. }
  assert (Es : exists_interval_state (autoAdvanceOverdueIntervalHabits db1 date) h ds
               = exists_interval_state (autoAdvanceOverdueIntervalHabits db date) h ds).
  { unfold exists_interval_state. f_equal.
    rewrite !autoAdvance_rows by assumption.
    cbn [db1 interval_habit_state]. fold db1.
    apply existsb_map_filter.
    - intros ihs Q. apply negb_true_iff, String.eqb_neq in Q.
      unfold advance_row, overdue_of. cbn [db1 habits].
      rewrite find_filter_implied; [reflexivity|].
      intros h0 E. apply String.eqb_eq in E.
      apply negb_true_iff, String.eqb_neq. congruence.
    - intros ihs Q. apply negb_false_iff, String.eqb_eq in Q.
      rewrite advance_row_id.
      destruct (ihs_habit_id ihs =? h_id h) eqn:E1; [|reflexivity].
      apply String.eqb_eq in E1. congruence. }
  unfold due_where. rewrite Ed, Es. reflexivity.
Qed.

(** X17: deleting a habit changes nothing for the others: on every date the
    Today list after the deletion has exactly the entries it had before,
    without those of the deleted habit. *)
Theorem delete_leaves_others (db : Store) (habitId : string) (date : Date)
    (hc : HabitWithCompletion) :
  habits_pk db -> interval_state_pk db ->
  (In hc (snd (getHabitsForDate (deleteHabit db habitId) date))
   <-> In hc (snd (getHabitsForDate db date)) /\ id (habit hc) <> habitId).
Proof.
  intros Hpk Hspk.
  destruct (existsb (fun h => h_id h =? habitId) (habits db)) eqn:Ex.
  - apply known_existsb in Ex.
    rewrite !getHabitsForDate_In, !left_join_advanced.
    split.
    + intros (h & c & -> & Hj & Hw).
      rewrite deleteHabit_known in Hj by exact Ex.
      apply left_join_deleted in Hj as [Hj Hne].
      rewrite due_where_deleted in Hw by assumption.
      split; [|exact Hne]. exists h, c. auto.
    + intros ((h & c & -> & Hj & Hw) & Hne). cbn [habit id mapRowToHabit] in Hne.
      exists h, c. split; [reflexivity|]. split.
      * rewrite deleteHabit_known by exact Ex. apply left_join_deleted. auto.
      * rewrite due_where_deleted by assumption. exact Hw.
  - assert (Hn : ~ known db habitId).
    { intros Hk. apply known_existsb in Hk. congruence. }
    rewrite deleteHabit_unknown by exact Hn.
    split; [|tauto]. intros Hin. split; [exact Hin|].
    destruct (getHabitsForDate_flag db date hc Hin) as (_ & h & Hh & ->).
    intros E. apply Hn. exists h. auto.
Qed.

Lemma delete_leaves_others_witness :
  In {| habit := mapRowToHabit habit_daily; completed := true |}
     (snd (getHabitsForDate (deleteHabit store_week "w") (Day day_2024_01_10))).
Proof.
  refine (proj2 (delete_leaves_others store_week "w" (Day day_2024_01_10)
                   {| habit := mapRowToHabit habit_daily; completed := true |}
                   habits_pk_week interval_state_pk_week) _).
  split; [|discriminate]. rewrite list_week_today. left. reflexivity.
Defined.

Lemma filter_none {A : Type} (p : A -> bool) (l : list A) :
  (forall x, In x l -> p x = false) -> filter p l = [].
Proof.
  intros H. induction l as [|x l IH]; trivial. cbn [filter].
  rewrite H by now left. apply IH. intros y Hy. apply H. now right.
Qed.

(** X18: with the foreign keys in place, after [deleteHabit] no row of any
    table carries the id; the habit is on no Today list, its streak is 0, its
    week shows no completion, and completing it is rejected on the foreign
    key without a write. *)
Theorem deleted_habit_is_gone (db : Store) (habitId : string) :
  schema_ok db ->
  let db1 := deleteHabit db habitId in
  unused db1 habitId
  /\ (forall date, completeHabit db1 habitId date = (db1, Rejected ForeignKeyConstraint))
  /\ (forall date hc, In hc (snd (getHabitsForDate db1 date)) -> id (habit hc) <> habitId)
  /\ (forall now, getStreak db1 now habitId = 0%nat)
  /\ (forall weekStartDate,
        getWeekProgress db1 habitId weekStartDate = repeat false 7).
Proof.
  intros Hok db1.
  assert (Hu : unused db1 habitId).
  { destruct (existsb (fun h => h_id h =? habitId) (habits db)) eqn:Ex.
    - apply known_existsb in Ex. unfold db1. rewrite deleteHabit_known by exact Ex.
      split; [|repeat split].
      + intros (h & Hin & E). cbn [habits] in Hin. apply filter_In in Hin as [_ Hne].
        apply negb_true_iff, String.eqb_neq in Hne. contradiction.
      + intros hd Hin. cbn [habit_days] in Hin. apply filter_In in Hin as [_ Hne].
        now apply negb_true_iff, String.eqb_neq in Hne.
      + intros c Hin. cbn [habit_completions] in Hin. apply filter_In in Hin as [_ Hne].
        now apply negb_true_iff, String.eqb_neq in Hne.
      + intros ihs Hin. cbn [interval_habit_state] in Hin.
        apply filter_In in Hin as [_ Hne].
        now apply negb_true_iff, String.eqb_neq in Hne.
    - assert (Hn : ~ known db habitId).
      { intros Hk. apply known_existsb in Hk. congruence. }
      unfold db1. rewrite deleteHabit_unknown by exact Hn.
      apply schema_ok_unused; assumption. }
  pose proof Hu as (Hn & _ & Hc & _).
  assert (Hoff : forall ds, completed_on db1 habitId ds = false).
  { intros ds. apply not_true_is_false. intros E. unfold completed_on in E.
    apply existsb_exists in E as (c & Hin & E). apply andb_true_iff in E as [E _].
    apply String.eqb_eq in E. exact (Hc c Hin E). }
  split; [exact Hu|]. repeat match goal with |- _ /\ _ => split end.
  - intros date. unfold completeHabit, insert_or_ignore_completion.
    fold (completed_on db1 habitId (formatDateString date)).
    rewrite Hoff, unknown_existsb by exact Hn. reflexivity.
  - intros date hc Hin E.
    destruct (getHabitsForDate_flag db1 date hc Hin) as (_ & h & Hh & Eh).
    apply Hn. exists h. split; [exact Hh|]. rewrite Eh in E. exact E.
  - intros now. unfold getStreak, select_completions_until.
    rewrite filter_none; [reflexivity|].
    intros c Hin. apply andb_false_iff. left. apply String.eqb_neq. exact (Hc c Hin).
  - intros w. rewrite getWeekProgress_lookup. unfold weekDates_of.
    rewrite map_map. cbn [seq map]. rewrite !Hoff. reflexivity.
Qed.

Lemma schema_ok_week : schema_ok store_week.
Proof.
  constructor.
  - exact habits_pk_week.
  - exact interval_state_pk_week.
  - exact completions_unique_week.
  - cbn. repeat constructor; cbn; intros C;
      repeat (destruct C as [C|C]; [discriminate C|]); exact C.
  - intros hd Hin. repeat (destruct Hin as [<-|Hin]; [cbn; lia|]). destruct Hin.
  - intros hd Hin.
    repeat (destruct Hin as [<-|Hin];
            [exists habit_weekdays; split; [right; left; reflexivity|reflexivity]|]).
    destruct Hin.
  - intros c Hin.
    repeat (destruct Hin as [<-|Hin];
            [exists habit_daily; split; [left; reflexivity|reflexivity]|]).
    destruct Hin.
  - intros ihs Hin.
    repeat (destruct Hin as [<-|Hin];
            [exists habit_every_3;
             split; [right; right; right; left; reflexivity|reflexivity]|]).
    destruct Hin.
Qed.

Lemma deleted_habit_is_gone_witness :
  let db1 := deleteHabit store_week "d" in
  unused db1 "d"
  /\ (forall date, completeHabit db1 "d" date = (db1, Rejected ForeignKeyConstraint))
  /\ (forall date hc, In hc (snd (getHabitsForDate db1 date)) -> id (habit hc) <> "d")
  /\ (forall now, getStreak db1 now "d" = 0%nat)
  /\ (forall weekStartDate, getWeekProgress db1 "d" weekStartDate = repeat false 7).
Proof. exact (deleted_habit_is_gone store_week "d" schema_ok_week). Defined.

End CreateDelete.

(** ** From the screens to the Today list *)

Module Flows.
Import Calendar Js Schema Repo Queries Screens Scenarios MoreScenarios Checks Wf Constraints.
Import CalendarFacts DateStrings DateArith StoreFacts Advancer Resolver ResolverClaims.
Import Ledger Create ListFacts DateRoundTrip Views Accounting Lifecycle CreateDelete.

Local Open Scope string_scope.

(** The entries of a habit that has just been added to the store, under an
    id no completion carries: one entry, not completed, when the WHERE clause
    holds on its row, and none otherwise. *)
Lemma new_habit_entries (db db1 : Store) (row : HabitRow) (date : Date) :
  ~ known db (h_id row) ->
  habits db1 = (habits db ++ [row])%list ->
  (forall c, In c (habit_completions db1) -> c_habit_id c <> h_id row) ->
  let due :=
    sql_true (due_where (autoAdvanceOverdueIntervalHabits db1 date)
                        (formatDateString date) (getDay date) row None) in
  (forall hc, In hc (snd (getHabitsForDate db1 date)) -> id (habit hc) = h_id row ->
     hc = {| habit := mapRowToHabit row; completed := false |} /\ due = true)
  /\ (due = true ->
      In {| habit := mapRowToHabit row; completed := false |}
         (snd (getHabitsForDate db1 date))).
Proof.
  intros Hn Eh Hc due.
  assert (Hoff : forall h c, In (h, c) (left_join_completions db1 (formatDateString date)) ->
                 h_id h = h_id row -> h = row /\ c = None).
  { intros h c Hj E. split.
    - pose proof (left_join_habit db1 _ h c Hj) as Hh. rewrite Eh in Hh.
      apply in_app_iff in Hh as [Hh|[<-|[]]]; [|reflexivity].
      exfalso. apply Hn. exists h. auto.
    - pose proof (left_join_completed db1 _ h c Hj) as Ec.
      destruct c as [c|]; [|reflexivity]. exfalso. cbn [completed_of] in Ec.
      symmetry in Ec. apply existsb_exists in Ec as (c' & Hin & E').
      apply andb_true_iff in E' as [E' _]. apply String.eqb_eq in E'.
      apply (Hc c' Hin). congruence. }
  split.
  - intros hc Hin Eid. apply getHabitsForDate_In in Hin as (h & c & -> & Hj & Hw).
    rewrite left_join_advanced in Hj. cbn [habit id mapRowToHabit] in Eid.
    destruct (Hoff h c Hj Eid) as [-> ->]. split; [reflexivity|exact Hw].
  - intros Hdue. apply getHabitsForDate_In. rewrite left_join_advanced.
    assert (Hrow : In row (habits db1)).
    { rewrite Eh. apply in_app_iff. right. now left. }
    destruct (left_join_total db1 (formatDateString date) row Hrow) as (c & Hj).
    destruct (Hoff row c Hj eq_refl) as [_ ->].
    exists row, None. auto.
Qed.

Lemma string_truthy (s : string) : s <> "" -> truthy_string (Some s) = true.
Proof.
  intros H. unfold truthy_string. apply negb_true_iff, String.eqb_neq. exact H.
Qed.

(** [createHabit] for a one-time habit, under a new id. *)
Lemma createHabit_one_time (db : Store) (newId now : string) (today : Date)
    (nm s : string) (days : list Z) :
  ~ known db newId -> s <> "" ->
  createHabit db newId now today (NewCustomHabit nm (Some s) days)
  = ({| habits := (habits db ++ [mkHabitRow newId nm custom None (Some s) now now])%list;
        habit_days := habit_days db;
        habit_completions := habit_completions db;
        interval_habit_state := interval_habit_state db |},
     Resolved (mkHabit newId nm custom None (Some s) now now)).
Proof.
  intros Hn Hs. unfold createHabit, insert_habit.
  rewrite unknown_existsb by assumption.
  cbn [nh_scheduleType nh_oneTimeDate nh_name].
  rewrite string_truthy by assumption. reflexivity.
Qed.

(** X19: the flow of "add a habit for today": the modal reads the day the
    home screen passed, and the saved habit is on the Today list of that day,
    not completed, on the list of no other day, and never in the weekly
    view. *)
Theorem add_today_habit_flow (db : Store) (newId now trimmed : string) (today : Date)
    (z : Z) :
  unused db newId -> trimmed <> "" -> in_range z ->
  let targetDate := date_of_param (Some (formatDateString (Day z))) today in
  let result := AddTodayHabitModal_handleSave db newId now today trimmed targetDate in
  let created :=
    mkHabit newId trimmed custom None (Some (formatDateString (Day z))) now now in
  snd result = Resolved tt
  /\ In {| habit := created; completed := false |}
        (snd (getHabitsForDate (fst result) (Day z)))
  /\ (forall t hc, in_range t ->
        In hc (snd (getHabitsForDate (fst result) (Day t))) ->
        id (habit hc) = newId -> t = z)
  /\ (forall dayOfWeek date hc,
        In hc (getHabitsForDayOfWeek (fst result) dayOfWeek date) ->
        id (habit hc) <> newId).
Proof.
  intros (Hn & _ & Hc & _) Hname Hz targetDate result created.
  assert (Et : targetDate = Day z) by (apply date_of_param_format; exact Hz).
  assert (Hs : formatDateString (Day z) <> "").
  { intros E. pose proof (formatDateString_length z Hz) as L. rewrite E in L.
    discriminate L. }
  set (row := mkHabitRow newId trimmed custom None (Some (formatDateString (Day z)))
                         now now).
  assert (Er : result
               = ({| habits := (habits db ++ [row])%list;
                     habit_days := habit_days db;
                     habit_completions := habit_completions db;
                     interval_habit_state := interval_habit_state db |}, Resolved tt)).
  { unfold result, AddTodayHabitModal_handleSave.
    rewrite string_truthy by assumption. cbn [negb]. rewrite Et.
    rewrite createHabit_one_time by assumption. reflexivity. }
  rewrite Er. cbn [fst snd].
  set (db1 := {| habits := (habits db ++ [row])%list; habit_days := habit_days db;
                 habit_completions := habit_completions db;
                 interval_habit_state := interval_habit_state db |}).
  assert (Hentries := fun date =>
            new_habit_entries db db1 row date Hn eq_refl Hc).
  assert (Hdue : forall date,
    sql_true (due_where (autoAdvanceOverdueIntervalHabits db1 date)
                        (formatDateString date) (getDay date) row None)
    = (formatDateString (Day z) =? formatDateString date)).
  { intros date. apply due_where_one_time; reflexivity. }
  split; [reflexivity|]. split; [|split].
  - apply (proj2 (Hentries (Day z))). rewrite Hdue. apply String.eqb_refl.
  - intros t hc Ht Hin Eid.
    destruct (proj1 (Hentries (Day t)) hc Hin Eid) as [_ Hd].
    rewrite Hdue, formatDateString_eqb in Hd by assumption.
    apply Z.eqb_eq in Hd. auto.
  - intros dow date hc Hin Eid.
    apply getHabitsForDayOfWeek_In in Hin as (h & c & -> & Hj & Hw).
    cbn [habit id mapRowToHabit] in Eid.
    pose proof (left_join_habit db1 _ h c Hj) as Hh. cbn [db1 habits] in Hh.
    apply in_app_iff in Hh as [Hh|[<-|[]]].
    + apply Hn. exists h. auto.
    + rewrite day_of_week_where_spec in Hw. discriminate Hw.
Qed.

Lemma add_today_habit_flow_witness :
  let targetDate :=
    date_of_param (Some (formatDateString (Day day_2024_01_10))) InvalidDate in
  let result :=
    AddTodayHabitModal_handleSave store_week "n" "2024-01-09T08:00:00.000Z" InvalidDate
                                  "stretch" targetDate in
  snd result = Resolved tt
  /\ In {| habit := mkHabit "n" "stretch" custom None
                            (Some (formatDateString (Day day_2024_01_10)))
                            "2024-01-09T08:00:00.000Z" "2024-01-09T08:00:00.000Z";
           completed := false |}
        (snd (getHabitsForDate (fst result) (Day day_2024_01_10)))
  /\ (forall t hc, in_range t ->
        In hc (snd (getHabitsForDate (fst result) (Day t))) ->
        id (habit hc) = "n" -> t = day_2024_01_10)
  /\ (forall dayOfWeek date hc,
        In hc (getHabitsForDayOfWeek (fst result) dayOfWeek date) ->
        id (habit hc) <> "n").
Proof.
  apply (add_today_habit_flow store_week "n" _ "stretch" InvalidDate day_2024_01_10
           unused_week_n).
  - discriminate.
  - exact in_range_day_2024_01_10.
Defined.

(** [createHabit] for an interval habit with a start date, under an id that
    no row carries. *)
Lemma createHabit_interval (db : Store) (newId now : string) (today : Date)
    (nm s : string) (n : Z) (r : bool) :
  unused db newId -> s <> "" ->
  createHabit db newId now today (NewIntervalHabit nm None n (Some s) (Some r))
  = ({| habits := (habits db ++ [mkHabitRow newId nm interval (Some n) None now now])%list;
        habit_days := habit_days db;
        habit_completions := habit_completions db;
        interval_habit_state :=
          (interval_habit_state db
           ++ [mkIntervalHabitStateRow newId None None s (if r then 1 else 0)])%list |},
     Resolved (mkHabit newId nm interval (Some n) None now now)).
Proof.
  intros (Hn & _ & _ & Hs) Hne. unfold createHabit, insert_habit.
  rewrite unknown_existsb by assumption.
  cbn [nh_scheduleType nh_oneTimeDate nh_name].
  rewrite string_truthy by assumption.
  unfold insert_interval_state. cbn [habits interval_habit_state].
  assert (E1 : existsb (fun ihs => ihs_habit_id ihs =? newId) (interval_habit_state db)
               = false).
  { apply not_true_is_false. intros E.
    apply existsb_exists in E as (ihs & Hin & E). apply String.eqb_eq in E.
    exact (Hs ihs Hin E). }
  rewrite E1, existsb_app. cbn [existsb h_id]. rewrite String.eqb_refl.
  rewrite orb_true_r. cbn [negb orb].
  destruct r; reflexivity.
Qed.

(** A state row that was never due before and never completed makes its
    habit due on no day before [next_due]. *)
Lemma interval_state_due_fresh (ihs : IntervalHabitStateRow) (ds : string) :
  ihs_last_completed ihs = None -> ihs_last_due ihs = None ->
  (ihs_next_due ihs =? ds) = false -> (ihs_next_due ihs <? ds) = false ->
  sql_true (interval_state_due ihs ds) = false.
Proof.
  intros E1 E2 E3 E4. unfold interval_state_due.
  unfold text_eq, text_lt, text_le, text_gt, text_ne, sql_text, int_eq.
  rewrite E1, E2, E3, E4.
  destruct (ihs_reschedule_if_missed ihs =? 1)%Z,
           (ihs_reschedule_if_missed ihs =? 0)%Z; reflexivity.
Qed.

(** X20: the flow of "add an interval habit": the saved habit starts on the
    day of the modal, or one interval later when "start today" is off; the
    Today list of the start day shows it, not completed, and the list of no
    earlier day does. *)
Theorem add_interval_habit_flow (db : Store) (newId now trimmed : string) (today : Date)
    (z n : Z) (startToday rescheduleIfMissed : bool) :
  habits_pk db -> interval_state_pk db -> unused db newId -> trimmed <> "" ->
  let start := if startToday then z else z + n in
  in_range start ->
  let result :=
    AddIntervalHabitModal_handleSave db newId now today trimmed (Day z) n
                                     startToday rescheduleIfMissed in
  let created := mkHabit newId trimmed interval (Some n) None now now in
  snd result = Resolved tt
  /\ In {| habit := created; completed := false |}
        (snd (getHabitsForDate (fst result) (Day start)))
  /\ (forall t hc, in_range t -> t < start ->
        In hc (snd (getHabitsForDate (fst result) (Day t))) ->
        id (habit hc) <> newId).
Proof.
  intros Hpk Hspk Hu Hname start Hstart result created.
  pose proof Hu as (Hn & _ & Hc & Hs).
  assert (Es : startDate_of (Day z) startToday n = formatDateString (Day start)).
  { unfold startDate_of, start. destruct startToday; [reflexivity|].
    cbv zeta. rewrite setDate_add. reflexivity. }
  assert (Hne : formatDateString (Day start) <> "").
  { intros E. pose proof (formatDateString_length start Hstart) as L. rewrite E in L.
    discriminate L. }
  set (row := mkHabitRow newId trimmed interval (Some n) None now now).
  set (st := mkIntervalHabitStateRow newId None None (formatDateString (Day start))
                                     (if rescheduleIfMissed then 1 else 0)).
  assert (Er : result
               = ({| habits := (habits db ++ [row])%list;
                     habit_days := habit_days db;
                     habit_completions := habit_completions db;
                     interval_habit_state := (interval_habit_state db ++ [st])%list |},
                  Resolved tt)).
  { unfold result, AddIntervalHabitModal_handleSave.
    rewrite string_truthy by assumption. cbn [negb]. rewrite Es.
    rewrite createHabit_interval by assumption. reflexivity. }
  rewrite Er. cbn [fst snd].
  set (db1 := {| habits := (habits db ++ [row])%list; habit_days := habit_days db;
                 habit_completions := habit_completions db;
                 interval_habit_state := (interval_habit_state db ++ [st])%list |}).
  assert (Hpk1 : habits_pk db1).
  { unfold habits_pk. cbn [db1 habits]. rewrite map_app. apply NoDup_snoc; [exact Hpk|].
    intros Hin. apply in_map_iff in Hin as (h & E & Hh). apply Hn. exists h. auto. }
  assert (Hspk1 : interval_state_pk db1).
  { unfold interval_state_pk. cbn [db1 interval_habit_state]. rewrite map_app.
    apply NoDup_snoc; [exact Hspk|].
    intros Hin. apply in_map_iff in Hin as (ihs & E & Hi). exact (Hs ihs Hi E). }
  assert (Hentries := fun date =>
            new_habit_entries db db1 row date Hn eq_refl Hc).
  (* the state row of the new habit is not advanced up to its start day *)
  assert (Hkeep : forall t, in_range t -> t <= start ->
    advance_row db1 (Day t) st = st).
  { intros t Ht Hle. unfold advance_row, overdue_of. cbn [st ihs_next_due].
    rewrite formatDateString_ltb by assumption.
    replace (start <? t)%Z with false by (symmetry; apply Z.ltb_ge; lia).
    rewrite andb_false_r. destruct (find _ (habits db1)); reflexivity. }
  assert (Hdue : forall t, in_range t -> t <= start ->
    sql_true (due_where (autoAdvanceOverdueIntervalHabits db1 (Day t))
                        (formatDateString (Day t)) (getDay (Day t)) row None)
    = sql_true (interval_state_due st (formatDateString (Day t)))).
  { intros t Ht Hle. rewrite due_where_interval by reflexivity. cbn [completed_of orb].
    rewrite autoAdvance_rows by assumption. cbn [db1 interval_habit_state]. fold db1.
    rewrite map_app, existsb_app. cbn [map existsb].
    rewrite Hkeep by assumption. cbn [st ihs_habit_id row h_id]. fold st.
    rewrite String.eqb_refl, orb_false_r. cbn [andb].
    replace (existsb _ (map (advance_row db1 (Day t)) (interval_habit_state db)))
      with false; [reflexivity|].
    symmetry. apply not_true_is_false. intros E.
    apply existsb_exists in E as (ihs' & Hin & E).
    apply in_map_iff in Hin as (ihs & <- & Hin).
    rewrite advance_row_id in E. apply andb_true_iff in E as [E _].
    apply String.eqb_eq in E. exact (Hs ihs Hin E). }
  split; [reflexivity|]. split.
  - apply (proj2 (Hentries (Day start))). rewrite Hdue by (trivial; lia).
    apply interval_state_due_next. reflexivity.
  - intros t hc Ht Hlt Hin Eid.
    destruct (proj1 (Hentries (Day t)) hc Hin Eid) as [_ Hd].
    rewrite Hdue in Hd by (trivial; lia).
    rewrite interval_state_due_fresh in Hd; [discriminate Hd|reflexivity|reflexivity|..].
    + cbn [st ihs_next_due]. rewrite formatDateString_eqb by assumption.
      apply Z.eqb_neq. lia.
    + cbn [st ihs_next_due]. rewrite formatDateString_ltb by assumption.
      apply Z.ltb_ge. lia.
Qed.

Lemma add_interval_habit_flow_witness :
  let result :=
    AddIntervalHabitModal_handleSave store_week "n" "2024-01-09T08:00:00.000Z"
      InvalidDate "air the room" (Day day_2024_01_10) 3 false false in
  snd result = Resolved tt
  /\ In {| habit := mkHabit "n" "air the room" interval (Some 3) None
                            "2024-01-09T08:00:00.000Z" "2024-01-09T08:00:00.000Z";
           completed := false |}
        (snd (getHabitsForDate (fst result) (Day (day_2024_01_10 + 3))))
  /\ (forall t hc, in_range t -> t < day_2024_01_10 + 3 ->
        In hc (snd (getHabitsForDate (fst result) (Day t))) ->
        id (habit hc) <> "n").
Proof.
  apply (add_interval_habit_flow store_week "n" _ "air the room" InvalidDate
           day_2024_01_10 3 false false
           habits_pk_week interval_state_pk_week unused_week_n).
  - discriminate.
  - exact in_range_2024_01_13.
Defined.

(** *** The day picker *)

(** On the indices of the picker the default sort, which compares the numbers
    as strings, is the numeric one. *)
Lemma digit_strings_leb (a b : Z) :
  0 <= a <= 6 -> 0 <= b <= 6 ->
  (String_of_number (Some a) <=? String_of_number (Some b)) = (a <=? b)%Z.
Proof.
  intros Ha Hb.
  assert (Ea : a = 0 \/ a = 1 \/ a = 2 \/ a = 3 \/ a = 4 \/ a = 5 \/ a = 6) by lia.
  assert (Eb : b = 0 \/ b = 1 \/ b = 2 \/ b = 3 \/ b = 4 \/ b = 5 \/ b = 6) by lia.
  repeat (destruct Ea as [->|Ea]; [|]); try subst a;
    repeat (destruct Eb as [->|Eb]; [|]); try subst b; reflexivity.
Qed.

Lemma mem_insert_by {A : Type} (le : A -> A -> bool) (p : A -> bool) (x : A) (l : list A) :
  existsb p (insert_by le x l) = p x || existsb p l.
Proof.
  induction l as [|y l IH]; cbn [insert_by existsb]; trivial.
  destruct (le x y); cbn [existsb]; trivial.
  rewrite IH. destruct (p x), (p y); reflexivity.
Qed.

Lemma mem_order_by {A : Type} (le : A -> A -> bool) (p : A -> bool) (l : list A) :
  existsb p (order_by le l) = existsb p l.
Proof.
  induction l as [|x l IH]; trivial.
  change (order_by le (x :: l)) with (insert_by le x (order_by le l)).
  rewrite mem_insert_by, IH. reflexivity.
Qed.

(** One click changes the membership of the clicked day, and of no other. *)
Lemma toggleDay_mem (selectedDays : list Z) (dayIndex d : Z) :
  existsb (fun x => (x =? d)%Z) (toggleDay selectedDays dayIndex)
  = xorb (existsb (fun x => (x =? d)%Z) selectedDays) (dayIndex =? d)%Z.
Proof.
  unfold toggleDay.
  destruct (existsb (fun x => (x =? dayIndex)%Z) selectedDays) eqn:M.
  - destruct (Z.eqb_spec dayIndex d) as [->|Hne].
    + rewrite M. cbn [xorb].
      apply not_true_is_false. intros E. apply existsb_exists in E as (x & Hin & E).
      apply filter_In in Hin as [_ Hx]. rewrite E in Hx. discriminate Hx.
    + rewrite xorb_false_r.
      induction selectedDays as [|x l IH]; trivial. cbn [filter existsb] in *.
      destruct (Z.eqb_spec x dayIndex) as [->|Hx]; cbn [negb existsb orb] in *.
      * destruct (Z.eqb_spec dayIndex d); [contradiction|]. cbn [orb].
        destruct (existsb (fun x => (x =? dayIndex)%Z) l) eqn:Ml; [auto|].
        rewrite (forallb_filter_id (fun d0 => negb (d0 =? dayIndex)%Z) l); trivial.
        apply forallb_forall. intros y Hy. apply negb_true_iff, not_true_is_false.
        intros E. apply not_true_iff_false in Ml. apply Ml.
        apply existsb_exists. eauto.
      * rewrite IH by exact M. reflexivity.
  - unfold sort_default. rewrite mem_order_by, existsb_app. cbn [existsb].
    rewrite orb_false_r.
    destruct (Z.eqb_spec dayIndex d) as [->|Hne].
    + rewrite M. reflexivity.
    + rewrite orb_false_r, xorb_false_r. reflexivity.
Qed.

Lemma insert_by_ext_in {A : Type} (le le' : A -> A -> bool) (x : A) (l : list A) :
  (forall y, In y l -> le x y = le' x y) -> insert_by le x l = insert_by le' x l.
Proof.
  induction l as [|y l IH]; intros H; trivial. cbn [insert_by].
  rewrite (H y) by now left. destruct (le' x y); trivial.
  f_equal. apply IH. intros y' Hy'. apply H. now right.
Qed.

Lemma order_by_ext_in {A : Type} (le le' : A -> A -> bool) (l : list A) :
  (forall x y, In x l -> In y l -> le x y = le' x y) -> order_by le l = order_by le' l.
Proof.
  induction l as [|x l IH]; intros H; trivial.
  change (order_by le (x :: l)) with (insert_by le x (order_by le l)).
  change (order_by le' (x :: l)) with (insert_by le' x (order_by le' l)).
  rewrite IH by (intros; apply H; now right).
  apply insert_by_ext_in. intros y Hy. apply In_order_by in Hy.
  apply H; [now left|now right].
Qed.

Lemma insert_ascending (x : Z) (l : list Z) :
  StronglySorted Z.lt l -> ~ In x l -> StronglySorted Z.lt (insert_by Z.leb x l).
Proof.
  induction l as [|y l IH]; cbn [insert_by]; intros Hs Hx.
  - repeat constructor.
  - inversion Hs as [|? ? Hl Hy]; subst.
    destruct (Z.leb_spec x y) as [Hle|Hgt].
    + assert (Hlt : x < y).
      { destruct (Z.eq_dec x y) as [->|]; [exfalso; apply Hx; now left|lia]. }
      constructor; [exact Hs|]. constructor; [exact Hlt|].
      eapply Forall_impl; [|exact Hy]. cbv beta. intros; lia.
    + constructor.
      * apply IH; [exact Hl|]. intros C. apply Hx. now right.
      * apply Forall_forall. intros w Hw. apply In_insert_by in Hw as [->|Hw]; [lia|].
        exact (proj1 (Forall_forall _ _) Hy w Hw).
Qed.

Lemma order_by_ascending (l : list Z) :
  NoDup l -> StronglySorted Z.lt (order_by Z.leb l).
Proof.
  induction l as [|x l IH]; intros Hnd; [constructor|].
  inversion Hnd as [|? ? Hx Hl]; subst.
  change (order_by Z.leb (x :: l)) with (insert_by Z.leb x (order_by Z.leb l)).
  apply insert_ascending; [auto|]. intros C. apply In_order_by in C. contradiction.
Qed.

Lemma ascending_NoDup (l : list Z) : StronglySorted Z.lt l -> NoDup l.
Proof.
  induction 1 as [|x l Hs IH Hx]; constructor; [|exact IH].
  intros C. pose proof (proj1 (Forall_forall _ _) Hx x C). lia.
Qed.

Lemma ascending_filter (p : Z -> bool) (l : list Z) :
  StronglySorted Z.lt l -> StronglySorted Z.lt (filter p l).
Proof.
  induction 1 as [|x l Hs IH Hx]; cbn [filter]; [constructor|].
  destruct (p x); [|exact IH]. constructor; [exact IH|].
  apply Forall_forall. intros y Hy. apply filter_In in Hy as [Hy _].
  exact (proj1 (Forall_forall _ _) Hx y Hy).
Qed.

(** One click keeps the selection in strictly ascending order and within
    the indices of the picker. *)
Lemma toggleDay_ascending (selectedDays : list Z) (dayIndex : Z) :
  StronglySorted Z.lt selectedDays -> (forall d, In d selectedDays -> 0 <= d <= 6) ->
  0 <= dayIndex <= 6 ->
  StronglySorted Z.lt (toggleDay selectedDays dayIndex)
  /\ (forall d, In d (toggleDay selectedDays dayIndex) -> 0 <= d <= 6).
Proof.
  intros Hs Hr Hk. unfold toggleDay.
  destruct (existsb (fun x => (x =? dayIndex)%Z) selectedDays) eqn:M.
  - split; [apply ascending_filter; exact Hs|].
    intros d Hd. apply filter_In in Hd as [Hd _]. auto.
  - assert (Hr' : forall d, In d (selectedDays ++ [dayIndex]) -> 0 <= d <= 6).
    { intros d Hd. apply in_app_iff in Hd as [Hd|[<-|[]]]; auto. }
    unfold sort_default. split.
    + rewrite (order_by_ext_in _ Z.leb).
      * apply order_by_ascending. apply NoDup_snoc; [apply ascending_NoDup; exact Hs|].
        intros Hin. apply not_true_iff_false in M. apply M.
        apply existsb_exists. exists dayIndex. split; [exact Hin|apply Z.eqb_refl].
      * intros x y Hx Hy. unfold asc. apply digit_strings_leb; auto.
    + intros d Hd. apply In_order_by in Hd. auto.
Qed.

Lemma existsb_eqb_In (d : Z) (l : list Z) :
  existsb (fun x => (x =? d)%Z) l = true <-> In d l.
Proof.
  rewrite existsb_exists. split.
  - intros (x & Hx & E). apply Z.eqb_eq in E. now subst.
  - intros H. exists d. split; [exact H|apply Z.eqb_refl].
Qed.

Lemma toggles_mem (clicks : list Z) (d : Z) :
  forall selectedDays,
  existsb (fun x => (x =? d)%Z) (fold_left toggleDay clicks selectedDays)
  = xorb (existsb (fun x => (x =? d)%Z) selectedDays)
         (Nat.odd (count_occ Z.eq_dec clicks d)).
Proof.
  induction clicks as [|k clicks IH]; intros sel; cbn [fold_left count_occ].
  - cbn [Nat.odd]. now rewrite xorb_false_r.
  - rewrite IH, toggleDay_mem.
    destruct (Z.eq_dec k d) as [->|Hne].
    + rewrite Z.eqb_refl, Nat.odd_succ, <- Nat.negb_odd.
      destruct (existsb _ sel), (Nat.odd _); reflexivity.
    + destruct (Z.eqb_spec k d); [contradiction|]. now rewrite xorb_false_r.
Qed.

(** X21: whatever buttons of the day picker are pressed, starting from no
    day selected, the selection is in strictly ascending order, so without
    duplicates, and within 0..6; a day is selected exactly when its button
    was pressed an odd number of times. *)
Theorem day_picker_selection (clicks : list Z) :
  (forall k, In k clicks -> In k DAYS) ->
  let selectedDays := fold_left toggleDay clicks [] in
  StronglySorted Z.lt selectedDays
  /\ (forall d, In d selectedDays -> 0 <= d <= 6)
  /\ (forall d, In d selectedDays <-> Nat.odd (count_occ Z.eq_dec clicks d) = true).
Proof.
  intros Hc selectedDays.
  assert (Hinv : forall sel,
    StronglySorted Z.lt sel -> (forall d, In d sel -> 0 <= d <= 6) ->
    StronglySorted Z.lt (fold_left toggleDay clicks sel)
    /\ (forall d, In d (fold_left toggleDay clicks sel) -> 0 <= d <= 6)).
  { induction clicks as [|k clicks IH]; intros sel Hs Hr; cbn [fold_left]; [auto|].
    assert (Hk : 0 <= k <= 6).
    { specialize (Hc k (or_introl eq_refl)). unfold DAYS in Hc. cbn in Hc. lia. }
    destruct (toggleDay_ascending sel k Hs Hr Hk) as [Hs' Hr'].
    apply IH; [|exact Hs'|exact Hr']. intros k' Hk'. apply Hc. now right. }
  destruct (Hinv [] (SSorted_nil _)) as [Hs Hr]; [intros d []|].
  split; [exact Hs|]. split; [exact Hr|].
  intros d. rewrite <- existsb_eqb_In. unfold selectedDays.
  rewrite toggles_mem. cbn [existsb xorb]. reflexivity.
Qed.

Lemma day_picker_selection_witness :
  fold_left toggleDay [5; 2; 4; 2]%Z [] = [4; 5]%Z
  /\ StronglySorted Z.lt (fold_left toggleDay [5; 2; 4; 2]%Z []).
Proof.
  split; [vm_compute; reflexivity|].
  apply (day_picker_selection [5; 2; 4; 2]%Z).
  intros k Hk. unfold DAYS.
  repeat (destruct Hk as [<-|Hk]; [cbn; tauto|]). destruct Hk.
Defined.

(** [createHabit] for a weekday habit with distinct days within 0..6, under
    an id that no row carries. *)
Lemma createHabit_weekdays (db : Store) (newId now : string) (today : Date)
    (nm : string) (days : list Z) :
  unused db newId -> NoDup days -> (forall d, In d days -> 0 <= d <= 6) ->
  fst (createHabit db newId now today (NewCustomHabit nm None days))
  = {| habits := (habits db ++ [mkHabitRow newId nm custom None None now now])%list;
       habit_days := (habit_days db ++ map (mkHabitDayRow newId) days)%list;
       habit_completions := habit_completions db;
       interval_habit_state := interval_habit_state db |}
  /\ exists created,
       snd (createHabit db newId now today (NewCustomHabit nm None days))
       = Resolved created.
Proof.
  intros (Hn & Hd & _ & _) Hnd Hr. unfold createHabit, insert_habit.
  rewrite unknown_existsb by assumption.
  cbn [nh_scheduleType nh_oneTimeDate nh_name truthy_string negb andb].
  set (row := mkHabitRow newId nm custom None None now now).
  set (db0 := {| habits := (habits db ++ [row])%list; habit_days := habit_days db;
                 habit_completions := habit_completions db;
                 interval_habit_state := interval_habit_state db |}).
  destruct days as [|d days]; cbn [List.length Nat.ltb Nat.leb].
  - cbn [fst snd map]. rewrite app_nil_r. split; [reflexivity|eauto].
  - assert (Hk0 : known db0 newId).
    { exists row. split; [|reflexivity]. cbn [db0 habits]. apply in_app_iff.
      right. now left. }
    pose proof (insert_habit_days_resolves newId (d :: days) db0 Hk0) as R.
    destruct (insert_habit_days_shape newId (d :: days) db0) as (pre & E & _ & Hall).
    assert (Hres : snd (insert_habit_days db0 newId (d :: days)) = Resolved tt).
    { apply R. split; [exact Hnd|]. split; [exact Hr|].
      intros d' _ Hin. exact (Hd _ Hin eq_refl). }
    specialize (Hall Hres). subst pre.
    destruct (insert_habit_days db0 newId (d :: days)) as [db1 [[]|e]];
      cbn [fst snd] in *; [|discriminate Hres].
    split; [|eauto]. rewrite E. unfold with_rows, db0.
    cbn [habits habit_days habit_completions interval_habit_state].
    now rewrite !app_nil_r.
Qed.

(** X22: the flow of "add a weekday habit": with a name and distinct days
    within 0..6, as the day picker gives them, the save resolves and the
    habit is on the Today list of a day exactly when the weekday of that day
    is one of the selected days; without a name or without a day nothing is
    written. *)
Theorem add_custom_habit_flow (db : Store) (newId now trimmed : string) (today : Date)
    (selectedDays : list Z) :
  unused db newId -> trimmed <> "" -> selectedDays <> [] ->
  NoDup selectedDays -> (forall d, In d selectedDays -> 0 <= d <= 6) ->
  let result :=
    AddCustomHabitModal_handleSave db newId now today trimmed selectedDays in
  let created := mkHabit newId trimmed custom None None now now in
  snd result = Resolved tt
  /\ (forall t,
        In {| habit := created; completed := false |}
           (snd (getHabitsForDate (fst result) (Day t)))
        <-> In (WeekDay t) selectedDays)
  /\ (forall t hc,
        In hc (snd (getHabitsForDate (fst result) (Day t))) -> id (habit hc) = newId ->
        hc = {| habit := created; completed := false |})
  /\ AddCustomHabitModal_handleSave db newId now today trimmed [] = (db, Resolved tt)
  /\ AddCustomHabitModal_handleSave db newId now today "" selectedDays
     = (db, Resolved tt).
Proof.
  intros Hu Hname Hsel Hnd Hr result created.
  pose proof Hu as (Hn & Hd & Hc & _).
  set (row := mkHabitRow newId trimmed custom None None now now).
  destruct (createHabit_weekdays db newId now today trimmed selectedDays Hu Hnd Hr)
    as (E1 & habit & E2).
  assert (Er : result
               = ({| habits := (habits db ++ [row])%list;
                     habit_days :=
                       (habit_days db ++ map (mkHabitDayRow newId) selectedDays)%list;
                     habit_completions := habit_completions db;
                     interval_habit_state := interval_habit_state db |}, Resolved tt)).
  { unfold result, AddCustomHabitModal_handleSave.
    rewrite string_truthy by assumption. cbn [negb orb].
    destruct selectedDays as [|d l]; [contradiction|]. cbn [List.length Nat.eqb].
    destruct (createHabit db newId now today (NewCustomHabit trimmed None (d :: l)))
      as [db1 o]. cbn [fst snd] in E1, E2. subst db1 o. reflexivity. }
  rewrite Er. cbn [fst snd].
  set (db1 := {| habits := (habits db ++ [row])%list;
                 habit_days :=
                   (habit_days db ++ map (mkHabitDayRow newId) selectedDays)%list;
                 habit_completions := habit_completions db;
                 interval_habit_state := interval_habit_state db |}).
  assert (Hentries := fun date =>
            new_habit_entries db db1 row date Hn eq_refl Hc).
  assert (Hdue : forall t,
    sql_true (due_where (autoAdvanceOverdueIntervalHabits db1 (Day t))
                        (formatDateString (Day t)) (getDay (Day t)) row None) = true
    <-> In (WeekDay t) selectedDays).
  { intros t. rewrite due_where_weekdays by reflexivity.
    destruct (autoAdvance_habits db1 (Day t)) as (_ & -> & _).
    cbn [db1 habit_days getDay row h_id]. rewrite existsb_exists. split.
    - intros ([hid d] & Hin & E). cbn [hd_habit_id hd_day_of_week int_eq sql_true] in E.
      apply andb_true_iff in E as [E1' E2']. apply String.eqb_eq in E1'. subst hid.
      destruct (Z.eqb_spec d (WeekDay t)) as [->|]; [|discriminate E2'].
      apply in_app_iff in Hin as [Hin|Hin]; [exfalso; exact (Hd _ Hin eq_refl)|].
      apply in_map_iff in Hin as (d' & [= <-] & Hd'). exact Hd'.
    - intros Hin. exists (mkHabitDayRow newId (WeekDay t)). split.
      + apply in_app_iff. right. apply in_map. exact Hin.
      + cbn [hd_habit_id hd_day_of_week int_eq sql_true].
        now rewrite String.eqb_refl, Z.eqb_refl. }
  split; [reflexivity|]. split; [|split; [|split]].
  - intros t. rewrite <- Hdue. split.
    + intros Hin. exact (proj2 (proj1 (Hentries (Day t)) _ Hin eq_refl)).
    + exact (proj2 (Hentries (Day t))).
  - intros t hc Hin Eid. exact (proj1 (proj1 (Hentries (Day t)) hc Hin Eid)).
  - unfold AddCustomHabitModal_handleSave. cbn [List.length Nat.eqb].
    now rewrite orb_true_r.
  - reflexivity.
Qed.

Lemma add_custom_habit_flow_witness :
  let result :=
    AddCustomHabitModal_handleSave store_week "n" "2024-01-09T08:00:00.000Z"
      InvalidDate "swim" [2; 3]%Z in
  In {| habit := mkHabit "n" "swim" custom None None
                         "2024-01-09T08:00:00.000Z" "2024-01-09T08:00:00.000Z";
        completed := false |}
     (snd (getHabitsForDate (fst result) (Day day_2024_01_10))).
Proof.
  assert (Hnd : NoDup [2; 3]%Z).
  { repeat constructor; cbn; intros C;
      repeat (destruct C as [C|C]; [discriminate C|]); exact C. }
  assert (Hr : forall d, In d [2; 3]%Z -> 0 <= d <= 6).
  { intros d Hd. repeat (destruct Hd as [<-|Hd]; [lia|]). destruct Hd. }
  assert (Hne : [2; 3]%Z <> []) by discriminate.
  assert (Hname : "swim" <> "") by discriminate.
  destruct (add_custom_habit_flow store_week "n" "2024-01-09T08:00:00.000Z" "swim"
              InvalidDate [2; 3]%Z unused_week_n Hname Hne Hnd Hr) as (_ & H & _).
  apply (proj2 (H day_2024_01_10)). right. left. reflexivity.
Defined.

(** X23: the Interval Advancer keeps the rhythm of a habit it moves: on a
    well-formed store (unique ids, positive intervals, every [next_due] a
    date of four-digit year) and for a reference day that has, as has the
    day one interval of any habit later, a four-digit year, an overdue state
    row that is not rescheduled when missed gets the first [next_due] on or
    after the reference day that is a whole number of intervals after the old
    one, and [last_due] one interval before it; [last_completed] is not
    touched. *)
Theorem advance_keeps_rhythm (db : Store) (h : HabitRow) (ihs : IntervalHabitStateRow)
    (n z0 z : Z) :
  wf_intervals db -> reference_ok db z ->
  In h (habits db) -> In ihs (interval_habit_state db) -> h_id h = ihs_habit_id ihs ->
  h_interval_days h = Some n ->
  ihs_reschedule_if_missed ihs = 0 ->
  ihs_next_due ihs = formatDateString (Day z0) -> in_range z0 -> z0 < z ->
  exists k,
    1 <= k /\ z <= z0 + k * n < z + n
    /\ In {| ihs_habit_id := ihs_habit_id ihs;
             ihs_last_completed := ihs_last_completed ihs;
             ihs_last_due := Some (formatDateString (Day (z0 + k * n - n)));
             ihs_next_due := formatDateString (Day (z0 + k * n));
             ihs_reschedule_if_missed := ihs_reschedule_if_missed ihs |}
          (interval_habit_state (autoAdvanceOverdueIntervalHabits db (Day z))).
Proof.
  intros Hwf Href Hh Hin Eid En Er End Hz0 Hlt.
  pose proof Href as [Hz _].
  destruct (wf_interval db Hwf ihs h Hin Hh Eid) as (n' & En' & Hn).
  assert (n' = n) by congruence. subst n'.
  pose proof (advanced_day_bounds z0 n z Hn) as Hb.
  exists (- (- (z - z0) / n)).
  assert (Ek : advanced_day z0 n z = z0 + - (- (z - z0) / n) * n) by reflexivity.
  rewrite <- Ek. split; [|split; [exact Hb|]].
  - assert (0 < - (- (z - z0) / n)); [|lia].
    assert (- (z - z0) / n < 0); [|lia].
    apply Z.div_lt_upper_bound; lia.
  - rewrite autoAdvance_rows by (apply Hwf). cbn [interval_habit_state].
    apply in_map_iff. exists ihs. split; [|exact Hin].
    unfold advance_row, overdue_of.
    rewrite (find_by_key h_id (ihs_habit_id ihs) (habits db) h (wf_habits_pk db Hwf) Hh Eid).
    rewrite Er, End, formatDateString_ltb by assumption.
    replace (z0 <? z)%Z with true by (symmetry; apply Z.ltb_lt; exact Hlt).
    cbn [Z.eqb andb]. unfold advanced_row. rewrite En.
    rewrite newDueDate_of_days, lastDueDate_of_days by (trivial; lia).
    rewrite Er. reflexivity.
Qed.

Lemma advance_keeps_rhythm_witness :
  exists k,
    1 <= k /\ day_2024_01_10 <= days_from_civil 2024 1 1 + k * 3 < day_2024_01_10 + 3
    /\ In {| ihs_habit_id := "b";
             ihs_last_completed := None;
             ihs_last_due :=
               Some (formatDateString (Day (days_from_civil 2024 1 1 + k * 3 - 3)));
             ihs_next_due := formatDateString (Day (days_from_civil 2024 1 1 + k * 3));
             ihs_reschedule_if_missed := 0 |}
          (interval_habit_state
             (autoAdvanceOverdueIntervalHabits store_B (Day day_2024_01_10))).
Proof.
  apply (advance_keeps_rhythm store_B habit_B state_B 3 (days_from_civil 2024 1 1)
           day_2024_01_10 wf_store_B reference_ok_B).
  - left. reflexivity.
  - left. reflexivity.
  - reflexivity.
  - reflexivity.
  - reflexivity.
  - reflexivity.
  - split; intros C; discriminate C.
  - reflexivity.
Defined.

Lemma advance_row_flag (db : Store) (d : Date) (ihs : IntervalHabitStateRow) :
  ihs_reschedule_if_missed (advance_row db d ihs) = ihs_reschedule_if_missed ihs.
Proof. unfold advance_row. destruct (overdue_of _ _ _); reflexivity. Qed.

(** X24: on a well-formed store (unique ids, positive intervals, every
    [next_due] a date of four-digit year) and for a reference day that has,
    as has the day one interval of any habit later, a four-digit year, every
    habit that [getIntervalHabits] returns for the reference day and that is
    not rescheduled when missed is an interval habit whose [nextDue] is on or
    after the reference day, and the days-until the home screen shows for it
    is the exact distance, not a clamped one. *)
Theorem interval_list_days_until (db : Store) (z : Z) (now : Date) (ih : IntervalHabit) :
  wf_intervals db -> reference_ok db z ->
  (forall ihs, In ihs (interval_habit_state db) ->
     ihs_reschedule_if_missed ihs = 0 \/ ihs_reschedule_if_missed ihs = 1) ->
  In ih (snd (getIntervalHabits db (Some (Day z)) now)) ->
  rescheduleIfMissed ih = false ->
  scheduleType (interval_habit ih) = interval
  /\ exists z1,
       nextDue ih = formatDateString (Day z1) /\ z <= z1
       /\ getDaysUntilDate (Day z) (Some (nextDue ih)) = Some (Some (z1 - z)).
Proof.
  intros Hwf Href Hflag Hin Hoff.
  pose proof Href as [Hz _].
  unfold getIntervalHabits in Hin. cbn [snd] in Hin.
  apply in_map_iff in Hin as ([h ihs'] & <- & Hin).
  unfold select_interval_habits in Hin. apply In_order_by in Hin.
  apply in_flat_map in Hin as (h' & Hh & Hin).
  apply in_flat_map in Hin as (ihs0 & Hs & Hin).
  destruct (_ && _) eqn:C; [|destruct Hin].
  destruct Hin as [[= -> ->]|[]].
  apply andb_true_iff in C as [Eid Ek]. apply String.eqb_eq in Eid.
  cbn [fst snd interval_habit rescheduleIfMissed nextDue scheduleType mapRowToHabit] in *.
  split; [destruct (h_schedule_type h); now try discriminate Ek|].
  destruct (autoAdvance_habits db (Day z)) as (Eh & _ & _). rewrite Eh in Hh.
  rewrite autoAdvance_rows in Hs by (apply Hwf). cbn [interval_habit_state] in Hs.
  apply in_map_iff in Hs as (ihs & <- & Hs).
  rewrite advance_row_id in Eid. rewrite advance_row_flag in Hoff.
  assert (Er : ihs_reschedule_if_missed ihs = 0).
  { destruct (Hflag ihs Hs) as [E|E]; [exact E|]. rewrite E in Hoff. discriminate Hoff. }
  assert (Hnext : exists z1, ihs_next_due (advance_row db (Day z) ihs)
                             = formatDateString (Day z1) /\ in_range z1 /\ z <= z1).
  { unfold advance_row.
    destruct (overdue_of db (formatDateString (Day z)) ihs) as [r|] eqn:Ho.
    - destruct (overdue_row_advanced db z ihs r Hwf Href Hs Ho)
        as (z0 & n & _ & _ & _ & _ & _ & _ & Hr & Hb & En & _).
      exists (advanced_day z0 n z). cbn [advanced_row ihs_next_due]. rewrite En.
      split; [reflexivity|]. split; [exact Hr|lia].
    - destruct (wf_next_due db Hwf ihs Hs) as (z0 & Hz0 & E0).
      exists z0. split; [exact E0|]. split; [exact Hz0|].
      unfold overdue_of in Ho.
      rewrite (find_by_key h_id (ihs_habit_id ihs) (habits db) h
                 (wf_habits_pk db Hwf) Hh Eid) in Ho.
      rewrite Er, E0, formatDateString_ltb in Ho by assumption.
      cbn [Z.eqb andb] in Ho.
      destruct (Z.ltb_spec z0 z); [discriminate Ho|assumption]. }
  destruct Hnext as (z1 & E1 & Hr1 & Hle).
  exists z1. split; [exact E1|]. split; [exact Hle|].
  rewrite E1, getDaysUntilDate_days by assumption.
  rewrite Z.max_r by lia. reflexivity.
Qed.

Lemma interval_list_days_until_witness :
  let ih :=
    {| interval_habit := mapRowToHabit habit_B;
       rescheduleIfMissed := false;
       lastCompleted := None;
       nextDue := "2024-01-10" |} in
  scheduleType (interval_habit ih) = interval
  /\ exists z1,
       nextDue ih = formatDateString (Day z1) /\ day_2024_01_10 <= z1
       /\ getDaysUntilDate (Day day_2024_01_10) (Some (nextDue ih))
          = Some (Some (z1 - day_2024_01_10)).
Proof.
  apply (interval_list_days_until store_B day_2024_01_10 InvalidDate _
           wf_store_B reference_ok_B).
  - intros ihs [<-|[]]. left. reflexivity.
  - vm_compute. left. reflexivity.
  - reflexivity.
Defined.

(** A state row completed on its due day makes its habit due on no day
    between that day and [next_due]. *)
Lemma interval_state_due_between (ihs : IntervalHabitStateRow) (a ds : string) :
  ihs_last_completed ihs = Some a -> ihs_last_due ihs = Some a ->
  (ihs_next_due ihs =? ds) = false -> (ihs_next_due ihs <? ds) = false ->
  (a =? ds) = false -> (ds <? a) = false ->
  sql_true (interval_state_due ihs ds) = false.
Proof.
  intros E1 E2 E3 E4 E5 E6. unfold interval_state_due.
  unfold text_eq, text_lt, text_le, text_gt, text_ne, sql_text, int_eq.
  rewrite E1, E2, E3, E4, E5, E6.
  destruct (ihs_reschedule_if_missed ihs =? 1)%Z,
           (ihs_reschedule_if_missed ihs =? 0)%Z, (a <=? ds); reflexivity.
Qed.

(** X25: the cycle of an interval habit, with unique ids, a positive interval
    and a due day that has, as has the day one interval later, a four-digit
    year (1000 to 9999): completed on the day it is due, the habit is off the
    Today list on the days before the next occurrence that carry no
    completion of it, and it is back on the list, with its completion flag
    for that day, one interval after the completion. *)
Theorem completed_interval_habit_returns (db : Store) (h : HabitRow)
    (ihs : IntervalHabitStateRow) (n z : Z) :
  habits_pk db -> interval_state_pk db ->
  In h (habits db) -> h_schedule_type h = interval -> h_interval_days h = Some n ->
  In ihs (interval_habit_state db) -> ihs_habit_id ihs = h_id h ->
  ihs_next_due ihs = formatDateString (Day z) ->
  0 < n -> in_range z -> in_range (z + n) ->
  let db1 := fst (completeHabit db (h_id h) (Day z)) in
  (forall t hc, z < t < z + n ->
     completed_on db (h_id h) (formatDateString (Day t)) = false ->
     In hc (snd (getHabitsForDate db1 (Day t))) -> id (habit hc) <> h_id h)
  /\ In {| habit := mapRowToHabit h;
           completed := completed_on db (h_id h) (formatDateString (Day (z + n))) |}
        (snd (getHabitsForDate db1 (Day (z + n)))).
Proof.
  intros Hpk Hspk Hh Hk Hn Hs Eid End Hpos Hz Hzn db1.
  assert (Hn0 : n <> 0) by lia.
  destruct (completeHabit_interval db h n z Hpk Hh Hk Hn Hn0) as (db0 & I & Hc).
  destruct (insert_or_ignore_tables _ _ _ _ I) as (Eh0 & Ed0 & Es0 & _ & Hcomp).
  rewrite (find_by_key ihs_habit_id (h_id h) (interval_habit_state db) ihs Hspk Hs Eid)
    in Hc.
  rewrite End in Hc.
  assert (E1 : db1 = update_completed db0 (formatDateString (Day z))
                       (formatDateString (Day z)) (formatDateString (Day (z + n)))
                       (h_id h)).
  { unfold db1. rewrite Hc. reflexivity. }
  assert (Eh1 : habits db1 = habits db) by (rewrite E1; exact Eh0).
  assert (Hpk1 : habits_pk db1) by (unfold habits_pk; rewrite Eh1; exact Hpk).
  assert (Hids : map ihs_habit_id (interval_habit_state db1)
                 = map ihs_habit_id (interval_habit_state db)).
  { exact (proj2 (proj2 (completeHabit_frame db (h_id h) (Day z)))). }
  assert (Hspk1 : interval_state_pk db1) by (unfold interval_state_pk; rewrite Hids; exact Hspk).
  set (st := {| ihs_habit_id := ihs_habit_id ihs;
                ihs_last_completed := Some (formatDateString (Day z));
                ihs_last_due := Some (formatDateString (Day z));
                ihs_next_due := formatDateString (Day (z + n));
                ihs_reschedule_if_missed := ihs_reschedule_if_missed ihs |}).
  (* the state rows of the habit after the completion *)
  assert (Hst : forall ihs1, In ihs1 (interval_habit_state db1) ->
                ihs_habit_id ihs1 = h_id h -> ihs1 = st).
  { intros ihs1 Hin1 E. rewrite E1 in Hin1.
    cbn [update_completed interval_habit_state] in Hin1. rewrite Es0 in Hin1.
    apply in_map_iff in Hin1 as (ihs2 & Eu & Hin2).
    destruct (ihs_habit_id ihs2 =? h_id h) eqn:E2.
    - apply String.eqb_eq in E2.
      assert (ihs2 = ihs).
      { apply (same_key_same_row ihs_habit_id (interval_habit_state db)); trivial.
        congruence. }
      subst ihs2. symmetry. exact Eu.
    - subst ihs1. apply String.eqb_neq in E2. contradiction. }
  assert (Hst_in : In st (interval_habit_state db1)).
  { rewrite E1. cbn [update_completed interval_habit_state]. rewrite Es0.
    apply in_map_iff. exists ihs. split; [|exact Hs].
    destruct (ihs_habit_id ihs =? h_id h) eqn:E; [reflexivity|].
    apply String.eqb_neq in E. contradiction. }
  assert (Hkeep : forall t, in_range t -> t <= z + n -> advance_row db1 (Day t) st = st).
  { intros t Ht Hle. unfold advance_row, overdue_of. cbn [st ihs_next_due].
    rewrite formatDateString_ltb by assumption.
    replace (z + n <? t)%Z with false by (symmetry; apply Z.ltb_ge; lia).
    rewrite andb_false_r. destruct (find _ (habits db1)); reflexivity. }
  assert (Hcomp1 : forall t, t <> z -> in_range t ->
    completed_on db1 (h_id h) (formatDateString (Day t))
    = completed_on db (h_id h) (formatDateString (Day t))).
  { intros t Hne Ht. rewrite E1. unfold completed_on.
    cbn [update_completed habit_completions].
    apply eq_true_iff_eq. rewrite !existsb_exists. split.
    - intros (c & Hin & E). apply Hcomp in Hin as [Hin| ->]; [eauto|].
      cbn [c_habit_id c_completed_date] in E. apply andb_true_iff in E as [_ E].
      rewrite formatDateString_eqb in E by assumption. apply Z.eqb_eq in E. lia.
    - intros (c & Hin & E). exists c. split; [|exact E]. apply Hcomp. now left. }
  split.
  - intros t hc Ht Hoff Hin E.
    assert (Hrt : in_range t) by (unfold in_range in *; lia).
    apply getHabitsForDate_In in Hin as (h' & c & -> & Hj & Hw).
    cbn [habit id mapRowToHabit] in E.
    rewrite left_join_advanced in Hj.
    pose proof (left_join_habit db1 _ h' c Hj) as Hh'. rewrite Eh1 in Hh'.
    assert (h' = h) by (apply (same_key_same_row h_id (habits db)); assumption).
    subst h'.
    rewrite due_where_interval in Hw by assumption.
    pose proof (left_join_completed db1 _ h c Hj) as Ec.
    fold (completed_on db1 (h_id h) (formatDateString (Day t))) in Ec.
    rewrite Hcomp1, Hoff in Ec by (trivial; lia). rewrite Ec in Hw. cbn [orb] in Hw.
    apply existsb_exists in Hw as (ihs' & Hin' & Hdue).
    apply andb_true_iff in Hdue as [Ei Hdue]. apply String.eqb_eq in Ei.
    rewrite autoAdvance_rows in Hin' by assumption. cbn [interval_habit_state] in Hin'.
    apply in_map_iff in Hin' as (ihs1 & <- & Hin1).
    rewrite advance_row_id in Ei.
    rewrite (Hst ihs1 Hin1 Ei), Hkeep in Hdue by (trivial; lia).
    rewrite (interval_state_due_between st (formatDateString (Day z))) in Hdue;
      [discriminate Hdue|reflexivity|reflexivity|..]; cbn [st ihs_next_due].
    + rewrite formatDateString_eqb by assumption. apply Z.eqb_neq. lia.
    + rewrite formatDateString_ltb by assumption. apply Z.ltb_ge. lia.
    + rewrite formatDateString_eqb by assumption. apply Z.eqb_neq. lia.
    + rewrite formatDateString_ltb by assumption. apply Z.ltb_ge. lia.
  - assert (Hh1 : In h (habits db1)) by (rewrite Eh1; exact Hh).
    destruct (interval_habit_listed db1 (Day (z + n)) h st Hh1 Hk) as (c & Hin).
    + rewrite autoAdvance_rows by assumption. cbn [interval_habit_state].
      apply in_map_iff. exists st. split; [|exact Hst_in].
      apply Hkeep; [exact Hzn|lia].
    + exact Eid.
    + apply interval_state_due_next. reflexivity.
    + destruct (getHabitsForDate_flag db1 (Day (z + n)) _ Hin) as [Ec _].
      cbn [completed habit id mapRowToHabit] in Ec.
      rewrite Hcomp1 in Ec by (trivial; lia). rewrite <- Ec. exact Hin.
Qed.

Lemma completed_interval_habit_returns_witness :
  let db1 := fst (completeHabit store_week "i" (Day day_2024_01_10)) in
  (forall t hc, day_2024_01_10 < t < day_2024_01_10 + 3 ->
     completed_on store_week "i" (formatDateString (Day t)) = false ->
     In hc (snd (getHabitsForDate db1 (Day t))) -> id (habit hc) <> "i")
  /\ In {| habit := mapRowToHabit habit_every_3;
           completed :=
             completed_on store_week "i" (formatDateString (Day (day_2024_01_10 + 3))) |}
        (snd (getHabitsForDate db1 (Day (day_2024_01_10 + 3)))).
Proof.
  apply (completed_interval_habit_returns store_week habit_every_3 state_every_3 3
           day_2024_01_10 habits_pk_week interval_state_pk_week).
  - right. right. right. left. reflexivity.
  - reflexivity.
  - reflexivity.
  - left. reflexivity.
  - reflexivity.
  - reflexivity.
  - lia.
  - exact in_range_day_2024_01_10.
  - exact in_range_2024_01_13.
Defined.

End Flows.

(** ** The edit screen *)

Module EditScreen.
Import Calendar Js Schema Repo Queries Screens Scenarios MoreScenarios Checks Wf Constraints.
Import CalendarFacts DateStrings DateArith StoreFacts Advancer Resolver ResolverClaims.
Import Ledger Create ListFacts DateRoundTrip Views Accounting Lifecycle CreateDelete Flows.

Local Open Scope string_scope.

Lemma known_ids (db : Store) (habitId : string) :
  known db habitId <-> In habitId (map h_id (habits db)).
Proof.
  unfold known. rewrite in_map_iff. split; intros (h & A & B); exists h; auto.
Qed.

(** A write to [habits] that keeps the ids keeps the constraints. *)
Lemma schema_ok_same_ids (db db1 : Store) :
  schema_ok db ->
  map h_id (habits db1) = map h_id (habits db) ->
  habit_days db1 = habit_days db ->
  habit_completions db1 = habit_completions db ->
  interval_habit_state db1 = interval_habit_state db ->
  schema_ok db1.
Proof.
  intros Hok Eh Ed Ec Es.
  assert (Hk : forall k, known db k -> known db1 k).
  { intros k Hk. apply known_ids. rewrite Eh. apply known_ids. exact Hk. }
  constructor; unfold habits_pk, interval_state_pk, completions_unique;
    rewrite ?Eh, ?Ed, ?Ec, ?Es; try (apply Hok).
  - intros hd Hin. apply Hk. exact (ok_days_fk db Hok hd Hin).
  - intros c Hin. apply Hk. exact (ok_completions_fk db Hok c Hin).
  - intros ihs Hin. apply Hk. exact (ok_state_fk db Hok ihs Hin).
Qed.

Lemma update_name_ids (db : Store) (nm now habitId : string) :
  map h_id (habits (update_name db nm now habitId)) = map h_id (habits db).
Proof.
  unfold update_name. cbn [habits]. rewrite map_map. apply map_ext.
  intros h. destruct (h_id h =? habitId); reflexivity.
Qed.

Lemma loadHabit_found (db : Store) (h : HabitRow) :
  habits_pk db -> In h (habits db) ->
  option_map details_scheduleType (loadHabit db (h_id h)) = Some (h_schedule_type h).
Proof.
  intros Hpk Hh. unfold loadHabit.
  rewrite (find_by_key h_id (h_id h) (habits db) h Hpk Hh eq_refl). reflexivity.
Qed.

Lemma update_name_rows (db : Store) (h : HabitRow) (nm now : string) (h1 : HabitRow) :
  habits_pk db -> In h (habits db) ->
  (In h1 (habits (update_name db nm now (h_id h)))
   <-> h1 = renamed h nm now \/ (In h1 (habits db) /\ h_id h1 <> h_id h)).
Proof.
  intros Hpk Hh. unfold update_name. cbn [habits]. rewrite in_map_iff. split.
  - intros (h0 & E & Hin). destruct (h_id h0 =? h_id h) eqn:E0.
    + apply String.eqb_eq in E0.
      assert (h0 = h) by (apply (same_key_same_row h_id (habits db)); assumption).
      subst h0. left. symmetry. exact E.
    + subst h1. right. split; [exact Hin|]. now apply String.eqb_neq.
  - intros [->|[Hin Hne]].
    + exists h. split; [|exact Hh]. now rewrite String.eqb_refl.
    + exists h1. split; [|exact Hin]. apply String.eqb_neq in Hne. now rewrite Hne.
Qed.

(** X26: saving the edit screen of a weekday or one-time habit, with a name
    and distinct days within 0..6, resolves; the habit gets the new name, its
    rows of [habit_days] become exactly the selected days, and nothing else
    changes: the other habits and their days, the completions and the
    interval states stay, and the constraints of the schema hold.  A weekday
    habit is then on the Today list exactly on the selected weekdays; a
    one-time habit saved with a day selected has weekday rows although it has
    a one-time date. *)
Theorem edit_custom_habit (db : Store) (h : HabitRow) (trimmed now : string)
    (selectedDays : list Z) (intervalDays : Z) :
  schema_ok db -> In h (habits db) -> h_schedule_type h = custom ->
  h_id h <> "" -> trimmed <> "" ->
  NoDup selectedDays -> (forall d, In d selectedDays -> 0 <= d <= 6) ->
  let result :=
    EditHabitModal_handleSave db (h_id h) trimmed now (loadHabit db (h_id h))
                              selectedDays intervalDays in
  let db1 := fst result in
  snd result = Resolved tt
  /\ (forall h1, In h1 (habits db1)
                 <-> h1 = renamed h trimmed now \/ (In h1 (habits db) /\ h_id h1 <> h_id h))
  /\ (forall d, In (mkHabitDayRow (h_id h) d) (habit_days db1) <-> In d selectedDays)
  /\ (forall hd, hd_habit_id hd <> h_id h ->
        (In hd (habit_days db1) <-> In hd (habit_days db)))
  /\ habit_completions db1 = habit_completions db
  /\ interval_habit_state db1 = interval_habit_state db
  /\ schema_ok db1
  /\ (h_one_time_date h = None ->
      forall t, (exists hc, In hc (snd (getHabitsForDate db1 (Day t)))
                            /\ id (habit hc) = h_id h)
                <-> In (WeekDay t) selectedDays)
  /\ (h_one_time_date h <> None -> selectedDays <> [] -> ~ one_time_xor_days db1).
Proof.
  intros Hok Hh Hk Hid Hname Hnd Hr result db1.
  pose proof (ok_habits_pk db Hok) as Hpk.
  set (dba := update_name db trimmed now (h_id h)).
  set (dbb := delete_days dba (h_id h)).
  assert (Er : result = insert_habit_days dbb (h_id h) selectedDays).
  { unfold result, EditHabitModal_handleSave.
    rewrite !string_truthy by assumption. cbn [negb orb].
    rewrite loadHabit_found, Hk by assumption. reflexivity. }
  assert (Hoka : schema_ok dba).
  { apply (schema_ok_same_ids db); trivial. apply update_name_ids. }
  assert (Hokb : schema_ok dbb).
  { constructor; unfold habits_pk, interval_state_pk, completions_unique;
      cbn [dbb delete_days habits habit_days habit_completions interval_habit_state];
      try (apply Hoka).
    - apply NoDup_filter. apply Hoka.
    - intros hd Hin. apply filter_In in Hin as [Hin _]. exact (ok_days_check dba Hoka hd Hin).
    - intros hd Hin. apply filter_In in Hin as [Hin _]. exact (ok_days_fk dba Hoka hd Hin). }
  assert (Hkb : known dbb (h_id h)).
  { exists (renamed h trimmed now). split; [|reflexivity].
    cbn [dbb delete_days habits]. apply update_name_rows; auto. }
  assert (Hres : snd (insert_habit_days dbb (h_id h) selectedDays) = Resolved tt).
  { apply insert_habit_days_resolves; [exact Hkb|].
    split; [exact Hnd|]. split; [exact Hr|].
    intros d _ Hin. cbn [dbb delete_days habit_days] in Hin.
    apply filter_In in Hin as [_ Hin]. cbn [hd_habit_id] in Hin.
    now rewrite String.eqb_refl in Hin. }
  destruct (insert_habit_days_shape (h_id h) selectedDays dbb) as (pre & E & _ & Hall).
  specialize (Hall Hres). subst pre.
  assert (E1 : db1 = with_rows dbb [] (map (mkHabitDayRow (h_id h)) selectedDays) []).
  { unfold db1. rewrite Er. exact E. }
  assert (Ehab : habits db1 = habits dba).
  { rewrite E1. cbn [with_rows habits dbb delete_days]. apply app_nil_r. }
  assert (Edays : habit_days db1
                  = (filter (fun hd => negb (hd_habit_id hd =? h_id h)) (habit_days db)
                     ++ map (mkHabitDayRow (h_id h)) selectedDays)%list).
  { rewrite E1. reflexivity. }
  assert (Hmine : forall d, In (mkHabitDayRow (h_id h) d) (habit_days db1)
                            <-> In d selectedDays).
  { intros d. rewrite Edays, in_app_iff. split.
    - intros [Hin|Hin].
      + apply filter_In in Hin as [_ Hin]. cbn [hd_habit_id] in Hin.
        now rewrite String.eqb_refl in Hin.
      + apply in_map_iff in Hin as (d' & [= <-] & Hd). exact Hd.
    - intros Hd. right. apply in_map. exact Hd. }
  assert (Hrows := fun h1 => update_name_rows db h trimmed now h1 Hpk Hh).
  split; [rewrite Er; exact Hres|].
  repeat match goal with |- _ /\ _ => split end.
  - intros h1. rewrite Ehab. apply Hrows.
  - exact Hmine.
  - intros hd Hne. rewrite Edays, in_app_iff, filter_In. split.
    + intros [[Hin _]|Hin]; [exact Hin|].
      apply in_map_iff in Hin as (d & <- & _). now contradiction Hne.
    + intros Hin. left. split; [exact Hin|]. now apply negb_true_iff, String.eqb_neq.
  - rewrite E1. reflexivity.
  - rewrite E1. cbn [with_rows interval_habit_state dbb delete_days dba update_name].
    apply app_nil_r.
  - unfold db1. rewrite Er. apply schema_ok_insert_days. exact Hokb.
  - intros Ho t. split.
    + intros (hc & Hin & Eid).
      apply getHabitsForDate_In in Hin as (h1 & c & -> & Hj & Hw).
      cbn [habit id mapRowToHabit] in Eid.
      rewrite left_join_advanced in Hj.
      pose proof (left_join_habit db1 _ h1 c Hj) as Hh1.
      rewrite Ehab in Hh1. apply Hrows in Hh1 as [->|[_ Hne]]; [|contradiction].
      rewrite due_where_weekdays in Hw by assumption.
      destruct (autoAdvance_habits db1 (Day t)) as (_ & Ed & _). rewrite Ed in Hw.
      apply existsb_exists in Hw as ([hid d] & Hin & E').
      cbn [hd_habit_id hd_day_of_week renamed h_id getDay int_eq sql_true] in E'.
      apply andb_true_iff in E' as [Ea Eb]. apply String.eqb_eq in Ea. subst hid.
      destruct (Z.eqb_spec d (WeekDay t)) as [->|]; [|discriminate Eb].
      apply Hmine. exact Hin.
    + intros Hd.
      assert (Hren : In (renamed h trimmed now) (habits db1)).
      { rewrite Ehab. apply Hrows. now left. }
      destruct (left_join_total db1 (formatDateString (Day t)) _ Hren) as (c & Hj).
      exists {| habit := mapRowToHabit (renamed h trimmed now);
                completed := completed_of c |}.
      split; [|reflexivity].
      apply getHabitsForDate_In. exists (renamed h trimmed now), c.
      rewrite left_join_advanced. split; [reflexivity|]. split; [exact Hj|].
      rewrite due_where_weekdays by assumption.
      destruct (autoAdvance_habits db1 (Day t)) as (_ & Ed & _). rewrite Ed.
      apply existsb_exists. exists (mkHabitDayRow (h_id h) (WeekDay t)).
      split; [apply Hmine; exact Hd|].
      cbn [hd_habit_id hd_day_of_week renamed h_id getDay int_eq sql_true].
      now rewrite String.eqb_refl, Z.eqb_refl.
  - intros Ho Hsel Hx.
    destruct selectedDays as [|d l]; [contradiction|].
    apply (Hx (renamed h trimmed now) (mkHabitDayRow (h_id h) d)).
    + rewrite Ehab. apply Hrows. now left.
    + exact Hk.
    + exact Ho.
    + apply Hmine. now left.
    + reflexivity.
Qed.

Lemma edit_custom_habit_witness :
  let result :=
    EditHabitModal_handleSave store_week "w" "run" "2024-01-09T08:00:00.000Z"
                              (loadHabit store_week "w") [2; 5]%Z 3 in
  snd result = Resolved tt
  /\ (forall d, In (mkHabitDayRow "w" d) (habit_days (fst result)) <-> In d [2; 5]%Z)
  /\ habit_completions (fst result) = habit_completions store_week
  /\ schema_ok (fst result).
Proof.
  assert (Hnd : NoDup [2; 5]%Z).
  { repeat constructor; cbn; intros C;
      repeat (destruct C as [C|C]; [discriminate C|]); exact C. }
  assert (Hr : forall d, In d [2; 5]%Z -> 0 <= d <= 6).
  { intros d Hd. repeat (destruct Hd as [<-|Hd]; [lia|]). destruct Hd. }
  assert (Hh : In habit_weekdays (habits store_week)) by (right; left; reflexivity).
  assert (Hid : h_id habit_weekdays <> "") by discriminate.
  assert (Hname : "run" <> "") by discriminate.
  destruct (edit_custom_habit store_week habit_weekdays "run" "2024-01-09T08:00:00.000Z"
              [2; 5]%Z 3 schema_ok_week Hh eq_refl Hid Hname Hnd Hr)
    as (H1 & _ & H3 & _ & H5 & _ & H7 & _).
  split; [exact H1|]. split; [exact H3|]. split; [exact H5|exact H7].
Defined.

Lemma update_interval_rows (db : Store) (h : HabitRow) (n : Z) (h1 : HabitRow) :
  habits_pk db -> In h (habits db) ->
  (In h1 (habits (update_interval_days db n (h_id h)))
   <-> h1 = {| h_id := h_id h; h_name := h_name h;
               h_schedule_type := h_schedule_type h;
               h_interval_days := Some n; h_one_time_date := h_one_time_date h;
               h_created_at := h_created_at h; h_updated_at := h_updated_at h |}
       \/ (In h1 (habits db) /\ h_id h1 <> h_id h)).
Proof.
  intros Hpk Hh. unfold update_interval_days. cbn [habits]. rewrite in_map_iff. split.
  - intros (h0 & E & Hin). destruct (h_id h0 =? h_id h) eqn:E0.
    + apply String.eqb_eq in E0.
      assert (h0 = h) by (apply (same_key_same_row h_id (habits db)); assumption).
      subst h0. left. symmetry. exact E.
    + subst h1. right. split; [exact Hin|]. now apply String.eqb_neq.
  - intros [->|[Hin Hne]].
    + exists h. split; [|exact Hh]. now rewrite String.eqb_refl.
    + exists h1. split; [|exact Hin]. apply String.eqb_neq in Hne. now rewrite Hne.
Qed.

(** X27: saving the edit screen of an interval habit resolves, writes the new
    name and the new interval to the habit and leaves every other table as it
    is: [next_due] is not moved by the edit.  The new interval counts from the
    next completion: completing the habit on a day then sets [next_due] to
    that day plus the new interval, as long as both are days a [Date] can
    hold. *)
Theorem edit_interval_habit (db : Store) (h : HabitRow) (trimmed now : string)
    (selectedDays : list Z) (intervalDays : Z) :
  habits_pk db -> In h (habits db) -> h_schedule_type h = interval ->
  h_id h <> "" -> trimmed <> "" ->
  let result :=
    EditHabitModal_handleSave db (h_id h) trimmed now (loadHabit db (h_id h))
                              selectedDays intervalDays in
  let db1 := fst result in
  let edited :=
    {| h_id := h_id h; h_name := trimmed; h_schedule_type := interval;
       h_interval_days := Some intervalDays; h_one_time_date := h_one_time_date h;
       h_created_at := h_created_at h; h_updated_at := now |} in
  snd result = Resolved tt
  /\ (forall h1, In h1 (habits db1)
                 <-> h1 = edited \/ (In h1 (habits db) /\ h_id h1 <> h_id h))
  /\ habit_days db1 = habit_days db
  /\ habit_completions db1 = habit_completions db
  /\ interval_habit_state db1 = interval_habit_state db
  /\ (intervalDays <> 0 ->
      forall z ihs,
        date_range z -> date_range (z + intervalDays) ->
        In ihs (interval_habit_state (fst (completeHabit db1 (h_id h) (Day z)))) ->
        ihs_habit_id ihs = h_id h ->
        ihs_next_due ihs = formatDateString (Day (z + intervalDays))).
Proof.
  intros Hpk Hh Hk Hid Hname result db1 edited.
  set (dba := update_name db trimmed now (h_id h)).
  assert (Er : result = (update_interval_days dba intervalDays (h_id h), Resolved tt)).
  { unfold result, EditHabitModal_handleSave.
    rewrite !string_truthy by assumption. cbn [negb orb].
    rewrite loadHabit_found, Hk by assumption. reflexivity. }
  assert (E1 : db1 = update_interval_days dba intervalDays (h_id h)).
  { unfold db1. rewrite Er. reflexivity. }
  assert (Hpka : habits_pk dba).
  { unfold habits_pk, dba. rewrite update_name_ids. exact Hpk. }
  assert (Hra : In (renamed h trimmed now) (habits dba)).
  { apply update_name_rows; auto. }
  assert (Hrows : forall h1, In h1 (habits db1)
                  <-> h1 = edited \/ (In h1 (habits db) /\ h_id h1 <> h_id h)).
  { intros h1. rewrite E1.
    rewrite (update_interval_rows dba (renamed h trimmed now) intervalDays h1 Hpka Hra).
    cbn [renamed h_id h_name h_schedule_type h_one_time_date h_created_at h_updated_at].
    rewrite Hk. fold edited. split.
    - intros [->|[Hin Hne]]; [now left|].
      apply update_name_rows in Hin as [->|Hin]; trivial.
      + now contradiction Hne.
      + now right.
    - intros [->|[Hin Hne]]; [now left|]. right. split; [|exact Hne].
      apply update_name_rows; auto. }
  split; [rewrite Er; reflexivity|].
  split; [exact Hrows|].
  split; [rewrite E1; reflexivity|].
  split; [rewrite E1; reflexivity|].
  split; [rewrite E1; reflexivity|].
  intros Hn z ihs _ _ Hin Eid.
  assert (Hpk1 : habits_pk db1).
  { unfold habits_pk. rewrite E1. unfold update_interval_days. cbn [habits].
    rewrite map_map.
    replace (map _ (habits dba)) with (map h_id (habits dba)); [exact Hpka|].
    apply map_ext. intros h0. destruct (h_id h0 =? h_id h); reflexivity. }
  assert (Hed : In edited (habits db1)) by (apply Hrows; now left).
  destruct (completeHabit_interval db1 edited intervalDays z Hpk1 Hed eq_refl eq_refl Hn)
    as (db0 & I & Hc).
  cbn [edited h_id] in Hc, I. rewrite Hc in Hin. cbn [fst] in Hin.
  cbn [update_completed interval_habit_state] in Hin.
  apply in_map_iff in Hin as (ihs0 & Eu & _).
  destruct (ihs_habit_id ihs0 =? h_id h) eqn:E0.
  - subst ihs. reflexivity.
  - subst ihs. apply String.eqb_neq in E0. contradiction.
Qed.

Lemma edit_interval_habit_witness :
  let result :=
    EditHabitModal_handleSave store_week "i" "water the plants"
                              "2024-01-09T08:00:00.000Z" (loadHabit store_week "i") [] 7 in
  snd result = Resolved tt
  /\ interval_habit_state (fst result) = interval_habit_state store_week
  /\ forall ihs,
       In ihs (interval_habit_state
                 (fst (completeHabit (fst result) "i" (Day day_2024_01_10)))) ->
       ihs_habit_id ihs = "i" ->
       ihs_next_due ihs = formatDateString (Day (day_2024_01_10 + 7)).
Proof.
  assert (Hh : In habit_every_3 (habits store_week))
    by (right; right; right; left; reflexivity).
  assert (Hid : h_id habit_every_3 <> "") by discriminate.
  assert (Hname : "water the plants" <> "") by discriminate.
  destruct (edit_interval_habit store_week habit_every_3 "water the plants"
              "2024-01-09T08:00:00.000Z" [] 7 habits_pk_week Hh eq_refl Hid Hname)
    as (H1 & _ & _ & _ & H5 & H6).
  split; [exact H1|]. split; [exact H5|].
  intros ihs Hin Eid.
  assert (Hn : 7 <> 0) by discriminate.
  apply (H6 Hn day_2024_01_10 ihs); trivial; split; intros C; discriminate C.
Defined.

End EditScreen.
